(** * Ship: the request pipeline and the shutdown coordinator

    A shallow embedding of the dispatcher of the [ship] package (the file
    defining [type Ship struct]) and of [NewPanicMiddleware] from
    [middleware.go].  Go objects that are shared and mutated through pointers
    ([*Ship], [*contextT]) live in explicit heaps; a Go function with effects
    is a computation in a small state monad whose result is either a value or
    an abort (a panic unwinding the goroutine, or a goroutine blocked for
    ever). *)

From stdpp Require Import gmap strings list.
From Stdlib Require Import ZArith.

Set Default Proof Using "Type".

(** ** Values, errors and aborts *)

(** The structured HTTP error is an interface; the dispatcher only looks at
    what its methods return, so an error value is the record of these
    results: [Code()], [Message()], [ContentType()] and [Error()]. *)
Record HTTPError := mkHTTPError {
  Code : Z;
  Message : string;
  ContentType : string;
  ErrorText : string
}.

(** A Go [error] reaching the dispatcher: a structured HTTP error, the
    sentinel [ErrSkip] (compared by identity), or any other error, of which
    only the text returned by [Error()] matters. *)
Inductive error :=
| EHTTP (he : HTTPError)
| ErrSkip
| EPlain (text : string).

(** The value carried by a panic ([interface{}]).  [VNil] is the value of
    [panic(nil)]: [recover()] then returns nil, as it does when there is no
    panic (the run-time of the time of this code; since Go 1.21 it puts a
    [*runtime.PanicNilError] in the place of the nil). *)
Inductive value :=
| VNil
| VString (s : string)
| VError (e : error)
| VRuntime (s : string).

Inductive abort :=
| Panic (v : value)     (* a panic unwinding the stack *)
| Deadlock              (* the goroutine blocks for ever on a lock *)
| OutOfFuel.            (* artefact of the bounded callback recursion *)

Inductive res (A : Type) :=
| Ok (a : A)
| Abort (e : abort).
Arguments Ok {A} a.
Arguments Abort {A} e.

(** ** The state monad with aborts *)

Definition M (S A : Type) : Type := S → res A * S.

Definition m_ret {S A} (a : A) : M S A := λ s, (Ok a, s).

Definition m_bind {S A B} (f : A → M S B) (m : M S A) : M S B :=
  λ s, match m s with
       | (Ok a, s') => f a s'
       | (Abort e, s') => (Abort e, s')
       end.

#[export] Instance M_ret {S} : MRet (M S) := @m_ret S.
#[export] Instance M_bind {S} : MBind (M S) := @m_bind S.

Definition get {S} : M S S := λ s, (Ok s, s).
Definition put {S} (s : S) : M S () := λ _, (Ok (), s).
Definition modify {S} (f : S → S) : M S () := λ s, (Ok (), f s).
Definition throw {S A} (e : abort) : M S A := λ s, (Abort e, s).
Definition panic {S A} (v : value) : M S A := throw (Panic v).

(** [v != nil] for the value [recover()] returns. *)
Definition is_nil (v : value) : bool :=
  match v with
  | VNil => true
  | _ => false
  end.

(** [defer func() { if v := recover(); v != nil { h(v) } }()] around [body],
    in a function whose named result is initialised to [zero]: a panic of
    the body is stopped by the call of [recover()]; the handler runs when
    the value recovered is not nil; and the function returns the result
    variable, which the interrupted body never assigned. *)
Definition recover_with {S A} (zero : A) (h : value → M S ()) (body : M S A)
  : M S A :=
  λ s, match body s with
       | (Ok a, s') => (Ok a, s')
       | (Abort (Panic v), s') =>
           if is_nil v then (Ok zero, s')
           else
             match h v s' with
             | (Ok _, s'') => (Ok zero, s'')
             | (Abort e, s'') => (Abort e, s'')
             end
       | (Abort e, s') => (Abort e, s')
       end.

(** [defer cleanup()] around [body]: the cleanup runs when the body returns
    and when it panics; a blocked goroutine never reaches it. *)
Definition deferred {S A} (cleanup : M S ()) (body : M S A) : M S A :=
  λ s, match body s with
       | (Ok a, s') =>
           match cleanup s' with
           | (Ok _, s'') => (Ok a, s'')
           | (Abort e, s'') => (Abort e, s'')
           end
       | (Abort (Panic v), s') =>
           match cleanup s' with
           | (Ok _, s'') => (Abort (Panic v), s'')
           | (Abort e, s'') => (Abort e, s'')
           end
       | (Abort e, s') => (Abort e, s')
       end.

(** [for _, x := range xs { f(x) }] *)
Fixpoint for_each {S A} (f : A → M S ()) (xs : list A) : M S () :=
  match xs with
  | [] => mret ()
  | x :: xs' => f x;; for_each f xs'
  end.

(** ** Requests, routers and contexts *)

Record Request := mkRequest {
  Host : string;
  Method : string;
  Path : string
}.

Definition ResponseWriter := nat.
Definition Logger := nat.

(** A route handler stored in a router is named by an identifier; what it
    does is given by an interpretation [routes], a parameter of the
    definitions that call route handlers. *)
Definition HandlerId := nat.

(** The [Router] interface, reduced to [Find(method, path, ...)]; [None] is
    the nil handler of a lookup without match. *)
Definition Router := string → string → option HandlerId.

(** Modelled from the spec: the struct [contextT] behind the [Context]
    interface is not part of the sources at hand.  Its fields follow the
    data model: request and response handles, the router set by
    [handleRequest], the key/value store, the parameter values, the error
    slot, the debug flag and the logger of the owning dispatcher. *)
Record contextT := mkContext {
  c_req : option Request;
  c_resp : option ResponseWriter;
  c_router : option Router;
  c_store : gmap string string;
  c_pvalues : list string;
  c_err : option error;
  c_debug : bool;
  c_logger : option Logger
}.

(** A [Context] interface value: nil, or a pointer to a [contextT]. *)
Abbreviation cptr := nat.
Abbreviation Context := (option cptr).

(** What a request leaves behind: responses written and log entries. *)
Inductive event :=
| EvBlob (code : Z) (ct body : string)     (* ctx.Blob(code, ct, body) *)
| EvNoContent (code : Z)                   (* ctx.NoContent(code) *)
| EvString (code : Z) (body : string)      (* ctx.String(code, body) *)
| EvLogError (lg : Logger) (msg : string)  (* logger.Error(...) *)
| EvLogInfo (lg : Logger) (msg : string)   (* logger.Info(...) *)
| EvCall (id : nat)                        (* a user function ran *)
| EvEnter (name : string)
| EvExit (name : string).

(** The state a handler works on: the heap of contexts and the trace. *)
Record HState := mkHState {
  ctxs : list contextT;
  trace : list event
}.

Abbreviation H := (M HState).
Abbreviation Handler := (Context → H (option error)).
Abbreviation Middleware := (Handler → Handler).

Definition nil_deref : value :=
  VRuntime "invalid memory address or nil pointer dereference".

Definition emit (e : event) : H () :=
  modify (λ h, mkHState (ctxs h) (trace h ++ [e])).

(** Dereference of a [Context]; a nil interface panics. *)
Definition deref (ctx : Context) : H contextT :=
  h ← get;
  match ctx with
  | Some c => match ctxs h !! c with
              | Some cx => mret cx
              | None => panic nil_deref
              end
  | None => panic nil_deref
  end.

(** Assignment to fields of the context [c] points to. *)
Definition update_ctx (c : cptr) (f : contextT → contextT) : H () :=
  cx ← deref (Some c);
  modify (λ h, mkHState (<[c := f cx]> (ctxs h)) (trace h)).

(** Modelled from the spec: the methods of [Context] that the dispatcher
    calls ([IsDebug], [Logger], [Blob], [NoContent], [String]) belong to the
    missing [contextT]; the first two read the fields, the others write a
    response, recorded in the trace. *)
Definition ctx_IsDebug (ctx : Context) : H bool :=
  cx ← deref ctx; mret (c_debug cx).
Definition ctx_Logger (ctx : Context) : H (option Logger) :=
  cx ← deref ctx; mret (c_logger cx).
Definition ctx_Blob (ctx : Context) (code : Z) (ct body : string) : H () :=
  deref ctx;; emit (EvBlob code ct body).
Definition ctx_NoContent (ctx : Context) (code : Z) : H () :=
  deref ctx;; emit (EvNoContent code).
Definition ctx_String (ctx : Context) (code : Z) (body : string) : H () :=
  deref ctx;; emit (EvString code body).

Definition StatusInternalServerError : Z := 500.
Definition StatusNotFound : Z := 404.

(** [logger.Error("%s", msg)] behind [if logger := ctx.Logger(); logger != nil] *)
Definition log_error (ctx : Context) (msg : string) : H () :=
  logger ← ctx_Logger ctx;
  match logger with
  | Some lg => emit (EvLogError lg msg)
  | None => mret ()
  end.

(** ** The default error handler *)

(** [func (s *Ship) handleError(ctx Context, err error)] *)
Definition handleError (ctx : Context) (err : error) : H () :=
  match err with
  | EHTTP he =>
      let code := Code he in
      let ct := ContentType he in
      msg ← (if bool_decide (400 ≤ code ∧ code < 500)%Z then mret (ErrorText he)
             else if bool_decide (500 ≤ code)%Z then
               debug ← ctx_IsDebug ctx;
               mret (if debug : bool then ErrorText he else Message he)
             else mret (Message he));
      ctx_Blob ctx code ct msg;;
      if bool_decide (500 ≤ code)%Z then log_error ctx (ErrorText he)
      else mret ()
  | ErrSkip => mret ()
  | EPlain text =>
      ctx_NoContent ctx StatusInternalServerError;;
      log_error ctx text
  end.

(** ** Handlers and middlewares of the package *)

(** [notFoundHandler]: [return ctx.String(http.StatusNotFound, "Not Found")] *)
Definition notFoundHandler : Handler :=
  λ ctx, ctx_String ctx StatusNotFound "Not Found";; mret None.

Abbreviation PanicHandler := (Context → value → H ()).

(** The callback [NewPanicMiddleware] settles on:
    [if len(handle) > 0 && handle[0] != nil { handlePanic = handle[0] }];
    [HandlePanic] is the package default, taken as a parameter. *)
Definition chosen_callback (HandlePanic : PanicHandler)
    (handle : list (option PanicHandler)) : PanicHandler :=
  match handle with
  | Some h :: _ => h
  | _ => HandlePanic
  end.

(** [NewPanicMiddleware(handle ...func(Context, interface{})) Middleware] *)
Definition NewPanicMiddleware (HandlePanic : PanicHandler)
    (handle : list (option PanicHandler)) : Middleware :=
  let handlePanic := chosen_callback HandlePanic handle in
  λ next ctx, recover_with None (handlePanic ctx) (next ctx).

(** ** Configuration *)

Definition Signal := nat.

(** [strings.TrimSuffix(s, suffix)], on the characters of the strings. *)
Fixpoint strip_prefix (pre l : list Ascii.ascii) : option (list Ascii.ascii) :=
  match pre, l with
  | [], _ => Some l
  | a :: pre', b :: l' => if decide (a = b) then strip_prefix pre' l' else None
  | _ :: _, [] => None
  end.

Definition TrimSuffix (s suffix : string) : string :=
  match strip_prefix (reverse (String.list_ascii_of_string suffix))
          (reverse (String.list_ascii_of_string s)) with
  | Some r => String.string_of_list_ascii (reverse r)
  | None => s
  end.

(** [type Config struct], in the order of its fields.  Left out are the
    fields nothing here reads: [KeepTrailingSlashPath], [Session],
    [OptionsHandler] and [MethodNotAllowedHandler], which [init] does not
    touch, and [DefaultMethodMapping], [BindQuery], [Binder] and
    [Renderer], which [init] replaces by a default when they are nil and
    leaves alone otherwise. *)
Record Config := mkConfig {
  Name : string;
  Prefix : string;
  Debug : bool;
  BufferSize : Z;
  ContextStoreSize : Z;
  MiddlewareMaxNum : Z;
  Signals : option (list Signal);
  cfg_Logger : option Logger;
  NewRouter : option Router;
  HandleError : option (Context → error → H ());
  NotFoundHandler : option Handler
}.

(** Modelled from the spec: [NewNoLevelLogger(os.Stdout)] and
    [echo.NewRouter] are declared outside the sources at hand; the first
    is a fixed log sink and the second a router without routes. *)
Definition StdoutLogger : Logger := 0.
Definition echo_NewRouter : Router := λ _ _, None.

(** [os.Interrupt, SIGTERM, SIGQUIT, SIGABRT, SIGINT] by their numbers. *)
Definition default_Signals : list Signal := [2; 15; 3; 6; 2].

(** [func (c *Config) init(s *Ship)], on the fields kept by the model. *)
Definition Config_init (c : Config) : Config :=
  {| Name := Name c;
     Prefix := TrimSuffix (Prefix c) "/";
     Debug := Debug c;
     BufferSize := if decide (BufferSize c ≤ 0)%Z then 2048%Z else BufferSize c;
     ContextStoreSize :=
       if decide (ContextStoreSize c < 0)%Z then 0%Z else ContextStoreSize c;
     MiddlewareMaxNum :=
       if decide (MiddlewareMaxNum c ≤ 0)%Z then 256%Z else MiddlewareMaxNum c;
     Signals := Some (default default_Signals (Signals c));
     cfg_Logger := Some (default StdoutLogger (cfg_Logger c));
     NewRouter := Some (default echo_NewRouter (NewRouter c));
     HandleError := Some (default handleError (HandleError c));
     NotFoundHandler := Some (default notFoundHandler (NotFoundHandler c)) |}.

(** Calling a function-typed field; a nil function panics. *)
Definition call_HandleError (c : Config) (ctx : Context) (err : error) : H () :=
  match HandleError c with
  | Some f => f ctx err
  | None => panic nil_deref
  end.

Definition call_NotFoundHandler (c : Config) : Handler :=
  λ ctx, match NotFoundHandler c with
         | Some f => f ctx
         | None => panic nil_deref
         end.

(** ** Dispatchers *)

Abbreviation ptr := nat.

(** The functions registered for shutdown are Go closures.  The ones the
    package itself registers are the method values [r.shutdown] and [s.stop];
    a function of the user is opaque and leaves its mark in the trace. *)
Inductive callback :=
| CbUser (id : nat)
| CbShutdown (p : ptr)
| CbStop (p : ptr).

#[export] Instance callback_eq_dec : EqDecision callback.
Proof. solve_decision. Defined.

(** [type stopT struct { once sync.Once; f func() }] *)
Record stopT := mkStopT {
  st_once : bool;
  st_f : callback
}.

(** [*http.Server], reduced to its address and the functions given to
    [RegisterOnShutdown]. *)
Record Server := mkServer {
  Addr : string;
  onShutdown : list callback
}.

(** [type Ship struct]; [ctxpool] is the free list of the pool, [locked]
    tells whether the write side of [lock] is held, [once1] and [once2]
    whether the gates have fired, [done_closed] whether [done] is closed. *)
Record Ship := mkShip {
  config : Config;
  ctxpool : list cptr;
  handler : Handler;
  premiddlewares : list Middleware;
  router : Router;
  vhosts : option (gmap string ptr);
  server : option Server;
  stopfs : list stopT;
  links : list ptr;
  locked : bool;
  once1 : bool;
  once2 : bool;
  done_closed : bool
}.

Definition set_ctxpool (x : list cptr) (s : Ship) : Ship :=
  mkShip (config s) x (handler s) (premiddlewares s) (router s) (vhosts s)
    (server s) (stopfs s) (links s) (locked s) (once1 s) (once2 s) (done_closed s).
Definition set_handler (x : Handler) (s : Ship) : Ship :=
  mkShip (config s) (ctxpool s) x (premiddlewares s) (router s) (vhosts s)
    (server s) (stopfs s) (links s) (locked s) (once1 s) (once2 s) (done_closed s).
Definition set_premiddlewares (x : list Middleware) (s : Ship) : Ship :=
  mkShip (config s) (ctxpool s) (handler s) x (router s) (vhosts s)
    (server s) (stopfs s) (links s) (locked s) (once1 s) (once2 s) (done_closed s).
Definition set_vhosts (x : option (gmap string ptr)) (s : Ship) : Ship :=
  mkShip (config s) (ctxpool s) (handler s) (premiddlewares s) (router s) x
    (server s) (stopfs s) (links s) (locked s) (once1 s) (once2 s) (done_closed s).
Definition set_server (x : option Server) (s : Ship) : Ship :=
  mkShip (config s) (ctxpool s) (handler s) (premiddlewares s) (router s) (vhosts s)
    x (stopfs s) (links s) (locked s) (once1 s) (once2 s) (done_closed s).
Definition set_stopfs (x : list stopT) (s : Ship) : Ship :=
  mkShip (config s) (ctxpool s) (handler s) (premiddlewares s) (router s) (vhosts s)
    (server s) x (links s) (locked s) (once1 s) (once2 s) (done_closed s).
Definition set_links (x : list ptr) (s : Ship) : Ship :=
  mkShip (config s) (ctxpool s) (handler s) (premiddlewares s) (router s) (vhosts s)
    (server s) (stopfs s) x (locked s) (once1 s) (once2 s) (done_closed s).
Definition set_locked (x : bool) (s : Ship) : Ship :=
  mkShip (config s) (ctxpool s) (handler s) (premiddlewares s) (router s) (vhosts s)
    (server s) (stopfs s) (links s) x (once1 s) (once2 s) (done_closed s).
Definition set_once1 (x : bool) (s : Ship) : Ship :=
  mkShip (config s) (ctxpool s) (handler s) (premiddlewares s) (router s) (vhosts s)
    (server s) (stopfs s) (links s) (locked s) x (once2 s) (done_closed s).
Definition set_once2 (x : bool) (s : Ship) : Ship :=
  mkShip (config s) (ctxpool s) (handler s) (premiddlewares s) (router s) (vhosts s)
    (server s) (stopfs s) (links s) (locked s) (once1 s) x (done_closed s).
Definition set_done_closed (x : bool) (s : Ship) : Ship :=
  mkShip (config s) (ctxpool s) (handler s) (premiddlewares s) (router s) (vhosts s)
    (server s) (stopfs s) (links s) (locked s) (once1 s) (once2 s) x.

(** The whole program state: the heap of dispatchers (a [*Ship] is an index
    into it) and the state the handlers work on. *)
Record World := mkWorld {
  ships : list Ship;
  hst : HState
}.

Abbreviation W := (M World).

Definition liftH {A} (m : H A) : W A :=
  λ w, match m (hst w) with
       | (r, h) => (r, mkWorld (ships w) h)
       end.

(** Dereference of a [*Ship]. *)
Definition ship_at (p : ptr) : W Ship :=
  w ← get;
  match ships w !! p with
  | Some s => mret s
  | None => panic nil_deref
  end.

(** Assignment to fields of [*p]. *)
Definition update_ship (p : ptr) (f : Ship → Ship) : W () :=
  s ← ship_at p;
  modify (λ w, mkWorld (<[p := f s]> (ships w)) (hst w)).

(** ** The context pool *)

(** Modelled from the spec: [newContext], [setReqResp] and [reset] belong to
    the missing [contextT].  A new context takes the debug flag and the
    logger of the dispatcher's configuration; [reset] clears the parameter
    values, the store and the error slot and unbinds request and response. *)
Definition newContext (c : Config) (r : option Request)
    (w : option ResponseWriter) : H cptr :=
  h ← get;
  put (mkHState
         (ctxs h ++ [mkContext r w None ∅ [] None (Debug c) (cfg_Logger c)])
         (trace h));;
  mret (length (ctxs h)).

Definition setReqResp (c : cptr) (r : option Request)
    (w : option ResponseWriter) : H () :=
  update_ctx c (λ cx, mkContext r w (c_router cx) (c_store cx) (c_pvalues cx)
                        (c_err cx) (c_debug cx) (c_logger cx)).

Definition reset (c : cptr) : H () :=
  update_ctx c (λ cx, mkContext None None (c_router cx) ∅ [] None
                        (c_debug cx) (c_logger cx)).

Definition set_router (c : cptr) (r : Router) : H () :=
  update_ctx c (λ cx, mkContext (c_req cx) (c_resp cx) (Some r) (c_store cx)
                        (c_pvalues cx) (c_err cx) (c_debug cx) (c_logger cx)).

(** [func (s *Ship) NewContext(r, w) Context] *)
Definition NewContext (p : ptr) (r : option Request)
    (w : option ResponseWriter) : W cptr :=
  s ← ship_at p; liftH (newContext (config s) r w).

(** [func (s *Ship) AcquireContext(r, w) Context]; [ctxpool.Get()] takes the
    head of the free list, or calls the pool's [New], which is
    [s.NewContext(nil, nil)].  A [sync.Pool] promises less than the free
    list gives: it may hand out the items in any order, drop an item that
    was put into it, and call [New] while it holds items.  The free list
    is the one behaviour among these in which nothing is dropped and the
    item put last is handed out first. *)
Definition AcquireContext (p : ptr) (r : option Request)
    (w : option ResponseWriter) : W cptr :=
  s ← ship_at p;
  c ← match ctxpool s with
      | c :: rest => update_ship p (set_ctxpool rest);; mret c
      | [] => NewContext p None None
      end;
  liftH (setReqResp c r w);;
  mret c.

(** [func (s *Ship) ReleaseContext(c Context)] *)
Definition ReleaseContext (p : ptr) (c : Context) : W () :=
  match c with
  | Some c' =>
      liftH (reset c');;
      update_ship p (λ s, set_ctxpool (c' :: ctxpool s) s)
  | None => mret ()
  end.

(** ** The request pipeline *)

Section Pipeline.
(** What the handlers named by the routers do. *)
Variable routes : HandlerId → Handler.

(** [func (s *Ship) handleRequestRoute(ctx Context) error]; [c] is the
    configuration of [s] when the method value is taken ([ResetConfig], the
    only function that replaces it afterwards, is not modelled). *)
Definition handleRequestRoute (c : Config) : Handler :=
  λ ctx,
    cx ← deref ctx;
    match c_router cx, c_req cx with
    | Some r, Some rq =>
        match r (Method rq) (Path rq) with
        | Some h => routes h ctx
        | None => call_NotFoundHandler c ctx
        end
    | _, _ => panic nil_deref
    end.

(** The loop of [Pre]:
    [for i := len(pm) - 1; i >= 0; i-- { handler = pm[i](handler) }],
    entered with [n = len(pm)]. *)
Fixpoint wrap_from (pm : list Middleware) (n : nat) (handler : Handler)
  : W Handler :=
  match n with
  | 0 => mret handler
  | S i =>
      match pm !! i with
      | Some m => wrap_from pm i (m handler)
      | None => panic (VRuntime "index out of range")
      end
  end.

(** [func (s *Ship) Pre(middlewares ...Middleware) *Ship] *)
Definition Pre (p : ptr) (middlewares : list Middleware) : W () :=
  update_ship p (λ s, set_premiddlewares (premiddlewares s ++ middlewares) s);;
  s ← ship_at p;
  handler ← wrap_from (premiddlewares s) (length (premiddlewares s))
              (handleRequestRoute (config s));
  update_ship p (set_handler handler).

(** The object [New] builds: [s := new(Ship)] and the assignments to its
    fields. *)
Definition new_ship (cfg : Config) : Ship :=
  let c := Config_init cfg in
  {| config := c;
     ctxpool := [];
     handler := handleRequestRoute c;
     premiddlewares := [];
     router := default echo_NewRouter (NewRouter c);
     vhosts := Some ∅;
     server := None;
     stopfs := [];
     links := [];
     locked := false;
     once1 := false;
     once2 := false;
     done_closed := false |}.

(** [func New(config ...Config) *Ship] *)
Definition New (cfg : Config) : W ptr :=
  w ← get;
  put (mkWorld (ships w ++ [new_ship cfg]) (hst w));;
  mret (length (ships w)).

(** [func (s *Ship) VHost(host string) *Ship] *)
Definition VHost (p : ptr) (host : string) : W ptr :=
  s ← ship_at p;
  match vhosts s with
  | None =>
      panic (VError (EPlain "the virtual host cannot create the virtual host"))
  | Some m =>
      match m !! host with
      | Some _ =>
          panic (VError (EPlain ("the virtual host '" +:+ host +:+ "' has been added")))
      | None =>
          vhost ← New (config s);
          update_ship vhost (set_vhosts None);;
          update_ship p (set_vhosts (Some (<[host := vhost]> m)));;
          mret vhost
      end
  end.
End Pipeline.

(** [func (s *Ship) handleRequest(router Router, w, r)] *)
Definition handleRequest (p : ptr) (router : Router) (w : ResponseWriter)
    (r : Request) : W () :=
  c ← AcquireContext p (Some r) (Some w);
  liftH (set_router c router);;
  s ← ship_at p;
  err ← liftH (handler s (Some c));
  err ← match err with
        | None => cx ← liftH (deref (Some c)); mret (c_err cx)
        | Some _ => mret err
        end;
  match err with
  | Some e => liftH (call_HandleError (config s) (Some c) e)
  | None => mret ()
  end;;
  ReleaseContext p (Some c).

(** [func (s *Ship) ServeHTTP(w http.ResponseWriter, r *http.Request)] *)
Definition ServeHTTP (p : ptr) (w : ResponseWriter) (r : Request) : W () :=
  s ← ship_at p;
  match vhosts s with
  | Some m =>
      match m !! Host r with
      | Some vhost =>
          v ← ship_at vhost;
          handleRequest vhost (router v) w r
      | None => handleRequest p (router s) w r
      end
  | None => handleRequest p (router s) w r
  end.

(** ** Linking and the shutdown coordinator *)

(** [s.lock.Lock()], [s.lock.Unlock()] and [s.lock.RLock()]; releasing the
    read side changes nothing the model keeps. *)
Definition Lock (p : ptr) : W () :=
  s ← ship_at p;
  if locked s then throw Deadlock else update_ship p (set_locked true).

Definition Unlock (p : ptr) : W () := update_ship p (set_locked false).

Definition RLock (p : ptr) : W () :=
  s ← ship_at p;
  if locked s then throw Deadlock else mret ().

(** [s.config.Logger.Error(msg)] and [s.config.Logger.Info(msg)] *)
Definition Logger_Error (p : ptr) (msg : string) : W () :=
  s ← ship_at p;
  match cfg_Logger (config s) with
  | Some lg => liftH (emit (EvLogError lg msg))
  | None => panic nil_deref
  end.

Definition Logger_Info (p : ptr) (msg : string) : W () :=
  s ← ship_at p;
  match cfg_Logger (config s) with
  | Some lg => liftH (emit (EvLogInfo lg msg))
  | None => panic nil_deref
  end.

(** The search loop of [Link]:
    [for i := range s.links { if other == s.links[i] { return s } }] *)
Fixpoint linked (other : ptr) (ls : list ptr) : bool :=
  match ls with
  | [] => false
  | l :: ls' => if decide (other = l) then true else linked other ls'
  end.

(** [func (s *Ship) Link(other *Ship) *Ship] *)
Definition Link (p other : ptr) : W () :=
  s ← ship_at p;
  if linked other (links s) then mret ()
  else
    update_ship p (λ s, set_links (links s ++ [other]) s);;
    update_ship other (λ o, set_links (links o ++ [p]) o).

(** [func (s *Ship) RegisterOnShutdown(functions ...func()) *Ship] *)
Definition RegisterOnShutdown (p : ptr) (functions : list callback) : W () :=
  Lock p;;
  for_each
    (λ f, update_ship p (λ s, set_stopfs (stopfs s ++ [mkStopT false f]) s))
    functions;;
  Unlock p.

(** The server as [startServer] leaves it, with [s.stop] registered on it. *)
Definition serving (p : ptr) (srv : Server) : Server :=
  mkServer (Addr srv) (onShutdown srv ++ [CbStop p]).

(** The two texts [startServer] builds from [s.config.Name]: the line
    logged when the server starts, and [format], the start of the lines
    logged when it ends. *)
Definition running_on (name : string) (srv : Server) : string :=
  if decide (name = "")
  then "The HTTP Server is running on " +:+ Addr srv
  else "The HTTP Server [" +:+ name +:+ "] is running on " +:+ Addr srv.

Definition shutdown_format (name : string) : string :=
  if decide (name = "")
  then "The HTTP Server is shutdown"
  else "The HTTP Server [" +:+ name +:+ "] is shutdown".

(** What [ListenAndServe] returns: [http.ErrServerClosed] after a shutdown
    of the server, or another error, given by its text. *)
Inductive listen_result :=
| ErrServerClosed
| ErrListen (text : string).

(** The loop of [startServer] over the linked dispatchers:
    [for _, r := range s.links {
       s.RegisterOnShutdown(r.shutdown); r.RegisterOnShutdown(s.shutdown) }] *)
Definition register_links (p : ptr) (ls : list ptr) : W () :=
  for_each (λ r, RegisterOnShutdown p [CbShutdown r];;
                 RegisterOnShutdown r [CbShutdown p]) ls.

Section Lifecycle.
(** How a registered function runs when it is called. *)
Variable run : callback → W ().

(** Modelled from the spec: the method [Shutdown] of [http.Server] belongs
    to the host HTTP server; when the listener has shut down it calls the
    functions registered on the server.  The host server starts each in a
    goroutine of its own; here they run one after the other. *)
Definition Server_Shutdown (srv : Server) : W (option error) :=
  for_each run (onShutdown srv);; mret None.

(** [func (s *Ship) Shutdown(ctx context.Context) error] *)
Definition Shutdown (p : ptr) : W (option error) :=
  RLock p;;
  s ← ship_at p;
  match server s with
  | None => mret (Some (EPlain "the server has not been started"))
  | Some srv => Server_Shutdown srv
  end.

(** [func (s *Ship) shutdown()]: [s.once1.Do(...)].  The gate is marked
    before the function runs, so that a call arriving while it runs finds
    the gate used (in Go it waits, then returns without running). *)
Definition shutdown (p : ptr) : W () :=
  s ← ship_at p;
  if once1 s then mret ()
  else update_ship p (set_once1 true);; Shutdown p;; mret ().

(** [func (s *stopT) run()]: [s.once.Do(s.f)], for the [i]-th entry of
    [stopfs]. *)
Definition stopT_run (p : ptr) (i : nat) : W () :=
  s ← ship_at p;
  match stopfs s !! i with
  | Some r =>
      if st_once r then mret ()
      else
        update_ship p
          (λ s, set_stopfs (<[i := mkStopT true (st_f r)]> (stopfs s)) s);;
        run (st_f r)
  | None => panic nil_deref
  end.

(** [close(s.done)] *)
Definition close_done (p : ptr) : W () :=
  s ← ship_at p;
  if done_closed s then panic (VRuntime "close of closed channel")
  else update_ship p (set_done_closed true).

(** [func (s *Ship) runStop()]; the range loop walks the slice as it is
    when the loop starts. *)
Definition runStop (p : ptr) : W () :=
  RLock p;;
  deferred (close_done p)
    (s ← ship_at p;
     for_each (stopT_run p) (seq 0 (length (stopfs s)))).

(** [func (s *Ship) stop()]: [s.once2.Do(s.runStop)] *)
Definition stop (p : ptr) : W () :=
  s ← ship_at p;
  if once2 s then mret ()
  else update_ship p (set_once2 true);; runStop p.

(** [func (s *Ship) startServer(server, certFile, keyFile)] up to the call
    of [ListenAndServe]; the result tells whether that call is reached.
    On the two early returns the deferred [s.shutdown()] runs; the second
    one returns with the lock held.  The settings copied to the server
    (error log, handler, connection-state hook) are left out, and so is the
    goroutine that waits for a signal: all it does is call the trigger. *)
Definition startServer (p : ptr) (srv : Server) : W bool :=
  s ← ship_at p;
  match vhosts s with
  | None =>
      Logger_Error p "forbid the virtual host to be started as a server";;
      shutdown p;;
      mret false
  | Some _ =>
      register_links p (links s);;
      s ← ship_at p;
      let format := shutdown_format (Name (config s)) in
      Logger_Info p (running_on (Name (config s)) srv);;
      Lock p;;
      s ← ship_at p;
      match server s with
      | Some _ =>
          Logger_Error p (format +:+ ": the server has been started");;
          shutdown p;;
          mret false
      | None =>
          update_ship p (set_server (Some (serving p srv)));;
          Unlock p;;
          mret true
      end
  end.

(** The rest of [startServer], from the return of [ListenAndServe] with
    [err]: the line logged, then the deferred [s.shutdown()].  [format] is
    the text built before the listener started. *)
Definition startServer_returned (p : ptr) (err : listen_result) : W () :=
  s ← ship_at p;
  let format := shutdown_format (Name (config s)) in
  match err with
  | ErrServerClosed => Logger_Info p format
  | ErrListen text => Logger_Error p (format +:+ ": " +:+ text)
  end;;
  shutdown p.
End Lifecycle.

(** Calling a registered function.  [r.shutdown] and [s.stop] call back into
    the coordinator, which again calls registered functions: the recursion
    is bounded by [fuel], and running out of it is an abort of its own. *)
Fixpoint run_callback (fuel : nat) (cb : callback) : W () :=
  match fuel with
  | 0 => throw OutOfFuel
  | S n =>
      match cb with
      | CbUser id => liftH (emit (EvCall id))
      | CbShutdown p => shutdown (run_callback n) p
      | CbStop p => stop (run_callback n) p
      end
  end.

(** The shutdown trigger [s.shutdown()], called [n] times in a row. *)
Fixpoint trigger (fuel : nat) (p : ptr) (n : nat) : W () :=
  match n with
  | 0 => mret ()
  | S n' => shutdown (run_callback fuel) p;; trigger fuel p n'
  end.

(** ** Observations *)

Definition empty_world : World := mkWorld [] (mkHState [] []).

Definition exec {S A} (m : M S A) (s : S) : S := snd (m s).
Definition result {S A} (m : M S A) (s : S) : res A := fst (m s).

(** The user functions that ran, in the order they ran. *)
Fixpoint calls (t : list event) : list nat :=
  match t with
  | [] => []
  | EvCall id :: t' => id :: calls t'
  | _ :: t' => calls t'
  end.

Definition is_response (e : event) : bool :=
  match e with
  | EvBlob _ _ _ | EvNoContent _ | EvString _ _ => true
  | _ => false
  end.

Definition is_log (e : event) : bool :=
  match e with
  | EvLogError _ _ | EvLogInfo _ _ => true
  | _ => false
  end.

Definition responses (t : list event) : list event := List.filter is_response t.
Definition log_entries (t : list event) : list event := List.filter is_log t.

(** The callbacks registered on a dispatcher, in registration order. *)
Definition registered (s : Ship) : list callback := map st_f (stopfs s).

(** ** Vocabulary of the statements *)

(** The chain the data model describes for middlewares [mw[0..n]] around a
    terminal handler: [mw[0](mw[1](...(mw[n](terminal))...))]. *)
Definition onion (mws : list Middleware) (terminal : Handler) : Handler :=
  foldr (λ m h, m h) terminal mws.

(** Entries of [stopfs] for the user functions [fs]: before they ran, and
    after. *)
Definition pending (fs : list nat) : list stopT :=
  map (λ id, mkStopT false (CbUser id)) fs.

Definition ran (fs : list nat) : list stopT :=
  map (λ id, mkStopT true (CbUser id)) fs.

(** The state of a dispatcher after its shutdown ran the user functions
    [fs]. *)
Definition shut_down (fs : list nat) (s : Ship) : Ship :=
  set_done_closed true (set_stopfs (ran fs) (set_once2 true (set_once1 true s))).

(** How often [q] occurs in a list of linked dispatchers. *)
Fixpoint count (q : ptr) (ls : list ptr) : nat :=
  match ls with
  | [] => 0
  | l :: ls' => (if decide (q = l) then 1 else 0) + count q ls'
  end.

(** A sequence of [Link] calls between [x] and [y]: [true] is
    [x.Link(y)], [false] is [y.Link(x)]. *)
Definition link_calls (x y : ptr) (ds : list bool) : W () :=
  for_each (λ d : bool, if d then Link x y else Link y x) ds.

(** The world [w] with the dispatchers at [x] and [y] replaced. *)
Definition with_pair (w : World) (x y : ptr) (sx sy : Ship) : World :=
  mkWorld (<[y := sy]> (<[x := sx]> (ships w))) (hst w).

(** The list of linked dispatchers [l] after the calls [ds], as far as the
    peer [q] goes. *)
Definition final_links (q : ptr) (l : list ptr) (ds : list bool) : list ptr :=
  match ds with
  | [] => l
  | _ :: _ => if linked q l then l else l ++ [q]
  end.

(** The two entries that the two [startServer] calls of a linked pair leave
    on each dispatcher for the trigger of the peer [q]. *)
Definition peer_entries (b : bool) (q : ptr) : list stopT :=
  [mkStopT b (CbShutdown q); mkStopT b (CbShutdown q)].

(** A dispatcher [p] that serves, has not shut down, and whose registered
    functions are the user functions [fs] followed by the two entries for
    the trigger of its peer [q]. *)
Definition serving_linked (p q : ptr) (fs : list nat) (s : Ship) : Prop :=
  locked s = false ∧ once1 s = false ∧ once2 s = false ∧ done_closed s = false ∧
  (∃ srv, server s = Some srv ∧ onShutdown srv = [CbStop p]) ∧
  stopfs s = pending fs ++ peer_entries false q.

(** The same dispatcher after its shutdown. *)
Definition shut_down_linked (q : ptr) (fs : list nat) (s : Ship) : Ship :=
  set_done_closed true
    (set_stopfs (ran fs ++ peer_entries true q) (set_once2 true (set_once1 true s))).

(** How often a function is registered. *)
Definition occurrences (cb : callback) (l : list callback) : nat :=
  length (List.filter (λ c, bool_decide (c = cb)) l).

(** A dispatcher that is not linked, not serving and not shut down, with
    only the user functions [fs] registered. *)
Definition idle (fs : list nat) (s : Ship) : Prop :=
  links s = [] ∧ stopfs s = pending fs ∧ locked s = false ∧ once1 s = false ∧
  once2 s = false ∧ done_closed s = false ∧ server s = None ∧
  is_Some (vhosts s) ∧ is_Some (cfg_Logger (config s)).

(** The life of one dispatcher: made by [New], user functions registered
    in the calls [regs1], the server started, more user functions
    registered in the calls [regs2], the shutdown trigger called [n]
    times and then, when [ret] is given, the listener returning with it,
    on which [startServer] runs to its end. *)
Definition lifecycle (routes : HandlerId → Handler) (fuel : nat) (cfg : Config)
    (regs1 regs2 : list (list nat)) (srv : Server) (n : nat)
    (ret : option listen_result) : W () :=
  p ← New routes cfg;
  for_each (λ fs, RegisterOnShutdown p (map CbUser fs)) regs1;;
  startServer (run_callback fuel) p srv;;
  for_each (λ fs, RegisterOnShutdown p (map CbUser fs)) regs2;;
  trigger fuel p n;;
  match ret with
  | Some err => startServer_returned (run_callback fuel) p err
  | None => mret ()
  end.

(** The same with the trigger fired [k] times before the server is
    started. *)
Definition lifecycle_early (routes : HandlerId → Handler) (fuel : nat)
    (cfg : Config) (regs1 regs2 : list (list nat)) (srv : Server) (k n : nat)
    (ret : option listen_result) : W () :=
  p ← New routes cfg;
  for_each (λ fs, RegisterOnShutdown p (map CbUser fs)) regs1;;
  trigger fuel p k;;
  startServer (run_callback fuel) p srv;;
  for_each (λ fs, RegisterOnShutdown p (map CbUser fs)) regs2;;
  trigger fuel p n;;
  match ret with
  | Some err => startServer_returned (run_callback fuel) p err
  | None => mret ()
  end.

(** The same without the server: the dispatcher never serves. *)
Definition lifecycle_unstarted (routes : HandlerId → Handler) (fuel : nat)
    (cfg : Config) (regs : list (list nat)) (n : nat) : W () :=
  p ← New routes cfg;
  for_each (λ fs, RegisterOnShutdown p (map CbUser fs)) regs;;
  trigger fuel p n.

(** ** Instances used to exercise the model *)

(** A context as [newContext] makes it, with the given debug flag and
    logger. *)
Definition blank_context (debug : bool) (lg : option Logger) : contextT :=
  mkContext None None None ∅ [] None debug lg.

Definition hstate_of (cx : contextT) : HState := mkHState [cx] [].

Definition err_teapot : HTTPError :=
  mkHTTPError 418 "I'm a teapot" "text/plain" "short and stout".
Definition err_unavailable : HTTPError :=
  mkHTTPError 503 "Service Unavailable" "text/plain" "db: connection refused".

(** A middleware that records when it is entered and when it returns. *)
Definition tracing (name : string) : Middleware :=
  λ next ctx,
    emit (EvEnter name);;
    r ← next ctx;
    emit (EvExit name);;
    mret r.

(** Route handlers for the examples: one that returns nil, one that returns
    a plain error, one that panics, and one that stores a structured error
    in the context's error slot and returns nil. *)
Definition routes_demo : HandlerId → Handler :=
  λ id ctx,
    match id with
    | 0 => emit (EvEnter "T");; emit (EvExit "T");; mret None
    | 1 => mret (Some (EPlain "boom"))
    | 2 => panic (VString "bang")
    | _ =>
        match ctx with
        | Some c =>
            update_ctx c (λ cx, mkContext (c_req cx) (c_resp cx) (c_router cx)
                                  (c_store cx) (c_pvalues cx)
                                  (Some (EHTTP err_teapot))
                                  (c_debug cx) (c_logger cx));;
            mret None
        | None => panic nil_deref
        end
    end.

Definition router_demo : Router :=
  λ method path,
    if decide (path = "/ok") then Some 0
    else if decide (path = "/fail") then Some 1
    else if decide (path = "/panic") then Some 2
    else if decide (path = "/slot") then Some 3
    else None.

Definition cfg_demo : Config :=
  mkConfig "demo" "/api//" false 0 0 0 None (Some 7) (Some router_demo) None None.

(** One dispatcher, made by [New]. *)
Definition world_demo : World := exec (New routes_demo cfg_demo) empty_world.

Definition get_req (path : string) : Request := mkRequest "example.org" "GET" path.

(** Two dispatchers made by [New], linked twice in each direction, both
    serving. *)
Definition linked_pair_demo : W () :=
  x ← New routes_demo cfg_demo;
  y ← New routes_demo cfg_demo;
  Link x y;; Link y x;; Link x y;; Link y x;;
  startServer (run_callback 4) x (mkServer ":8080" []);;
  startServer (run_callback 4) y (mkServer ":8081" []);;
  mret ().

(** Two dispatchers made by [New], with user functions registered. *)
Definition pair_demo : W () :=
  x ← New routes_demo cfg_demo;
  y ← New routes_demo cfg_demo;
  RegisterOnShutdown x [CbUser 1; CbUser 2];;
  RegisterOnShutdown y [CbUser 3].

Definition world_pair : World := exec pair_demo empty_world.

Definition ship_x : Ship := set_stopfs (pending [1; 2]) (new_ship routes_demo cfg_demo).
Definition ship_y : Ship := set_stopfs (pending [3]) (new_ship routes_demo cfg_demo).

(** A dispatcher with one virtual host. *)
Definition vhost_demo : W ptr :=
  p ← New routes_demo cfg_demo;
  VHost routes_demo p "a.example".

Definition world_vhost : World := exec vhost_demo empty_world.

Definition vhost_parent : Ship :=
  set_vhosts (Some {["a.example" := 1]}) (new_ship routes_demo cfg_demo).
Definition vhost_child : Ship :=
  set_vhosts None (new_ship routes_demo (Config_init cfg_demo)).

(** Panic callbacks: the one standing for the package default logs, the
    other leaves a mark. *)
Definition HandlePanic_demo : PanicHandler := λ ctx _, log_error ctx "panic".
Definition panic_probe : PanicHandler := λ _ _, emit (EvCall 9).

(** A handler that calls [panic(nil)]. *)
Definition nil_panic : Handler := λ _, panic VNil.

(** A context bound to a request for the route that returns nil. *)
Definition h_ok : HState :=
  mkHState [mkContext (Some (get_req "/ok")) (Some 0) (Some router_demo) ∅ []
              None false (Some 7)] [].

(** ** Further functions of the dispatcher *)

Definition set_Signals (x : option (list Signal)) (c : Config) : Config :=
  mkConfig (Name c) (Prefix c) (Debug c) (BufferSize c) (ContextStoreSize c)
    (MiddlewareMaxNum c) x (cfg_Logger c) (NewRouter c) (HandleError c)
    (NotFoundHandler c).

Definition set_Name (x : string) (c : Config) : Config :=
  mkConfig x (Prefix c) (Debug c) (BufferSize c) (ContextStoreSize c)
    (MiddlewareMaxNum c) (Signals c) (cfg_Logger c) (NewRouter c) (HandleError c)
    (NotFoundHandler c).

(** The configuration [Clone] passes to [New]: the signals are the empty,
    non-nil slice, and the name is replaced
    [if len(name) > 0 && name[0] != ""]. *)
Definition Clone_config (c : Config) (name : list string) : Config :=
  let config := set_Signals (Some []) c in
  match name with
  | n :: _ => if decide (n = "") then config else set_Name n config
  | [] => config
  end.

(** [func (s *Ship) Clone(name ...string) *Ship] *)
Definition Clone (routes : HandlerId → Handler) (p : ptr) (name : list string)
  : W ptr :=
  s ← ship_at p;
  newShip ← New routes (Clone_config (config s) name);
  RegisterOnShutdown p [CbShutdown newShip];;
  mret newShip.

(** [func (s *Ship) Wait()]: [<-s.done].  Nothing is ever sent on [done];
    the receive returns once the channel is closed, and until then the
    goroutine blocks. *)
Definition Wait (p : ptr) : W () :=
  s ← ship_at p;
  if done_closed s then mret () else throw Deadlock.

(** The public [Shutdown], called [n] times in a row; the results are the
    errors returned. *)
Fixpoint Shutdown_times (fuel : nat) (p : ptr) (n : nat) : W (list (option error)) :=
  match n with
  | 0 => mret []
  | S n' =>
      e ← Shutdown (run_callback fuel) p;
      es ← Shutdown_times fuel p n';
      mret (e :: es)
  end.

(** A sequence of [Link] calls: each pair [(a, b)] is [a.Link(b)]. *)
Definition links_calls (ls : list (ptr * ptr)) : W () :=
  for_each (λ ab, Link ab.1 ab.2) ls.

(** Every dispatcher holds every other one at most once in its list of
    linked dispatchers, and as often as that one holds it. *)
Definition links_symmetric (w : World) : Prop :=
  ∀ p q sp sq, p ≠ q → ships w !! p = Some sp → ships w !! q = Some sq →
    count q (links sp) = count p (links sq) ∧ count q (links sp) ≤ 1.

(** ** The logger middleware *)

(** [ctx.Request()], a method of the missing [contextT]: the request the
    context is bound to. *)
Definition ctx_Request (ctx : Context) : H (option Request) :=
  cx ← deref ctx; mret (c_req cx).

(** The clock [NewLoggerMiddleware] settles on:
    [if len(now) > 0 && now[0] != nil { _now = now[0] }]; [Now] stands for
    [time.Now].  A clock is a computation that yields the time as a
    number. *)
Definition chosen_clock (Now : H Z) (now : list (option (H Z))) : H Z :=
  match now with
  | Some f :: _ => f
  | _ => Now
  end.

(** [NewLoggerMiddleware(now ...func() time.Time) Middleware]; [line] builds
    the text that the format string and its arguments give: method, URL,
    start time, end time and the error. *)
Definition NewLoggerMiddleware (Now : H Z)
    (line : Request → Z → Z → option error → string)
    (now : list (option (H Z))) : Middleware :=
  let _now := chosen_clock Now now in
  λ next ctx,
    start ← _now;
    err ← next ctx;
    end_ ← _now;
    logger ← ctx_Logger ctx;
    match logger with
    | Some lg =>
        req ← ctx_Request ctx;
        match req with
        | Some rq => emit (EvLogInfo lg (line rq start end_ err))
        | None => panic nil_deref
        end
    | None => mret ()
    end;;
    mret err.

(** ** The bridge to [http.Handler] *)

(** [type httpHandlerBridge struct { ship *Ship; Handler Handler }] *)
Record httpHandlerBridge := mkBridge {
  b_ship : ptr;
  b_Handler : option Handler
}.

(** [func newHTTPHandlerBridge(s *Ship, h Handler) httpHandlerBridge] *)
Definition newHTTPHandlerBridge (s : option ptr) (h : option Handler)
  : W httpHandlerBridge :=
  match s with
  | None => panic (VError (EPlain "ship must not be nil"))
  | Some p => mret (mkBridge p h)
  end.

(** [func (h httpHandlerBridge) ServeHTTP(w, r)]; [notFound] stands for the
    method [notFoundHandler] of the dispatcher, which the sources at hand
    do not hold.  The error the handler returns is dropped. *)
Definition bridge_ServeHTTP (notFound : ptr → Handler) (b : httpHandlerBridge)
    (w : ResponseWriter) (r : Request) : W () :=
  ctx ← AcquireContext (b_ship b) (Some r) (Some w);
  match b_Handler b with
  | None => liftH (notFound (b_ship b) (Some ctx));; mret ()
  | Some h => liftH (h (Some ctx));; mret ()
  end.

(** [func ToHTTPHandler(s *Ship, h Handler) http.Handler], as the function
    that serves a request. *)
Definition ToHTTPHandler (notFound : ptr → Handler) (s : option ptr)
    (h : option Handler) : W (ResponseWriter → Request → W ()) :=
  b ← newHTTPHandlerBridge s h;
  mret (bridge_ServeHTTP notFound b).

(** ** Exit functions ([utils/onexit.go]) *)

(** The package variables [exited] and [funcs]; a registered function is
    nil or an opaque function of the user, which leaves its mark in
    [exit_calls] when it runs. *)
Record ExitState := mkExitState {
  exited : Z;
  funcs : list (option nat);
  exit_calls : list nat
}.

(** [func OnExit(f ...func())] *)
Definition OnExit (f : list (option nat)) : M ExitState () :=
  modify (λ st, mkExitState (exited st) (funcs st ++ f) (exit_calls st)).

(** [atomic.CompareAndSwapInt32(&exited, old, new)] *)
Definition CompareAndSwap_exited (old new : Z) : M ExitState bool :=
  st ← get;
  if decide (exited st = old)
  then put (mkExitState new (funcs st) (exit_calls st));; mret true
  else mret false.

(** Calling a registered function. *)
Definition call_exit (id : nat) : M ExitState () :=
  modify (λ st, mkExitState (exited st) (funcs st) (exit_calls st ++ [id])).

(** The loop of [CallOnExit]:
    [for _len := len(funcs) - 1; _len >= 0; _len-- {
       if f := funcs[_len]; f != nil { f() } }],
    entered with [n = len(funcs)]. *)
Fixpoint CallOnExit_from (n : nat) : M ExitState () :=
  match n with
  | 0 => mret ()
  | S i =>
      st ← get;
      match funcs st !! i with
      | Some (Some f) => call_exit f;; CallOnExit_from i
      | Some None => CallOnExit_from i
      | None => panic (VRuntime "index out of range")
      end
  end.

(** [func CallOnExit()] *)
Definition CallOnExit : M ExitState () :=
  swapped ← CompareAndSwap_exited 0 1;
  if swapped : bool
  then st ← get; CallOnExit_from (length (funcs st))
  else mret ().

(** The functions that are not nil, in the order of the slice. *)
Definition non_nil (fs : list (option nat)) : list nat := omap id fs.

(** ** Vocabulary of the further statements *)

(** A context as [setReqResp] and [reset] leave it. *)
Definition rebound (r : option Request) (w : option ResponseWriter)
    (cx : contextT) : contextT :=
  mkContext r w (c_router cx) (c_store cx) (c_pvalues cx) (c_err cx)
    (c_debug cx) (c_logger cx).

Definition cleared (cx : contextT) : contextT :=
  mkContext None None (c_router cx) ∅ [] None (c_debug cx) (c_logger cx).

(** The context a dispatcher with configuration [c] makes for a request
    when its pool is empty, as the pipeline handler receives it. *)
Definition request_context (c : Config) (router : Router) (rw : ResponseWriter)
    (r : Request) : contextT :=
  mkContext (Some r) (Some rw) (Some router) ∅ [] None (Debug c) (cfg_Logger c).

(** A configuration with sizes that [init] has to repair. *)
Definition cfg_sizes : Config :=
  mkConfig "" "" false 0 (-3) 512 None None None None None.

(** A clock for the examples: the time is the length of the trace. *)
Definition clock_demo : H Z := h ← get; mret (Z.of_nat (length (trace h))).

Definition line_demo (rq : Request) (t0 t1 : Z) (err : option error) : string :=
  Method rq +:+ " " +:+ Path rq +:+
  (if decide (t0 ≤ t1)%Z then " ok" else " clock went back") +:+
  match err with Some _ => " err" | None => "" end.

(** A dispatcher whose pre-middleware is the panic middleware. *)
Definition recover_demo : W () :=
  p ← New routes_demo cfg_demo;
  Pre routes_demo p [NewPanicMiddleware HandlePanic_demo [Some panic_probe]].

Definition world_recover : World := exec recover_demo empty_world.

Definition ship_recover : Ship :=
  set_handler
    (NewPanicMiddleware HandlePanic_demo [Some panic_probe]
       (handleRequestRoute routes_demo (Config_init cfg_demo)))
    (set_premiddlewares [NewPanicMiddleware HandlePanic_demo [Some panic_probe]]
       (new_ship routes_demo cfg_demo)).

(** ** Vocabulary of the lifecycle statements *)

(** A dispatcher that serves and has not shut down, with only the user
    functions [fs] registered. *)
Definition serving_alone (p : ptr) (fs : list nat) (s : Ship) : Prop :=
  locked s = false ∧ once1 s = false ∧ once2 s = false ∧ done_closed s = false ∧
  (∃ srv, server s = Some srv ∧ onShutdown srv = [CbStop p]) ∧
  stopfs s = pending fs.

(** The same with the trigger of a clone [c] registered after the user
    functions, as [Clone] leaves it. *)
Definition serving_parent (p c : ptr) (fs : list nat) (s : Ship) : Prop :=
  locked s = false ∧ once1 s = false ∧ once2 s = false ∧ done_closed s = false ∧
  (∃ srv, server s = Some srv ∧ onShutdown srv = [CbStop p]) ∧
  stopfs s = pending fs ++ [mkStopT false (CbShutdown c)].

(** The parent after its shutdown. *)
Definition shut_down_parent (c : ptr) (fs : list nat) (s : Ship) : Ship :=
  set_done_closed true
    (set_stopfs (ran fs ++ [mkStopT true (CbShutdown c)])
       (set_once2 true (set_once1 true s))).

(** Every dispatcher of [w] is still there in [w'], and holds every
    dispatcher at least as often as before. *)
Definition links_grow (w w' : World) : Prop :=
  ∀ r sr0, ships w !! r = Some sr0 →
    ∃ sr, ships w' !! r = Some sr ∧ ∀ x, count x (links sr0) ≤ count x (links sr).

(** [a] and [b] hold each other exactly once. *)
Definition linked_once (w : World) (a b : ptr) : Prop :=
  ∃ sa sb, ships w !! a = Some sa ∧ ships w !! b = Some sb ∧
           count b (links sa) = 1 ∧ count a (links sb) = 1.

(** Registered functions of which the one numbered [bad] panics with [v];
    the others leave their mark. *)
Definition run_faulty (bad : nat) (v : value) : callback → W () :=
  λ cb, match cb with
        | CbUser id => if decide (id = bad) then panic v else liftH (emit (EvCall id))
        | _ => mret ()
        end.

(** A dispatcher with three functions registered. *)
Definition faulty_demo : W () :=
  p ← New routes_demo cfg_demo;
  RegisterOnShutdown p [CbUser 1; CbUser 2; CbUser 3].

(** A dispatcher with two functions registered, serving. *)
Definition serving_demo : W () :=
  p ← New routes_demo cfg_demo;
  RegisterOnShutdown p [CbUser 1; CbUser 2];;
  startServer (run_callback 4) p (mkServer ":8080" []);;
  mret ().

Definition world_serving : World := exec serving_demo empty_world.

Definition ship_serving : Ship :=
  set_server (Some (serving 0 (mkServer ":8080" [])))
    (set_stopfs (pending [1; 2]) (new_ship routes_demo cfg_demo)).

(** A dispatcher and its clone, both with a function registered, both
    serving. *)
Definition clone_demo : W () :=
  p ← New routes_demo cfg_demo;
  RegisterOnShutdown p [CbUser 1];;
  c ← Clone routes_demo p ["copy"];
  RegisterOnShutdown c [CbUser 2];;
  startServer (run_callback 4) p (mkServer ":8080" []);;
  startServer (run_callback 4) c (mkServer ":8081" []);;
  mret ().

Definition world_clone : World := exec clone_demo empty_world.

Definition clone_parent : Ship :=
  set_server (Some (serving 0 (mkServer ":8080" [])))
    (set_stopfs (pending [1] ++ [mkStopT false (CbShutdown 1)])
       (new_ship routes_demo cfg_demo)).

Definition clone_child : Ship :=
  set_server (Some (serving 1 (mkServer ":8081" [])))
    (set_stopfs (pending [2])
       (new_ship routes_demo (Clone_config (Config_init cfg_demo) ["copy"]))).

(** Three dispatchers made by [New]. *)
Definition three_demo : W () :=
  New routes_demo cfg_demo;; New routes_demo cfg_demo;; New routes_demo cfg_demo;;
  mret ().

Definition world_three : World := exec three_demo empty_world.

(** * Properties *)

(** ** Running computations step by step *)

Lemma bind_run {S A B} (m : M S A) (f : A → M S B) (s : S) :
  (m ≫= f) s = match m s with
               | (Ok a, s') => f a s'
               | (Abort e, s') => (Abort e, s')
               end.
Proof. reflexivity. Qed.

Lemma bind_ok {S A B} (m : M S A) (f : A → M S B) (s s' : S) (a : A) :
  m s = (Ok a, s') → (m ≫= f) s = f a s'.
Proof. intros E. rewrite bind_run, E. reflexivity. Qed.

Lemma bind_abort {S A B} (m : M S A) (f : A → M S B) (s s' : S) (e : abort) :
  m s = (Abort e, s') → (m ≫= f) s = (Abort e, s').
Proof. intros E. rewrite bind_run, E. reflexivity. Qed.

Lemma ret_run {S A} (a : A) (s : S) : (mret a : M S A) s = (Ok a, s).
Proof. reflexivity. Qed.

Ltac munfold :=
  unfold mbind, M_bind, m_bind, mret, M_ret, m_ret, get, put, modify, throw,
    panic in *.

Lemma deref_ok (h : HState) (c : cptr) (cx : contextT) :
  ctxs h !! c = Some cx → deref (Some c) h = (Ok cx, h).
Proof. intros E. unfold deref. munfold. rewrite E. reflexivity. Qed.

Lemma emit_run (e : event) (h : HState) :
  emit e h = (Ok (), mkHState (ctxs h) (trace h ++ [e])).
Proof. reflexivity. Qed.

Lemma log_error_run (h : HState) (c : cptr) (cx : contextT) (msg : string) :
  ctxs h !! c = Some cx →
  log_error (Some c) msg h =
    (Ok (), mkHState (ctxs h)
              (trace h ++ match c_logger cx with
                          | Some lg => [EvLogError lg msg]
                          | None => []
                          end)).
Proof.
  intros E. unfold log_error, ctx_Logger.
  rewrite bind_run, bind_run, (deref_ok _ _ _ E), ret_run.
  destruct (c_logger cx).
  - reflexivity.
  - rewrite app_nil_r, ret_run. by destruct h.
Qed.

Lemma ctx_Blob_run (h : HState) (c : cptr) (cx : contextT) code ct body :
  ctxs h !! c = Some cx →
  ctx_Blob (Some c) code ct body h =
    (Ok (), mkHState (ctxs h) (trace h ++ [EvBlob code ct body])).
Proof.
  intros E. unfold ctx_Blob. rewrite bind_run, (deref_ok _ _ _ E). reflexivity.
Qed.

Lemma ctx_NoContent_run (h : HState) (c : cptr) (cx : contextT) code :
  ctxs h !! c = Some cx →
  ctx_NoContent (Some c) code h =
    (Ok (), mkHState (ctxs h) (trace h ++ [EvNoContent code])).
Proof.
  intros E. unfold ctx_NoContent. rewrite bind_run, (deref_ok _ _ _ E). reflexivity.
Qed.

Lemma ctx_IsDebug_run (h : HState) (c : cptr) (cx : contextT) :
  ctxs h !! c = Some cx → ctx_IsDebug (Some c) h = (Ok (c_debug cx), h).
Proof.
  intros E. unfold ctx_IsDebug. rewrite bind_run, (deref_ok _ _ _ E). reflexivity.
Qed.

(** The body the default error handler sends for a structured error. *)
Lemma handleError_http_run (h : HState) (c : cptr) (cx : contextT) (he : HTTPError) :
  ctxs h !! c = Some cx →
  handleError (Some c) (EHTTP he) h =
    (Ok (),
     mkHState (ctxs h)
       (trace h ++
        EvBlob (Code he) (ContentType he)
          (if bool_decide (400 ≤ Code he ∧ Code he < 500)%Z then ErrorText he
           else if bool_decide (500 ≤ Code he)%Z
                then (if c_debug cx then ErrorText he else Message he)
                else Message he)
        :: (if bool_decide (500 ≤ Code he)%Z
            then match c_logger cx with
                 | Some lg => [EvLogError lg (ErrorText he)]
                 | None => []
                 end
            else []))).
Proof.
  intros E. unfold handleError. rewrite bind_run.
  destruct (bool_decide (400 ≤ Code he ∧ Code he < 500)%Z) eqn:E4.
  - rewrite ret_run, bind_run, (ctx_Blob_run _ _ _ _ _ _ E).
    destruct (bool_decide (500 ≤ Code he)%Z) eqn:E5.
    + apply bool_decide_eq_true in E4, E5. lia.
    + cbn. reflexivity.
  - destruct (bool_decide (500 ≤ Code he)%Z) eqn:E5.
    + rewrite bind_run, (ctx_IsDebug_run _ _ _ E), ret_run.
      rewrite bind_run, (ctx_Blob_run _ _ _ _ _ _ E).
      rewrite log_error_run with (cx := cx) by exact E.
      cbn. rewrite <- app_assoc. reflexivity.
    + rewrite ret_run, bind_run, (ctx_Blob_run _ _ _ _ _ _ E). reflexivity.
Qed.

(** C2. For a structured HTTP error [he] handled by the default error
    handler on a context [c]: the handler returns, it writes one response,
    whose status is the error's code and whose content type is the error's;
    for a code in 400-499 the body is the error's own text [Error()]; for a
    code of 500 or more the body is that text in debug mode and the generic
    [Message()] otherwise; and for a code of 500 or more with a non-nil
    logger exactly one log entry follows, an error entry with the error's
    text.  Nothing else is written: below 500, or with a nil logger, no log
    entry is made. *)
Theorem handleError_structured (h : HState) (c : cptr) (cx : contextT) (he : HTTPError) :
  ctxs h !! c = Some cx →
  ∃ body logs,
    handleError (Some c) (EHTTP he) h =
      (Ok (), mkHState (ctxs h)
                (trace h ++ EvBlob (Code he) (ContentType he) body :: logs)) ∧
    ((400 ≤ Code he < 500)%Z → body = ErrorText he) ∧
    ((500 ≤ Code he)%Z → c_debug cx = true → body = ErrorText he) ∧
    ((500 ≤ Code he)%Z → c_debug cx = false → body = Message he) ∧
    ((500 ≤ Code he)%Z → ∀ lg, c_logger cx = Some lg →
       logs = [EvLogError lg (ErrorText he)]) ∧
    ((Code he < 500)%Z ∨ c_logger cx = None → logs = []).
Proof.
  intros E. eexists _, _. split; [apply (handleError_http_run _ _ _ _ E)|].
  repeat split.
  - intros Hc. rewrite bool_decide_eq_true_2 by lia. reflexivity.
  - intros Hc Hd. rewrite bool_decide_eq_false_2 by lia.
    rewrite bool_decide_eq_true_2 by lia. rewrite Hd. reflexivity.
  - intros Hc Hd. rewrite bool_decide_eq_false_2 by lia.
    rewrite bool_decide_eq_true_2 by lia. rewrite Hd. reflexivity.
  - intros Hc lg Hl. rewrite bool_decide_eq_true_2 by lia. rewrite Hl. reflexivity.
  - intros [Hc | Hl].
    + rewrite bool_decide_eq_false_2 by lia. reflexivity.
    + rewrite Hl. by case_bool_decide.
Qed.

Lemma handleError_structured_witness :
  ∃ body logs,
    handleError (Some 0) (EHTTP err_unavailable)
      (hstate_of (blank_context false (Some 7))) =
      (Ok (), mkHState [blank_context false (Some 7)]
                ([] ++ EvBlob 503 "text/plain" body :: logs)) ∧
    body = "Service Unavailable" ∧
    logs = [EvLogError 7 "db: connection refused"].
Proof.
  destruct (handleError_structured (hstate_of (blank_context false (Some 7))) 0
              (blank_context false (Some 7)) err_unavailable eq_refl)
    as (body & logs & Hrun & _ & _ & Hb & Hl & _).
  exists body, logs. split; [exact Hrun|]. split.
  - apply Hb; [cbn; lia | reflexivity].
  - apply (Hl ltac:(cbn; lia) 7 eq_refl).
Defined.

(** C7, as it stands, fails with a nil logger: the response is written and
    no log entry is made. *)
Lemma handleError_plain_nil_logger :
  let h := hstate_of (blank_context false None) in
  let t := trace (exec (handleError (Some 0) (EPlain "boom")) h) in
  responses t = [EvNoContent 500] ∧ length (log_entries t) ≠ 1.
Proof. vm_compute. split; [reflexivity | discriminate]. Qed.

(** C7, amended.  The skip sentinel produces nothing, whatever the context:
    no response and no log entry.  Any other non-structured error makes the
    handler write the bodyless response [NoContent(500)] and then, when the
    logger is non-nil, exactly one error log entry with the error's text;
    with a nil logger no log entry is made. *)
Theorem handleError_unstructured (h : HState) (c : cptr) (cx : contextT) :
  ctxs h !! c = Some cx →
  (∀ ctx h0, handleError ctx ErrSkip h0 = (Ok (), h0)) ∧
  (∀ text,
     ∃ logs,
       handleError (Some c) (EPlain text) h =
         (Ok (), mkHState (ctxs h)
                   (trace h ++ EvNoContent StatusInternalServerError :: logs)) ∧
       (∀ lg, c_logger cx = Some lg → logs = [EvLogError lg text]) ∧
       (c_logger cx = None → logs = [])).
Proof.
  intros E. split; [reflexivity|].
  intros text.
  exists (match c_logger cx with Some lg => [EvLogError lg text] | None => [] end).
  split.
  - unfold handleError.
    rewrite bind_run, (ctx_NoContent_run _ _ _ _ E).
    rewrite log_error_run with (cx := cx) by exact E.
    cbn. rewrite <- app_assoc. reflexivity.
  - split.
    + intros lg ->. reflexivity.
    + intros ->. reflexivity.
Qed.

Lemma handleError_unstructured_witness :
  handleError None ErrSkip (hstate_of (blank_context true (Some 7)))
    = (Ok (), hstate_of (blank_context true (Some 7))) ∧
  ∃ logs,
    handleError (Some 0) (EPlain "boom") (hstate_of (blank_context true (Some 7)))
      = (Ok (), mkHState [blank_context true (Some 7)]
                  ([] ++ EvNoContent 500 :: logs)) ∧
    logs = [EvLogError 7 "boom"].
Proof.
  destruct (handleError_unstructured (hstate_of (blank_context true (Some 7))) 0
              (blank_context true (Some 7)) eq_refl) as [Hskip Hplain].
  split; [apply Hskip|].
  destruct (Hplain "boom") as (logs & Hrun & Hl & _).
  exists logs. split; [exact Hrun | exact (Hl 7 eq_refl)].
Defined.

(** ** The panic middleware *)

(** C8, as it stands, fails for the nil value: when the wrapped handler
    calls [panic(nil)], [recover()] returns nil, the guard [err != nil] of
    the deferred function fails and the panic callback is not called at
    all, although the panic is stopped and the handler returns nil. *)
Lemma NewPanicMiddleware_nil_panic :
  let h := hstate_of (blank_context false (Some 7)) in
  let wrapped := NewPanicMiddleware HandlePanic_demo [Some panic_probe] nil_panic in
  wrapped (Some 0) h = (Ok None, h) ∧
  calls (trace (exec (wrapped (Some 0)) h)) = [] ∧
  calls (trace (exec (panic_probe (Some 0) VNil) h)) = [9].
Proof. vm_compute. by repeat split. Qed.

(** C8, amended.  When the wrapped handler [next] panics with a value [v]
    that is not nil, the handler made by [NewPanicMiddleware] calls the
    panic callback (the first argument when it is given and non-nil, the
    package default otherwise) with the context and [v], in the state the
    panic left; when the callback returns, the handler returns the nil
    error.  When [v] is nil the callback is not called and the handler
    returns the nil error in the state the panic left.  In no case does
    the handler return a non-nil error. *)
Theorem NewPanicMiddleware_recovers
    (HandlePanic : PanicHandler) (handle : list (option PanicHandler))
    (next : Handler) (ctx : Context) (v : value) (h h' : HState) :
  next ctx h = (Abort (Panic v), h') →
  (v ≠ VNil →
     (∀ h'', chosen_callback HandlePanic handle ctx v h' = (Ok (), h'') →
        NewPanicMiddleware HandlePanic handle next ctx h = (Ok None, h'')) ∧
     exec (NewPanicMiddleware HandlePanic handle next ctx) h =
       exec (chosen_callback HandlePanic handle ctx v) h') ∧
  (v = VNil → NewPanicMiddleware HandlePanic handle next ctx h = (Ok None, h')) ∧
  (∀ e, result (NewPanicMiddleware HandlePanic handle next ctx) h ≠ Ok (Some e)).
Proof.
  intros Hp.
  assert (Hrun : NewPanicMiddleware HandlePanic handle next ctx h =
                 if is_nil v then (Ok None, h')
                 else
                   match chosen_callback HandlePanic handle ctx v h' with
                   | (Ok _, h'') => (Ok None, h'')
                   | (Abort e, h'') => (Abort e, h'')
                   end).
  { unfold NewPanicMiddleware, recover_with, chosen_callback. rewrite Hp.
    reflexivity. }
  unfold result, exec. rewrite Hrun. split; [|split].
  - intros Hv. assert (is_nil v = false) as -> by (by destruct v).
    destruct (chosen_callback HandlePanic handle ctx v h') as [[[]|e] h2];
      (split; [intros h'' Heq; by inversion Heq | reflexivity]).
  - by intros ->.
  - intros e. destruct (is_nil v); [discriminate|].
    by destruct (chosen_callback HandlePanic handle ctx v h') as [[[]|e'] h2].
Qed.

(** ** Releasing a nil context *)

(** C9. [ReleaseContext] called with a nil [Context] returns without a
    panic and leaves the whole state as it was: no context is reset and
    nothing is put into the pool of any dispatcher (the receiver is not even
    dereferenced). *)
Theorem ReleaseContext_nil (p : ptr) (w : World) :
  ReleaseContext p None w = (Ok (), w).
Proof. reflexivity. Qed.

(** ** Running the operations on dispatchers *)

Lemma ship_at_ok (w : World) (p : ptr) (s : Ship) :
  ships w !! p = Some s → ship_at p w = (Ok s, w).
Proof. intros E. unfold ship_at. munfold. rewrite E. reflexivity. Qed.

Lemma ship_at_nil (w : World) (p : ptr) :
  ships w !! p = None → ship_at p w = (Abort (Panic nil_deref), w).
Proof. intros E. unfold ship_at. munfold. rewrite E. reflexivity. Qed.

Lemma update_ship_ok (w : World) (p : ptr) (s : Ship) (f : Ship → Ship) :
  ships w !! p = Some s →
  update_ship p f w = (Ok (), mkWorld (<[p := f s]> (ships w)) (hst w)).
Proof.
  intros E. unfold update_ship. rewrite (bind_ok _ _ _ _ _ (ship_at_ok _ _ _ E)).
  reflexivity.
Qed.

Lemma liftH_run {A} (m : H A) (w : World) :
  liftH m w = (fst (m (hst w)), mkWorld (ships w) (snd (m (hst w)))).
Proof. unfold liftH. by destruct (m (hst w)). Qed.

Lemma lookup_insert_self (l : list Ship) (p : ptr) (s s' : Ship) :
  l !! p = Some s → <[p := s']> l !! p = Some s'.
Proof. intros E. apply list_lookup_insert_eq. by eapply lookup_lt_Some. Qed.

(** ** Virtual hosts *)

Section VirtualHosts.
Variable routes : HandlerId → Handler.

Lemma New_run (cfg : Config) (w : World) :
  New routes cfg w =
    (Ok (length (ships w)), mkWorld (ships w ++ [new_ship routes cfg]) (hst w)).
Proof. reflexivity. Qed.

(** C10. On a receiver [s], [VHost] panics exactly when the [vhosts] map
    of [s] is nil ([s] is itself a virtual host) or the host is already
    registered.  Otherwise it returns a dispatcher that did not exist
    before, made by [New] from the configuration of [s], whose own
    [vhosts] map is nil, and registers it under the host in the map of
    [s]; nothing else changes. *)
Theorem VHost_spec (w : World) (p : ptr) (s : Ship) (host : string) :
  ships w !! p = Some s →
  ((∃ v, result (VHost routes p host) w = Abort (Panic v)) ↔
     (vhosts s = None ∨ ∃ m q, vhosts s = Some m ∧ m !! host = Some q)) ∧
  (∀ m, vhosts s = Some m → m !! host = None →
     ∃ w' sv,
       VHost routes p host w = (Ok (length (ships w)), w') ∧
       ships w !! length (ships w) = None ∧
       ships w' !! length (ships w) = Some sv ∧
       vhosts sv = None ∧
       config sv = Config_init (config s) ∧
       stopfs sv = [] ∧ links sv = [] ∧ server sv = None ∧
       ships w' !! p = Some (set_vhosts (Some (<[host := length (ships w)]> m)) s) ∧
       hst w' = hst w ∧
       (∀ q, q ≠ p → q ≠ length (ships w) → ships w' !! q = ships w !! q)).
Proof.
  intros E.
  assert (Hp : p < length (ships w)) by (by eapply lookup_lt_Some).
  assert (Hfresh : ships w !! length (ships w) = None)
    by (apply lookup_ge_None; lia).
  unfold VHost, result. rewrite (bind_ok _ _ _ _ _ (ship_at_ok _ _ _ E)).
  destruct (vhosts s) as [m|] eqn:Ev.
  - destruct (m !! host) as [q|] eqn:Eh.
    + split.
      * split; [intros _; right; eauto | intros _; eexists; reflexivity].
      * intros m' [= <-]. congruence.
    + rewrite (bind_ok _ _ _ _ _ (New_run (config s) w)).
      set (sn := new_ship routes (config s)).
      set (v := length (ships w)) in *.
      assert (E1 : ships (mkWorld (ships w ++ [sn]) (hst w)) !! v = Some sn).
      { cbn. apply list_lookup_middle. reflexivity. }
      rewrite (bind_ok _ _ _ _ _ (update_ship_ok _ _ _ _ E1)). cbn [ships hst].
      assert (E2 : <[v := set_vhosts None sn]> (ships w ++ [sn]) !! p = Some s).
      { rewrite list_lookup_insert_ne by lia. by rewrite lookup_app_l. }
      rewrite (bind_ok _ _ _ _ _
                 (update_ship_ok (mkWorld _ (hst w)) _ _ _ E2)).
      rewrite ret_run. cbn [fst ships hst].
      split.
      * split; [intros [? [=]] | intros [[=] | (m' & q & [= <-] & Hq)]; congruence].
      * intros m' [= <-] _.
        eexists _, (set_vhosts None sn). split; [reflexivity|].
        cbn [ships hst].
        repeat split; try done.
        -- rewrite list_lookup_insert_ne by lia.
           apply list_lookup_insert_eq. rewrite length_app. cbn. lia.
        -- apply list_lookup_insert_eq. rewrite length_insert, length_app. lia.
        -- intros q Hq1 Hq2.
           rewrite !list_lookup_insert_ne by done.
           destruct (decide (q < v)).
           ++ by rewrite lookup_app_l.
           ++ rewrite !lookup_ge_None_2; [done | lia | rewrite length_app; cbn; lia].
  - split.
    + split; [intros _; by left | intros _; eexists; reflexivity].
    + intros m [=].
Qed.

(** C6. [ServeHTTP] on a dispatcher [s] looks the request's [Host] up in
    the map of virtual hosts, a lookup by equality of strings: when the
    map has a dispatcher for exactly that host, the request is handled by
    that dispatcher's [handleRequest] with that dispatcher's router (and
    so with its pool, its pipeline and its error handler); when the map
    has none, or [s] has no map, the request is handled by [s] itself with
    the router of [s]. *)
Theorem ServeHTTP_dispatch (w : World) (p : ptr) (s : Ship)
    (rw : ResponseWriter) (r : Request) :
  ships w !! p = Some s →
  (∀ m vhost v, vhosts s = Some m → m !! Host r = Some vhost →
     ships w !! vhost = Some v →
     ServeHTTP p rw r w = handleRequest vhost (router v) rw r w) ∧
  (∀ m, vhosts s = Some m → m !! Host r = None →
     ServeHTTP p rw r w = handleRequest p (router s) rw r w) ∧
  (vhosts s = None →
     ServeHTTP p rw r w = handleRequest p (router s) rw r w).
Proof.
  intros E. unfold ServeHTTP.
  rewrite (bind_ok _ _ _ _ _ (ship_at_ok _ _ _ E)).
  repeat split.
  - intros m vhost v -> -> Ev.
    by rewrite (bind_ok _ _ _ _ _ (ship_at_ok _ _ _ Ev)).
  - by intros m -> ->.
  - by intros ->.
Qed.
End VirtualHosts.

(** ** Pre-middlewares *)

Section PreMiddlewares.
Variable routes : HandlerId → Handler.

Lemma wrap_from_run (pm : list Middleware) (n : nat) (handler : Handler) (w : World) :
  n ≤ length pm →
  wrap_from pm n handler w = (Ok (onion (take n pm) handler), w).
Proof.
  revert handler. induction n as [|i IH]; intros handler Hn.
  - reflexivity.
  - simpl. destruct (pm !! i) as [m|] eqn:Hm;
      [| apply lookup_ge_None in Hm; lia].
    rewrite IH by lia.
    rewrite (take_S_r _ _ _ Hm). unfold onion. rewrite foldr_app. reflexivity.
Qed.

Lemma Pre_run (w : World) (p : ptr) (s : Ship) (mws : list Middleware) :
  ships w !! p = Some s →
  Pre routes p mws w =
    (Ok (),
     mkWorld
       (<[p := set_handler
                 (onion (premiddlewares s ++ mws)
                    (handleRequestRoute routes (config s)))
                 (set_premiddlewares (premiddlewares s ++ mws) s)]> (ships w))
       (hst w)).
Proof.
  intros E. unfold Pre.
  rewrite (bind_ok _ _ _ _ _ (update_ship_ok _ _ _ _ E)).
  assert (E1 := lookup_insert_self _ _ _
                  (set_premiddlewares (premiddlewares s ++ mws) s) E).
  rewrite (bind_ok _ _ _ _ _ (ship_at_ok (mkWorld _ (hst w)) _ _ E1)).
  cbn [premiddlewares set_premiddlewares config].
  rewrite (bind_ok _ _ _ _ _ (wrap_from_run _ _ _ _ (Nat.le_refl _))).
  rewrite firstn_all.
  rewrite (update_ship_ok (mkWorld _ (hst w)) _ _ _ E1). cbn [ships hst].
  rewrite list_insert_insert_eq. reflexivity.
Qed.

Lemma tracing_run (name : string) (next : Handler) (ctx : Context)
    (h h1 : HState) (r : option error) :
  next ctx (mkHState (ctxs h) (trace h ++ [EvEnter name])) = (Ok r, h1) →
  tracing name next ctx h =
    (Ok r, mkHState (ctxs h1) (trace h1 ++ [EvExit name])).
Proof.
  intros E. unfold tracing.
  rewrite bind_run, emit_run, bind_run, E, bind_run, emit_run. reflexivity.
Qed.

(** C4. After one or more calls of [Pre] on a dispatcher, the handler of
    the dispatcher is the chain [mw[0](mw[1](...(mw[n](terminal))...))],
    where [mw] lists the pre-middlewares in the order they were registered
    (those the dispatcher already had, then the ones of each call) and the
    terminal is the route handler [handleRequestRoute].  For the two
    middlewares [A; B] around a terminal, the run enters [A], then [B],
    then runs the terminal, and on the way back leaves [B], then [A]. *)
Theorem Pre_composes (w : World) (p : ptr) (s : Ship)
    (mws : list Middleware) (calls : list (list Middleware)) :
  ships w !! p = Some s →
  let mw := premiddlewares s ++ mws ++ concat calls in
  for_each (Pre routes p) (mws :: calls) w =
    (Ok (),
     mkWorld
       (<[p := set_handler (onion mw (handleRequestRoute routes (config s)))
                 (set_premiddlewares mw s)]> (ships w))
       (hst w)) ∧
  (∀ (a b : string) (terminal : Handler) ctx h h1 r,
     terminal ctx (mkHState (ctxs h) (trace h ++ [EvEnter a; EvEnter b]))
       = (Ok r, h1) →
     onion [tracing a; tracing b] terminal ctx h =
       (Ok r, mkHState (ctxs h1) (trace h1 ++ [EvExit b; EvExit a]))).
Proof.
  intros E. split.
  - revert w s mws E. induction calls as [|c calls IH]; intros w s mws E.
    + cbn [for_each concat]. rewrite app_nil_r.
      rewrite (bind_ok _ _ _ _ _ (Pre_run _ _ _ _ E)). reflexivity.
    + change (for_each (Pre routes p) (mws :: c :: calls) w)
        with ((Pre routes p mws;; for_each (Pre routes p) (c :: calls)) w).
      rewrite (bind_ok _ _ _ _ _ (Pre_run _ _ _ _ E)).
      rewrite (IH (mkWorld _ (hst w)) _ c
                 (lookup_insert_self _ _ _ _ E)).
      cbn [ships hst premiddlewares config set_handler set_premiddlewares].
      rewrite list_insert_insert_eq.
      cbn [concat]. rewrite <- !app_assoc. reflexivity.
  - intros a b terminal ctx h h1 r Ht. cbn [onion foldr].
    rewrite (tracing_run a (tracing b terminal) ctx h
               (mkHState (ctxs h1) (trace h1 ++ [EvExit b])) r).
    + cbn [ctxs trace]. rewrite <- app_assoc. reflexivity.
    + apply tracing_run. cbn [ctxs trace]. rewrite <- app_assoc. exact Ht.
Qed.
End PreMiddlewares.

(** ** The request lifecycle *)

Lemma update_ctx_ok (h : HState) (c : cptr) (cx : contextT) (f : contextT → contextT) :
  ctxs h !! c = Some cx →
  update_ctx c f h = (Ok (), mkHState (<[c := f cx]> (ctxs h)) (trace h)).
Proof.
  intros E. unfold update_ctx. rewrite (bind_ok _ _ _ _ _ (deref_ok _ _ _ E)).
  reflexivity.
Qed.

Lemma update_ctx_inv (h h' : HState) (c : cptr) (f : contextT → contextT) :
  update_ctx c f h = (Ok (), h') →
  ∃ cx, ctxs h !! c = Some cx ∧
        h' = mkHState (<[c := f cx]> (ctxs h)) (trace h).
Proof.
  destruct (ctxs h !! c) as [cx|] eqn:E.
  - rewrite (update_ctx_ok _ _ _ _ E). intros [= <-]. eauto.
  - unfold update_ctx, deref. munfold. rewrite E. discriminate.
Qed.

Lemma set_ctxpool_same (s : Ship) : set_ctxpool (ctxpool s) s = s.
Proof. by destruct s. Qed.

Lemma newContext_run (cfg : Config) (r : option Request)
    (rw : option ResponseWriter) (h : HState) :
  newContext cfg r rw h =
    (Ok (length (ctxs h)),
     mkHState (ctxs h ++ [mkContext r rw None ∅ [] None (Debug cfg) (cfg_Logger cfg)])
       (trace h)).
Proof. reflexivity. Qed.

Lemma NewContext_run (w : World) (p : ptr) (s : Ship) (r : option Request)
    (rw : option ResponseWriter) :
  ships w !! p = Some s →
  NewContext p r rw w =
    (Ok (length (ctxs (hst w))),
     mkWorld (ships w)
       (mkHState
          (ctxs (hst w) ++
           [mkContext r rw None ∅ [] None (Debug (config s)) (cfg_Logger (config s))])
          (trace (hst w)))).
Proof.
  intros E. unfold NewContext.
  rewrite (bind_ok _ _ _ _ _ (ship_at_ok _ _ _ E)), liftH_run, newContext_run.
  reflexivity.
Qed.

(** What a successful [AcquireContext] leaves: the pool of the dispatcher
    has lost its head (if it had one), nothing else changed on the
    dispatchers, and the context is bound to the request. *)
Lemma AcquireContext_inv (w w1 : World) (p : ptr) (s : Ship) (c : cptr)
    (r : option Request) (rw : option ResponseWriter) :
  ships w !! p = Some s →
  AcquireContext p r rw w = (Ok c, w1) →
  ships w1 = <[p := set_ctxpool (tail (ctxpool s)) s]> (ships w) ∧
  trace (hst w1) = trace (hst w) ∧
  ∃ cx, ctxs (hst w1) !! c = Some cx ∧ c_req cx = r ∧ c_resp cx = rw.
Proof.
  intros E. unfold AcquireContext.
  rewrite (bind_ok _ _ _ _ _ (ship_at_ok _ _ _ E)).
  destruct (ctxpool s) as [|c0 rest] eqn:Epool.
  - rewrite (bind_ok _ _ _ _ _ (NewContext_run _ _ _ _ _ E)).
    rewrite bind_run, liftH_run. cbn [hst ships].
    set (cx0 := mkContext None None None ∅ [] None _ _).
    assert (E0 : ctxs (mkHState (ctxs (hst w) ++ [cx0]) (trace (hst w)))
                   !! length (ctxs (hst w)) = Some cx0)
      by (cbn; by apply list_lookup_middle).
    unfold setReqResp. rewrite (update_ctx_ok _ _ _ _ E0). cbn [fst snd ctxs trace].
    rewrite ret_run. intros [= <- <-]. cbn [ships hst ctxs trace tail].
    repeat split.
    + rewrite <- Epool, set_ctxpool_same. symmetry. by apply list_insert_id.
    + eexists. split; [apply list_lookup_insert_eq; rewrite length_app; cbn; lia|].
      by cbn.
  - rewrite bind_run, (bind_ok _ _ _ _ _ (update_ship_ok _ _ _ _ E)), ret_run.
    rewrite bind_run, liftH_run. cbn [hst ships].
    unfold setReqResp.
    destruct (update_ctx c0 _ (hst w)) as [[[]|e] h'] eqn:Eu; cbn [fst snd];
      [|discriminate].
    apply update_ctx_inv in Eu as (cx & Ecx & ->). rewrite ret_run.
    intros [= <- <-]. cbn [ships hst ctxs trace tail].
    repeat split.
    eexists. split; [apply list_lookup_insert_eq; by eapply lookup_lt_Some|].
    by cbn.
Qed.

Lemma set_router_ok (h : HState) (c : cptr) (cx : contextT) (r : Router) :
  ctxs h !! c = Some cx →
  ∃ cx', set_router c r h = (Ok (), mkHState (<[c := cx']> (ctxs h)) (trace h)) ∧
         c_router cx' = Some r ∧ c_req cx' = c_req cx.
Proof.
  intros E. unfold set_router. rewrite (update_ctx_ok _ _ _ _ E).
  eexists. split; [reflexivity|]. by cbn.
Qed.

Lemma ReleaseContext_inv (w w' : World) (p : ptr) (s : Ship) (c : cptr) :
  ships w !! p = Some s →
  ReleaseContext p (Some c) w = (Ok (), w') →
  ships w' = <[p := set_ctxpool (c :: ctxpool s) s]> (ships w) ∧
  trace (hst w') = trace (hst w) ∧
  ∃ cx, ctxs (hst w') !! c = Some cx ∧
        c_req cx = None ∧ c_err cx = None ∧ c_store cx = ∅ ∧ c_pvalues cx = [].
Proof.
  intros E. unfold ReleaseContext. rewrite bind_run, liftH_run. unfold reset.
  destruct (update_ctx c _ (hst w)) as [[[]|e] h'] eqn:Eu; cbn [fst snd];
    [|discriminate].
  apply update_ctx_inv in Eu as (cx & Ecx & ->).
  rewrite (update_ship_ok (mkWorld _ _) _ _ _ E).
  intros [= <-]. cbn [ships hst ctxs trace]. repeat split.
  eexists. split; [apply list_lookup_insert_eq; by eapply lookup_lt_Some|].
  by cbn.
Qed.

(** The steps of [handleRequest] after the context is acquired. *)
Lemma handleRequest_run (w w1 : World) (p : ptr) (s : Ship) (c : cptr)
    (router : Router) (rw : ResponseWriter) (r : Request) :
  ships w !! p = Some s →
  AcquireContext p (Some r) (Some rw) w = (Ok c, w1) →
  handleRequest p router rw r w =
    match handler s (Some c) (exec (set_router c router) (hst w1)) with
    | (Ok err, h3) =>
        (err' ← match err with
                | None => cx ← liftH (deref (Some c)); mret (c_err cx)
                | Some _ => mret err
                end;
         match err' with
         | Some e => liftH (call_HandleError (config s) (Some c) e)
         | None => mret ()
         end;;
         ReleaseContext p (Some c)) (mkWorld (ships w1) h3)
    | (Abort a, h3) => (Abort a, mkWorld (ships w1) h3)
    end.
Proof.
  intros E Ha.
  destruct (AcquireContext_inv _ _ _ _ _ _ _ E Ha) as (Hs & _ & cx & Ecx & _).
  unfold handleRequest. rewrite (bind_ok _ _ _ _ _ Ha).
  destruct (set_router_ok _ _ _ router Ecx) as (cx' & Hr & _).
  rewrite bind_run, liftH_run, Hr. cbn [fst snd].
  assert (E1 : ships (mkWorld (ships w1) (mkHState (<[c:=cx']> (ctxs (hst w1)))
                                           (trace (hst w1)))) !! p
               = Some (set_ctxpool (tail (ctxpool s)) s)).
  { cbn [ships]. rewrite Hs. by eapply lookup_insert_self. }
  rewrite (bind_ok _ _ _ _ _ (ship_at_ok _ _ _ E1)).
  cbn [handler config set_ctxpool].
  rewrite bind_run, liftH_run. cbn [hst ships]. unfold exec. rewrite Hr.
  cbn [snd].
  destruct (handler s (Some c) _) as [[err|a] h3]; reflexivity.
Qed.

(** C3, as it stands, fails when the pipeline panics: the panic leaves
    [handleRequest], and the context acquired for the request (context 0,
    the only one that exists) is not in the pool afterwards. *)
Lemma handleRequest_panic_not_released :
  let m := handleRequest 0 router_demo 0 (get_req "/panic") in
  result m world_demo = Abort (Panic (VString "bang")) ∧
  length (ctxs (hst (exec m world_demo))) = 1 ∧
  ctxpool <$> ships (exec m world_demo) !! 0 = Some [] ∧
  ¬ (∃ s, ships (exec m world_demo) !! 0 = Some s ∧ 0 ∈ ctxpool s).
Proof.
  vm_compute. repeat split.
  intros (s & [= <-] & Hin). cbn in Hin. by apply elem_of_nil in Hin.
Qed.

(** C3, amended.  Let [c] be the context [handleRequest] acquires.  When the
    pipeline handler returns, the error passed on is the error it returned,
    or, when that is nil, the one left in the error slot of [c]; the
    configured error handler is called, with [c] and that error, if and only
    if that error is non-nil, and [ReleaseContext] follows; whenever
    [handleRequest] returns, [c] has been reset and is the head of the pool.
    When the pipeline handler panics, [handleRequest] does not recover: the
    panic goes on to the caller, the error handler is not called and the
    pool is left as the acquisition left it, without [c]. *)
Theorem handleRequest_spec (w w1 : World) (p : ptr) (s : Ship) (c : cptr)
    (router : Router) (rw : ResponseWriter) (r : Request) :
  ships w !! p = Some s →
  AcquireContext p (Some r) (Some rw) w = (Ok c, w1) →
  let h2 := exec (set_router c router) (hst w1) in
  (∀ err h3 cx3,
     handler s (Some c) h2 = (Ok err, h3) →
     ctxs h3 !! c = Some cx3 →
     let e := match err with Some _ => err | None => c_err cx3 end in
     handleRequest p router rw r w =
       (match e with
        | Some e' => liftH (call_HandleError (config s) (Some c) e')
        | None => mret ()
        end;;
        ReleaseContext p (Some c)) (mkWorld (ships w1) h3) ∧
     (∀ w', handleRequest p router rw r w = (Ok (), w') →
        ships w' = <[p := set_ctxpool (c :: tail (ctxpool s)) s]> (ships w) ∧
        ∃ cx, ctxs (hst w') !! c = Some cx ∧ c_req cx = None ∧ c_err cx = None)) ∧
  (∀ a h3,
     handler s (Some c) h2 = (Abort a, h3) →
     handleRequest p router rw r w = (Abort a, mkWorld (ships w1) h3) ∧
     ships w1 = <[p := set_ctxpool (tail (ctxpool s)) s]> (ships w)).
Proof.
  intros E Ha h2.
  pose proof (handleRequest_run _ _ _ _ _ router rw r E Ha) as Hrun.
  fold h2 in Hrun.
  destruct (AcquireContext_inv _ _ _ _ _ _ _ E Ha) as (Hs & _ & _).
  split.
  - intros err h3 cx3 Hh Hc e. rewrite Hh in Hrun.
    assert (Heq : handleRequest p router rw r w =
              (match e with
               | Some e' => liftH (call_HandleError (config s) (Some c) e')
               | None => mret ()
               end;;
               ReleaseContext p (Some c)) (mkWorld (ships w1) h3)).
    { rewrite Hrun. subst e. destruct err as [e0|].
      - rewrite bind_run, ret_run. reflexivity.
      - rewrite bind_run, bind_run, liftH_run. cbn [hst ships].
        rewrite (deref_ok _ _ _ Hc). cbn [fst snd]. rewrite ret_run.
        by destruct h3. }
    split; [exact Heq|].
    intros w' Hok. rewrite Heq, bind_run in Hok.
    assert (Hrel : ∀ w4, ships w4 = ships w1 →
              ReleaseContext p (Some c) w4 = (Ok (), w') →
              ships w' = <[p:=set_ctxpool (c :: tail (ctxpool s)) s]> (ships w) ∧
              ∃ cx, ctxs (hst w') !! c = Some cx ∧ c_req cx = None ∧ c_err cx = None).
    { intros w4 H4 Hr.
      assert (E4 : ships w4 !! p = Some (set_ctxpool (tail (ctxpool s)) s))
        by (rewrite H4, Hs; by eapply lookup_insert_self).
      destruct (ReleaseContext_inv _ _ _ _ _ E4 Hr)
        as (Hs' & _ & cx & Hcx & Hreq & Herr & _).
      split; [|by eauto].
      rewrite Hs', H4, Hs, list_insert_insert_eq. by destruct s. }
    destruct e as [e'|].
    + rewrite liftH_run in Hok. cbn [hst ships] in Hok.
      destruct (call_HandleError (config s) (Some c) e' h3) as [[[]|a] h4];
        cbn [fst snd] in Hok; [|discriminate].
      by apply (Hrel (mkWorld (ships w1) h4) eq_refl) in Hok.
    + rewrite ret_run in Hok.
      by apply (Hrel (mkWorld (ships w1) h3) eq_refl) in Hok.
  - intros a h3 Hh. rewrite Hh in Hrun. by split.
Qed.

Lemma handleRequest_spec_witness :
  ∃ w',
    handleRequest 0 router_demo 0 (get_req "/slot") world_demo = (Ok (), w') ∧
    ctxpool <$> ships w' !! 0 = Some [0] ∧
    trace (hst w') = [EvBlob 418 "text/plain" "short and stout"].
Proof.
  pose (w1 := exec (AcquireContext 0 (Some (get_req "/slot")) (Some 0)) world_demo).
  pose (h3 := exec (routes_demo 3 (Some 0))
                (exec (set_router 0 router_demo) (hst w1))).
  destruct (handleRequest_spec world_demo w1 0 (new_ship routes_demo cfg_demo) 0
              router_demo 0 (get_req "/slot") eq_refl eq_refl) as [Hret _].
  destruct (Hret None h3
              (mkContext (Some (get_req "/slot")) (Some 0) (Some router_demo) ∅ []
                 (Some (EHTTP err_teapot)) false (Some 7))
              eq_refl eq_refl) as [Heq Hrel].
  eexists. split; [rewrite Heq; vm_compute; reflexivity|].
  split; reflexivity.
Defined.

(** ** Registering shutdown functions *)

Lemma ships_insert_insert (l : list Ship) (p : ptr) (s s' : Ship) :
  <[p := s']> (<[p := s]> l) = <[p := s']> l.
Proof. apply list_insert_insert_eq. Qed.

Lemma Lock_run (w : World) (p : ptr) (s : Ship) :
  ships w !! p = Some s → locked s = false →
  Lock p w = (Ok (), mkWorld (<[p := set_locked true s]> (ships w)) (hst w)).
Proof.
  intros E Hl. unfold Lock.
  rewrite (bind_ok _ _ _ _ _ (ship_at_ok _ _ _ E)), Hl.
  apply (update_ship_ok _ _ _ _ E).
Qed.

Lemma Lock_held (w : World) (p : ptr) (s : Ship) :
  ships w !! p = Some s → locked s = true → Lock p w = (Abort Deadlock, w).
Proof.
  intros E Hl. unfold Lock.
  rewrite (bind_ok _ _ _ _ _ (ship_at_ok _ _ _ E)), Hl. reflexivity.
Qed.

Lemma RLock_run (w : World) (p : ptr) (s : Ship) :
  ships w !! p = Some s → locked s = false → RLock p w = (Ok (), w).
Proof.
  intros E Hl. unfold RLock.
  rewrite (bind_ok _ _ _ _ _ (ship_at_ok _ _ _ E)), Hl. reflexivity.
Qed.

Lemma append_stopfs_run (p : ptr) (fs : list callback) (w : World) (s : Ship) :
  ships w !! p = Some s →
  for_each
    (λ f, update_ship p (λ s, set_stopfs (stopfs s ++ [mkStopT false f]) s)) fs w =
  (Ok (),
   mkWorld (<[p := set_stopfs (stopfs s ++ map (mkStopT false) fs) s]> (ships w))
     (hst w)).
Proof.
  revert w s. induction fs as [|f fs IH]; intros w s E.
  - cbn [for_each map]. rewrite ret_run, app_nil_r.
    replace (set_stopfs (stopfs s) s) with s by (by destruct s).
    rewrite list_insert_id by done. by destruct w.
  - cbn [for_each map].
    rewrite (bind_ok _ _ _ _ _ (update_ship_ok _ _ _ _ E)).
    rewrite (IH (mkWorld _ (hst w)) _ (lookup_insert_self _ _ _ _ E)).
    cbn [ships hst]. rewrite ships_insert_insert.
    cbn [stopfs set_stopfs]. rewrite <- app_assoc. by destruct s.
Qed.

Lemma RegisterOnShutdown_run (w : World) (p : ptr) (s : Ship) (fs : list callback) :
  ships w !! p = Some s → locked s = false →
  RegisterOnShutdown p fs w =
    (Ok (),
     mkWorld (<[p := set_stopfs (stopfs s ++ map (mkStopT false) fs) s]> (ships w))
       (hst w)).
Proof.
  intros E Hl. unfold RegisterOnShutdown.
  rewrite (bind_ok _ _ _ _ _ (Lock_run _ _ _ E Hl)).
  pose proof (lookup_insert_self _ _ _ (set_locked true s) E) as E1.
  rewrite (bind_ok _ _ _ _ _ (append_stopfs_run _ fs (mkWorld _ (hst w)) _ E1)).
  cbn [ships hst]. rewrite ships_insert_insert.
  unfold Unlock.
  rewrite (update_ship_ok (mkWorld _ (hst w)) _ _ _
             (lookup_insert_self _ _ _ _ E)).
  cbn [ships hst]. rewrite ships_insert_insert.
  destruct s; cbn in *; subst; reflexivity.
Qed.

(** With the write lock held, registering blocks. *)
Lemma RegisterOnShutdown_blocked (w : World) (p : ptr) (s : Ship) (fs : list callback) :
  ships w !! p = Some s → locked s = true →
  RegisterOnShutdown p fs w = (Abort Deadlock, w).
Proof.
  intros E Hl. unfold RegisterOnShutdown.
  by rewrite (bind_abort _ _ _ _ _ (Lock_held _ _ _ E Hl)).
Qed.

(** ** The one-shot gates *)

Lemma shutdown_used (run : callback → W ()) (w : World) (p : ptr) (s : Ship) :
  ships w !! p = Some s → once1 s = true → shutdown run p w = (Ok (), w).
Proof.
  intros E H1. unfold shutdown.
  rewrite (bind_ok _ _ _ _ _ (ship_at_ok _ _ _ E)), H1. reflexivity.
Qed.

Lemma stop_used (run : callback → W ()) (w : World) (p : ptr) (s : Ship) :
  ships w !! p = Some s → once2 s = true → stop run p w = (Ok (), w).
Proof.
  intros E H2. unfold stop.
  rewrite (bind_ok _ _ _ _ _ (ship_at_ok _ _ _ E)), H2. reflexivity.
Qed.

Lemma trigger_used (fuel : nat) (w : World) (p : ptr) (s : Ship) (n : nat) :
  ships w !! p = Some s → once1 s = true → trigger fuel p n w = (Ok (), w).
Proof.
  intros E H1. induction n as [|n IH]; [reflexivity|].
  cbn [trigger]. by rewrite (bind_ok _ _ _ _ _ (shutdown_used _ _ _ _ E H1)).
Qed.

(** ** Running the registered functions *)

Lemma run_callback_user (fuel : nat) (id : nat) (w : World) :
  run_callback (S fuel) (CbUser id) w =
    (Ok (), mkWorld (ships w)
              (mkHState (ctxs (hst w)) (trace (hst w) ++ [EvCall id]))).
Proof. reflexivity. Qed.

Lemma run_callback_shutdown (fuel : nat) (p : ptr) :
  run_callback (S fuel) (CbShutdown p) = shutdown (run_callback fuel) p.
Proof. reflexivity. Qed.

Lemma run_callback_stop (fuel : nat) (p : ptr) :
  run_callback (S fuel) (CbStop p) = stop (run_callback fuel) p.
Proof. reflexivity. Qed.

Lemma stopT_run_fresh (run : callback → W ()) (w : World) (p : ptr) (s : Ship)
    (i : nat) (f : callback) :
  ships w !! p = Some s →
  stopfs s !! i = Some (mkStopT false f) →
  stopT_run run p i w =
    run f (mkWorld
             (<[p := set_stopfs (<[i := mkStopT true f]> (stopfs s)) s]> (ships w))
             (hst w)).
Proof.
  intros E Hi. unfold stopT_run.
  rewrite (bind_ok _ _ _ _ _ (ship_at_ok _ _ _ E)), Hi. cbn [st_once st_f].
  by rewrite (bind_ok _ _ _ _ _ (update_ship_ok _ _ _ _ E)).
Qed.

Lemma stopT_run_used (run : callback → W ()) (w : World) (p : ptr) (s : Ship)
    (i : nat) (f : callback) :
  ships w !! p = Some s →
  stopfs s !! i = Some (mkStopT true f) →
  stopT_run run p i w = (Ok (), w).
Proof.
  intros E Hi. unfold stopT_run.
  by rewrite (bind_ok _ _ _ _ _ (ship_at_ok _ _ _ E)), Hi.
Qed.

(** The loop of [runStop] over entries that hold functions of the user and
    have not run: each runs once, in the order of the slice. *)
Lemma runStop_loop_user (fuel : nat) (p : ptr) (rest : list nat) (post : list stopT) :
  ∀ (pre : list stopT) (w : World) (s : Ship),
    ships w !! p = Some s →
    stopfs s = pre ++ map (λ id, mkStopT false (CbUser id)) rest ++ post →
    for_each (stopT_run (run_callback (S fuel)) p)
      (seq (length pre) (length rest)) w =
    (Ok (),
     mkWorld
       (<[p := set_stopfs
                 (pre ++ map (λ id, mkStopT true (CbUser id)) rest ++ post) s]>
          (ships w))
       (mkHState (ctxs (hst w)) (trace (hst w) ++ map EvCall rest))).
Proof.
  induction rest as [|id rest IH]; intros pre w s E Hs.
  - cbn [length seq for_each map app]. rewrite ret_run, !app_nil_r.
    cbn [map app] in Hs. rewrite <- Hs.
    replace (set_stopfs (stopfs s) s) with s by (by destruct s).
    rewrite list_insert_id by done. by destruct w as [? []].
  - cbn [length seq for_each].
    assert (Hi : stopfs s !! length pre = Some (mkStopT false (CbUser id)))
      by (rewrite Hs; by apply list_lookup_middle).
    rewrite bind_run, (stopT_run_fresh _ _ _ _ _ _ E Hi), run_callback_user.
    cbn [ships hst].
    set (s1 := set_stopfs (<[length pre := mkStopT true (CbUser id)]> (stopfs s)) s).
    assert (Hs1 : stopfs s1 =
              (pre ++ [mkStopT true (CbUser id)]) ++
              map (λ id, mkStopT false (CbUser id)) rest ++ post).
    { subst s1. cbn [stopfs set_stopfs]. rewrite Hs. cbn [map].
      rewrite insert_app_r_alt by lia. rewrite Nat.sub_diag. cbn.
      by rewrite <- app_assoc. }
    pose proof (IH (pre ++ [mkStopT true (CbUser id)])
                  (mkWorld (<[p := s1]> (ships w))
                     (mkHState (ctxs (hst w)) (trace (hst w) ++ [EvCall id])))
                  s1 (lookup_insert_self _ _ _ _ E) Hs1) as IH'.
    rewrite length_app, Nat.add_1_r in IH'. cbn [length] in IH'.
    rewrite IH'. cbn [ships hst ctxs trace]. rewrite ships_insert_insert.
    cbn [map]. rewrite <- !app_assoc. cbn [app].
    subst s1. by destruct s.
Qed.

Lemma runStop_user (fuel : nat) (w : World) (p : ptr) (s : Ship) (fs : list nat) :
  ships w !! p = Some s → locked s = false → done_closed s = false →
  stopfs s = pending fs →
  runStop (run_callback (S fuel)) p w =
    (Ok (),
     mkWorld (<[p := set_done_closed true (set_stopfs (ran fs) s)]> (ships w))
       (mkHState (ctxs (hst w)) (trace (hst w) ++ map EvCall fs))).
Proof.
  intros E Hl Hd Hs. unfold runStop.
  rewrite (bind_ok _ _ _ _ _ (RLock_run _ _ _ E Hl)).
  unfold deferred.
  rewrite (bind_ok _ _ _ _ _ (ship_at_ok _ _ _ E)).
  assert (Hs' : stopfs s = [] ++ pending fs ++ [])
    by (by rewrite app_nil_r).
  pose proof (runStop_loop_user fuel p fs [] [] w s E Hs') as Hloop.
  cbn [length app] in Hloop. rewrite app_nil_r in Hloop.
  rewrite Hs. unfold pending at 1.
  rewrite length_map, Hloop.
  unfold close_done.
  pose proof (lookup_insert_self _ _ _ (set_stopfs (ran fs) s) E) as E1.
  rewrite (bind_ok _ _ _ _ _ (ship_at_ok (mkWorld _ _) _ _ E1)).
  cbn [done_closed set_stopfs]. rewrite Hd.
  rewrite (update_ship_ok (mkWorld _ _) _ _ _ E1). cbn [ships hst].
  by rewrite ships_insert_insert.
Qed.

Lemma stop_user (fuel : nat) (w : World) (p : ptr) (s : Ship) (fs : list nat) :
  ships w !! p = Some s → locked s = false → once2 s = false →
  done_closed s = false → stopfs s = pending fs →
  stop (run_callback (S fuel)) p w =
    (Ok (),
     mkWorld
       (<[p := set_done_closed true (set_stopfs (ran fs) (set_once2 true s))]>
          (ships w))
       (mkHState (ctxs (hst w)) (trace (hst w) ++ map EvCall fs))).
Proof.
  intros E Hl H2 Hd Hs. unfold stop.
  rewrite (bind_ok _ _ _ _ _ (ship_at_ok _ _ _ E)), H2.
  rewrite (bind_ok _ _ _ _ _ (update_ship_ok _ _ _ _ E)).
  rewrite (runStop_user fuel (mkWorld _ (hst w)) p (set_once2 true s) fs
             (lookup_insert_self _ _ _ _ E)) by done.
  cbn [ships hst]. by rewrite ships_insert_insert.
Qed.

Lemma shutdown_user (fuel : nat) (w : World) (p : ptr) (s : Ship) (srv : Server)
    (fs : list nat) :
  ships w !! p = Some s → locked s = false → once1 s = false → once2 s = false →
  done_closed s = false → server s = Some srv → onShutdown srv = [CbStop p] →
  stopfs s = pending fs →
  shutdown (run_callback (S (S fuel))) p w =
    (Ok (),
     mkWorld (<[p := shut_down fs s]> (ships w))
       (mkHState (ctxs (hst w)) (trace (hst w) ++ map EvCall fs))).
Proof.
  intros E Hl H1 H2 Hd Hsrv Hon Hs. unfold shutdown.
  rewrite (bind_ok _ _ _ _ _ (ship_at_ok _ _ _ E)), H1.
  rewrite (bind_ok _ _ _ _ _ (update_ship_ok _ _ _ _ E)).
  pose proof (lookup_insert_self _ _ _ (set_once1 true s) E) as E1.
  unfold Shutdown.
  rewrite bind_run, (bind_ok _ _ _ _ _ (RLock_run (mkWorld _ (hst w)) _ _ E1 Hl)).
  rewrite (bind_ok _ _ _ _ _ (ship_at_ok (mkWorld _ (hst w)) _ _ E1)).
  cbn [server set_once1]. rewrite Hsrv. unfold Server_Shutdown. rewrite Hon.
  cbn [for_each]. rewrite bind_run, bind_run, run_callback_stop.
  rewrite (stop_user fuel (mkWorld _ (hst w)) p (set_once1 true s) fs E1) by done.
  rewrite !ret_run. cbn [ships hst]. by rewrite ships_insert_insert.
Qed.

(** One or more calls of the trigger on a serving dispatcher whose
    registered functions are the user functions [fs]: they run once each,
    in the order of registration. *)
Lemma trigger_user (fuel n : nat) (w : World) (p : ptr) (s : Ship) (srv : Server)
    (fs : list nat) :
  ships w !! p = Some s → locked s = false → once1 s = false → once2 s = false →
  done_closed s = false → server s = Some srv → onShutdown srv = [CbStop p] →
  stopfs s = pending fs →
  trigger (S (S fuel)) p (S n) w =
    (Ok (),
     mkWorld (<[p := shut_down fs s]> (ships w))
       (mkHState (ctxs (hst w)) (trace (hst w) ++ map EvCall fs))).
Proof.
  intros E Hl H1 H2 Hd Hsrv Hon Hs. cbn [trigger].
  rewrite (bind_ok _ _ _ _ _
             (shutdown_user fuel w p s srv fs E Hl H1 H2 Hd Hsrv Hon Hs)).
  apply (trigger_used _ (mkWorld _ _) p (shut_down fs s));
    [by eapply lookup_insert_self | reflexivity].
Qed.

Lemma calls_app (t1 t2 : list event) : calls (t1 ++ t2) = calls t1 ++ calls t2.
Proof.
  induction t1 as [|e t1 IH]; [reflexivity|].
  destruct e; cbn; by rewrite ?IH.
Qed.

Lemma calls_map_EvCall (fs : list nat) : calls (map EvCall fs) = fs.
Proof. induction fs as [|f fs IH]; [reflexivity|]. cbn. by rewrite IH. Qed.

Lemma pending_app (fs gs : list nat) : pending (fs ++ gs) = pending fs ++ pending gs.
Proof. unfold pending. apply map_app. Qed.

Lemma register_user_run (p : ptr) (regs : list (list nat)) (w : World) (s : Ship) :
  ships w !! p = Some s → locked s = false →
  for_each (λ fs, RegisterOnShutdown p (map CbUser fs)) regs w =
    (Ok (),
     mkWorld (<[p := set_stopfs (stopfs s ++ pending (concat regs)) s]> (ships w))
       (hst w)).
Proof.
  revert w s. induction regs as [|fs regs IH]; intros w s E Hl.
  - cbn [for_each concat pending map]. rewrite ret_run, app_nil_r.
    replace (set_stopfs (stopfs s) s) with s by (by destruct s).
    rewrite list_insert_id by done. by destruct w.
  - cbn [for_each concat].
    rewrite (bind_ok _ _ _ _ _ (RegisterOnShutdown_run _ _ _ _ E Hl)).
    rewrite (IH (mkWorld _ (hst w)) _ (lookup_insert_self _ _ _ _ E)) by done.
    cbn [ships hst stopfs set_stopfs]. rewrite ships_insert_insert.
    rewrite pending_app, <- app_assoc, map_map. by destruct s.
Qed.

Lemma register_links_nil (p : ptr) (w : World) : register_links p [] w = (Ok (), w).
Proof. reflexivity. Qed.

Lemma Logger_Error_run (w : World) (p : ptr) (s : Ship) (lg : Logger) (msg : string) :
  ships w !! p = Some s → cfg_Logger (config s) = Some lg →
  Logger_Error p msg w =
    (Ok (), mkWorld (ships w)
              (mkHState (ctxs (hst w)) (trace (hst w) ++ [EvLogError lg msg]))).
Proof.
  intros E Hl. unfold Logger_Error.
  rewrite (bind_ok _ _ _ _ _ (ship_at_ok _ _ _ E)), Hl. reflexivity.
Qed.

Lemma Logger_Info_run (w : World) (p : ptr) (s : Ship) (lg : Logger) (msg : string) :
  ships w !! p = Some s → cfg_Logger (config s) = Some lg →
  Logger_Info p msg w =
    (Ok (), mkWorld (ships w)
              (mkHState (ctxs (hst w)) (trace (hst w) ++ [EvLogInfo lg msg]))).
Proof.
  intros E Hl. unfold Logger_Info.
  rewrite (bind_ok _ _ _ _ _ (ship_at_ok _ _ _ E)), Hl. reflexivity.
Qed.

Lemma startServer_run (run : callback → W ()) (w w1 : World) (p : ptr)
    (s s1 : Ship) (srv : Server) (lg : Logger) :
  ships w !! p = Some s → is_Some (vhosts s) →
  register_links p (links s) w = (Ok (), w1) →
  ships w1 !! p = Some s1 → locked s1 = false → server s1 = None →
  cfg_Logger (config s1) = Some lg →
  startServer run p srv w =
    (Ok true,
     mkWorld (<[p := set_server (Some (serving p srv)) s1]> (ships w1))
       (mkHState (ctxs (hst w1))
          (trace (hst w1) ++ [EvLogInfo lg (running_on (Name (config s1)) srv)]))).
Proof.
  intros E [m Hv] Hreg E1 Hl Hsrv Hlg. unfold startServer.
  rewrite (bind_ok _ _ _ _ _ (ship_at_ok _ _ _ E)), Hv.
  rewrite (bind_ok _ _ _ _ _ Hreg).
  rewrite (bind_ok _ _ _ _ _ (ship_at_ok _ _ _ E1)).
  rewrite (bind_ok _ _ _ _ _ (Logger_Info_run _ _ _ _ _ E1 Hlg)).
  set (w2 := mkWorld (ships w1) _).
  assert (E2 : ships w2 !! p = Some s1) by done.
  rewrite (bind_ok _ _ _ _ _ (Lock_run _ _ _ E2 Hl)).
  pose proof (lookup_insert_self _ _ _ (set_locked true s1) E2) as E3.
  rewrite (bind_ok _ _ _ _ _ (ship_at_ok (mkWorld _ (hst w2)) _ _ E3)).
  cbn [server set_locked]. rewrite Hsrv.
  rewrite (bind_ok _ _ _ _ _ (update_ship_ok (mkWorld _ (hst w2)) _ _ _ E3)).
  cbn [ships hst]. rewrite ships_insert_insert.
  unfold Unlock.
  rewrite (bind_ok _ _ _ _ _
             (update_ship_ok (mkWorld _ (hst w2)) _ _ _
                (lookup_insert_self _ _ _ _ E2))).
  rewrite ret_run. cbn [ships hst]. rewrite ships_insert_insert.
  subst w2. cbn [ships hst].
  destruct s1; cbn in *; subst; reflexivity.
Qed.

Lemma shutdown_not_started (run : callback → W ()) (w : World) (p : ptr) (s : Ship) :
  ships w !! p = Some s → locked s = false → once1 s = false → server s = None →
  shutdown run p w =
    (Ok (), mkWorld (<[p := set_once1 true s]> (ships w)) (hst w)).
Proof.
  intros E Hl H1 Hsrv. unfold shutdown.
  rewrite (bind_ok _ _ _ _ _ (ship_at_ok _ _ _ E)), H1.
  rewrite (bind_ok _ _ _ _ _ (update_ship_ok _ _ _ _ E)).
  pose proof (lookup_insert_self _ _ _ (set_once1 true s) E) as E1.
  unfold Shutdown.
  rewrite bind_run, (bind_ok _ _ _ _ _ (RLock_run (mkWorld _ (hst w)) _ _ E1 Hl)).
  rewrite (bind_ok _ _ _ _ _ (ship_at_ok (mkWorld _ (hst w)) _ _ E1)).
  cbn [server set_once1]. by rewrite Hsrv, !ret_run.
Qed.

Lemma trigger_not_started (fuel n : nat) (w : World) (p : ptr) (s : Ship) :
  ships w !! p = Some s → locked s = false → once1 s = false → server s = None →
  trigger fuel p (S n) w =
    (Ok (), mkWorld (<[p := set_once1 true s]> (ships w)) (hst w)).
Proof.
  intros E Hl H1 Hs. cbn [trigger].
  rewrite (bind_ok _ _ _ _ _ (shutdown_not_started _ _ _ _ E Hl H1 Hs)).
  by apply (trigger_used fuel (mkWorld _ (hst w)) p (set_once1 true s) n);
    [eapply lookup_insert_self|].
Qed.

(** The event [startServer] logs when the listener has returned. *)
Lemma startServer_returned_run (run : callback → W ()) (w : World) (p : ptr)
    (s : Ship) (lg : Logger) (err : listen_result) :
  ships w !! p = Some s → cfg_Logger (config s) = Some lg →
  ∃ ev,
    is_log ev = true ∧
    startServer_returned run p err w =
      shutdown run p
        (mkWorld (ships w) (mkHState (ctxs (hst w)) (trace (hst w) ++ [ev]))).
Proof.
  intros E Hlg. unfold startServer_returned.
  rewrite (bind_ok _ _ _ _ _ (ship_at_ok _ _ _ E)).
  destruct err as [|text].
  - eexists. split; [|by rewrite (bind_ok _ _ _ _ _ (Logger_Info_run _ _ _ _ _ E Hlg))].
    reflexivity.
  - eexists. split; [|by rewrite (bind_ok _ _ _ _ _ (Logger_Error_run _ _ _ _ _ E Hlg))].
    reflexivity.
Qed.

Lemma calls_log (t : list event) (ev : event) :
  is_log ev = true → calls (t ++ [ev]) = calls t.
Proof.
  intros Hev. rewrite calls_app. destruct ev; try discriminate; cbn;
    by rewrite app_nil_r.
Qed.

Section ShutdownOrder.
Variable routes : HandlerId → Handler.

Lemma lifecycle_unstarted_run (fuel n : nat) (cfg : Config)
    (regs : list (list nat)) (w : World) :
  ∃ w',
    lifecycle_unstarted routes fuel cfg regs (S n) w = (Ok (), w') ∧
    hst w' = hst w.
Proof.
  unfold lifecycle_unstarted. rewrite (bind_ok _ _ _ _ _ (New_run routes cfg w)).
  set (p := length (ships w)). set (s0 := new_ship routes cfg).
  set (w0 := mkWorld (ships w ++ [s0]) (hst w)).
  assert (E0 : ships w0 !! p = Some s0) by (by apply list_lookup_middle).
  rewrite (bind_ok _ _ _ _ _ (register_user_run p regs w0 s0 E0 eq_refl)).
  set (s1 := set_stopfs _ s0). set (w1 := mkWorld _ (hst w0)).
  assert (E1 : ships w1 !! p = Some s1) by (by eapply lookup_insert_self).
  cbn [trigger].
  rewrite (bind_ok _ _ _ _ _
             (shutdown_not_started _ w1 p s1 E1 eq_refl eq_refl eq_refl)).
  rewrite (trigger_used _ (mkWorld _ (hst w1)) p (set_once1 true s1));
    [| by eapply lookup_insert_self | reflexivity].
  eexists. split; reflexivity.
Qed.

Lemma lifecycle_run (fuel n : nat) (cfg : Config) (regs1 regs2 : list (list nat))
    (addr : string) (ret : option listen_result) (w : World) :
  1 ≤ n ∨ is_Some ret →
  ∃ w',
    lifecycle routes (S (S fuel)) cfg regs1 regs2 (mkServer addr []) n ret w
      = (Ok (), w') ∧
    calls (trace (hst w')) =
      calls (trace (hst w)) ++ concat regs1 ++ concat regs2.
Proof.
  intros Hn.
  unfold lifecycle. rewrite (bind_ok _ _ _ _ _ (New_run routes cfg w)).
  set (p := length (ships w)). set (s0 := new_ship routes cfg).
  set (w0 := mkWorld (ships w ++ [s0]) (hst w)).
  assert (E0 : ships w0 !! p = Some s0) by (by apply list_lookup_middle).
  rewrite (bind_ok _ _ _ _ _ (register_user_run p regs1 w0 s0 E0 eq_refl)).
  set (s1 := set_stopfs _ s0). set (w1 := mkWorld _ (hst w0)).
  assert (E1 : ships w1 !! p = Some s1) by (by eapply lookup_insert_self).
  rewrite (bind_ok _ _ _ _ _
             (startServer_run _ w1 w1 p s1 s1 (mkServer addr [])
                (default StdoutLogger (cfg_Logger cfg))
                E1 (mk_is_Some _ _ eq_refl) (register_links_nil _ _) E1
                eq_refl eq_refl eq_refl)).
  set (s2 := set_server _ s1). set (w2 := mkWorld _ _).
  assert (E2 : ships w2 !! p = Some s2) by (by eapply lookup_insert_self).
  rewrite (bind_ok _ _ _ _ _ (register_user_run p regs2 w2 s2 E2 eq_refl)).
  set (s3 := set_stopfs _ s2). set (w3 := mkWorld _ (hst w2)).
  assert (E3 : ships w3 !! p = Some s3) by (by eapply lookup_insert_self).
  assert (Hst : stopfs s3 = pending (concat regs1 ++ concat regs2)).
  { subst s3 s2 s1 s0. cbn. by rewrite pending_app. }
  assert (Hc2 : calls (trace (hst w2)) = calls (trace (hst w))).
  { subst w2 w1 w0. cbn [hst trace]. by apply calls_log. }
  destruct n as [|n].
  - (* no trigger from outside: the listener returns, the deferred one runs *)
    destruct Hn as [Hn|[err ->]]; [lia|].
    cbn [trigger]. rewrite (bind_ok _ _ _ _ _ (ret_run _ _)).
    destruct (startServer_returned_run (run_callback (S (S fuel))) w3 p s3
                (default StdoutLogger (cfg_Logger cfg)) err E3 eq_refl)
      as (ev & Hev & ->).
    set (w4 := mkWorld (ships w3) _).
    assert (E4 : ships w4 !! p = Some s3) by exact E3.
    rewrite (shutdown_user fuel w4 p s3 (serving p (mkServer addr []))
               (concat regs1 ++ concat regs2) E4); try done.
    eexists. split; [reflexivity|]. cbn [hst trace w4 w3].
    by rewrite calls_app, calls_map_EvCall, (calls_log _ _ Hev), Hc2.
  - rewrite (bind_ok _ _ _ _ _
               (trigger_user fuel n w3 p s3 (serving p (mkServer addr []))
                  (concat regs1 ++ concat regs2) E3 eq_refl eq_refl eq_refl
                  eq_refl eq_refl eq_refl Hst)).
    set (s4 := shut_down _ s3). set (w4 := mkWorld _ _).
    assert (E4 : ships w4 !! p = Some s4) by (by eapply lookup_insert_self).
    assert (Hc4 : calls (trace (hst w4)) =
                  calls (trace (hst w)) ++ concat regs1 ++ concat regs2).
    { subst w4 w3. cbn [hst trace]. by rewrite calls_app, calls_map_EvCall, Hc2. }
    destruct ret as [err|].
    + destruct (startServer_returned_run (run_callback (S (S fuel))) w4 p s4
                  (default StdoutLogger (cfg_Logger cfg)) err E4 eq_refl)
        as (ev & Hev & ->).
      set (w5 := mkWorld (ships w4) _).
      assert (E5 : ships w5 !! p = Some s4) by exact E4.
      rewrite (shutdown_used _ w5 p s4 E5 eq_refl).
      eexists. split; [reflexivity|]. cbn [hst trace w5].
      by rewrite (calls_log _ _ Hev).
    + rewrite ret_run. by eexists.
Qed.

Lemma lifecycle_early_run (fuel k n : nat) (cfg : Config)
    (regs1 regs2 : list (list nat)) (addr : string) (ret : option listen_result)
    (w : World) :
  ∃ w',
    lifecycle_early routes fuel cfg regs1 regs2 (mkServer addr []) (S k) n ret w
      = (Ok (), w') ∧
    calls (trace (hst w')) = calls (trace (hst w)).
Proof.
  unfold lifecycle_early. rewrite (bind_ok _ _ _ _ _ (New_run routes cfg w)).
  set (p := length (ships w)). set (s0 := new_ship routes cfg).
  set (w0 := mkWorld (ships w ++ [s0]) (hst w)).
  assert (E0 : ships w0 !! p = Some s0) by (by apply list_lookup_middle).
  rewrite (bind_ok _ _ _ _ _ (register_user_run p regs1 w0 s0 E0 eq_refl)).
  set (s1 := set_stopfs _ s0). set (w1 := mkWorld _ (hst w0)).
  assert (E1 : ships w1 !! p = Some s1) by (by eapply lookup_insert_self).
  rewrite (bind_ok _ _ _ _ _
             (trigger_not_started fuel k w1 p s1 E1 eq_refl eq_refl eq_refl)).
  set (s1' := set_once1 true s1). set (w1' := mkWorld _ (hst w1)).
  assert (E1' : ships w1' !! p = Some s1') by (by eapply lookup_insert_self).
  rewrite (bind_ok _ _ _ _ _
             (startServer_run _ w1' w1' p s1' s1' (mkServer addr [])
                (default StdoutLogger (cfg_Logger cfg))
                E1' (mk_is_Some _ _ eq_refl) (register_links_nil _ _) E1'
                eq_refl eq_refl eq_refl)).
  set (s2 := set_server _ s1'). set (w2 := mkWorld _ _).
  assert (E2 : ships w2 !! p = Some s2) by (by eapply lookup_insert_self).
  rewrite (bind_ok _ _ _ _ _ (register_user_run p regs2 w2 s2 E2 eq_refl)).
  set (s3 := set_stopfs _ s2). set (w3 := mkWorld _ (hst w2)).
  assert (E3 : ships w3 !! p = Some s3) by (by eapply lookup_insert_self).
  rewrite (bind_ok _ _ _ _ _ (trigger_used fuel w3 p s3 n E3 eq_refl)).
  assert (Hc3 : calls (trace (hst w3)) = calls (trace (hst w))).
  { subst w3 w2 w1' w1 w0. cbn [hst trace]. by apply calls_log. }
  destruct ret as [err|].
  - destruct (startServer_returned_run (run_callback fuel) w3 p s3
                (default StdoutLogger (cfg_Logger cfg)) err E3 eq_refl)
      as (ev & Hev & ->).
    set (w4 := mkWorld (ships w3) _).
    assert (E4 : ships w4 !! p = Some s3) by exact E3.
    rewrite (shutdown_used _ w4 p s3 E4 eq_refl).
    eexists. split; [reflexivity|]. cbn [hst trace w4].
    by rewrite (calls_log _ _ Hev).
  - rewrite ret_run. by eexists.
Qed.
End ShutdownOrder.

(** C1, as it stands, fails on the order: with the functions 1 and 2
    registered in this order, one call of the trigger runs 1 first, then 2,
    which is not the reverse of the registration order. *)
Lemma shutdown_order_not_reversed :
  let t := trace (hst (exec (lifecycle routes_demo 4 cfg_demo [[1; 2]] []
                               (mkServer ":8080" []) 1 None) empty_world)) in
  calls t = [1; 2] ∧ calls t ≠ rev [1; 2].
Proof. vm_compute. split; [reflexivity | discriminate]. Qed.

(** C1, amended.  Take a dispatcher made by [New], functions registered by
    calls of [RegisterOnShutdown], the server started, and more functions
    registered after the start.  When the shutdown trigger has not fired
    before the start, then for every number of later calls of the trigger
    that is at least one, counting the call [startServer] itself makes
    when the listener has returned, all calls return, and the functions
    that ran are the registered ones, each exactly once, in the order of
    registration: the first registered runs first.  When the trigger has
    fired before the start, no later call of it runs any registered
    function; nor does any call on a dispatcher whose server was never
    started. *)
Theorem shutdown_callbacks_once_in_order (routes : HandlerId → Handler)
    (cfg : Config) (regs1 regs2 : list (list nat)) (addr : string) (w : World)
    (fuel n k : nat) (ret : option listen_result) :
  2 ≤ fuel →
  (1 ≤ n ∨ is_Some ret →
   ∃ w',
     lifecycle routes fuel cfg regs1 regs2 (mkServer addr []) n ret w = (Ok (), w') ∧
     calls (trace (hst w')) = calls (trace (hst w)) ++ concat regs1 ++ concat regs2) ∧
  (1 ≤ k →
   ∃ w',
     lifecycle_early routes fuel cfg regs1 regs2 (mkServer addr []) k n ret w
       = (Ok (), w') ∧
     calls (trace (hst w')) = calls (trace (hst w))) ∧
  (1 ≤ n →
   ∃ w',
     lifecycle_unstarted routes fuel cfg regs1 n w = (Ok (), w') ∧
     trace (hst w') = trace (hst w)).
Proof.
  intros Hf.
  destruct fuel as [|[|fuel]]; [lia | lia |].
  split; [by apply lifecycle_run|]. split.
  - intros Hk. destruct k as [|k]; [lia|]. apply lifecycle_early_run.
  - intros Hn. destruct n as [|n]; [lia|].
    destruct (lifecycle_unstarted_run routes (S (S fuel)) n cfg regs1 w)
      as (w' & Hrun & Hh).
    exists w'. by rewrite Hh.
Qed.

Lemma shutdown_callbacks_once_in_order_witness :
  (∃ w',
     lifecycle routes_demo 5 cfg_demo [[1; 2]; [3]] [[4]] (mkServer ":8080" []) 0
       (Some (ErrListen "address already in use")) empty_world = (Ok (), w') ∧
     calls (trace (hst w')) = [1; 2; 3; 4]) ∧
  (∃ w',
     lifecycle_early routes_demo 5 cfg_demo [[1; 2]; [3]] [[4]] (mkServer ":8080" [])
       1 0 (Some (ErrListen "address already in use")) empty_world = (Ok (), w') ∧
     calls (trace (hst w')) = []).
Proof.
  destruct (shutdown_callbacks_once_in_order routes_demo cfg_demo [[1; 2]; [3]] [[4]]
              ":8080" empty_world 5 0 1 (Some (ErrListen "address already in use"))
              ltac:(lia)) as (Hrun & Hearly & _).
  split.
  - apply Hrun. right. by eexists.
  - apply Hearly. lia.
Defined.

(** ** Linked dispatchers *)

Lemma count_app (q : ptr) (l1 l2 : list ptr) :
  count q (l1 ++ l2) = count q l1 + count q l2.
Proof. induction l1 as [|l l1 IH]; cbn; [done | rewrite IH; lia]. Qed.

Lemma linked_count (q : ptr) (ls : list ptr) :
  linked q ls = false ↔ count q ls = 0.
Proof.
  induction ls as [|l ls IH]; cbn; [done|].
  destruct (decide (q = l)); [split; [discriminate | lia] | by rewrite IH].
Qed.

Lemma Link_again (w : World) (p q : ptr) (s : Ship) :
  ships w !! p = Some s → linked q (links s) = true → Link p q w = (Ok (), w).
Proof.
  intros E Hl. unfold Link.
  by rewrite (bind_ok _ _ _ _ _ (ship_at_ok _ _ _ E)), Hl.
Qed.

Lemma Link_first (w : World) (p q : ptr) (s t : Ship) :
  ships w !! p = Some s → ships w !! q = Some t → p ≠ q →
  linked q (links s) = false →
  Link p q w =
    (Ok (),
     mkWorld (<[q := set_links (links t ++ [p]) t]>
                (<[p := set_links (links s ++ [q]) s]> (ships w)))
       (hst w)).
Proof.
  intros E Eq Hne Hl. unfold Link.
  rewrite (bind_ok _ _ _ _ _ (ship_at_ok _ _ _ E)), Hl.
  rewrite (bind_ok _ _ _ _ _ (update_ship_ok _ _ _ _ E)).
  assert (Eq' : ships (mkWorld (<[p := set_links (links s ++ [q]) s]> (ships w))
                         (hst w)) !! q = Some t)
    by (cbn [ships]; by rewrite list_lookup_insert_ne).
  by rewrite (update_ship_ok _ _ _ _ Eq').
Qed.

Lemma linked_last (q : ptr) (l : list ptr) : linked q (l ++ [q]) = true.
Proof.
  induction l as [|a l IH]; cbn; [by rewrite decide_True|].
  by destruct (decide (q = a)).
Qed.

Lemma set_links_same (s : Ship) : set_links (links s) s = s.
Proof. by destruct s. Qed.

Lemma with_pair_same (w : World) (x y : ptr) (sx sy : Ship) :
  ships w !! x = Some sx → ships w !! y = Some sy → with_pair w x y sx sy = w.
Proof.
  intros Ex Ey. unfold with_pair.
  rewrite (list_insert_id _ x sx) by done. rewrite list_insert_id by done.
  by destruct w.
Qed.

Lemma with_pair_lookup_x (w : World) (x y : ptr) (sx sy sx0 sy0 : Ship) :
  x ≠ y → ships w !! x = Some sx0 → ships w !! y = Some sy0 →
  ships (with_pair w x y sx sy) !! x = Some sx.
Proof.
  intros Hne Ex Ey. cbn. rewrite list_lookup_insert_ne by done.
  by eapply lookup_insert_self.
Qed.

Lemma with_pair_lookup_y (w : World) (x y : ptr) (sx sy sx0 sy0 : Ship) :
  x ≠ y → ships w !! x = Some sx0 → ships w !! y = Some sy0 →
  ships (with_pair w x y sx sy) !! y = Some sy.
Proof.
  intros Hne Ex Ey. cbn. apply list_lookup_insert_eq.
  rewrite length_insert. by eapply lookup_lt_Some.
Qed.

Lemma with_pair_again (w : World) (x y : ptr) (sx sy sx' sy' : Ship) :
  x ≠ y →
  with_pair (with_pair w x y sx sy) x y sx' sy' = with_pair w x y sx' sy'.
Proof.
  intros Hne. unfold with_pair. cbn [ships hst]. f_equal.
  rewrite (list_insert_insert_ne _ x y) by done.
  by rewrite !ships_insert_insert.
Qed.

Lemma link_calls_run (x y : ptr) (ds : list bool) :
  ∀ (w : World) (sx sy : Ship),
    x ≠ y → ships w !! x = Some sx → ships w !! y = Some sy →
    linked y (links sx) = linked x (links sy) →
    link_calls x y ds w =
      (Ok (),
       with_pair w x y (set_links (final_links y (links sx) ds) sx)
         (set_links (final_links x (links sy) ds) sy)).
Proof.
  induction ds as [|d ds IH]; intros w sx sy Hne Ex Ey Hsym.
  - cbn [link_calls for_each final_links]. rewrite ret_run, !set_links_same.
    by rewrite with_pair_same.
  - unfold link_calls. cbn [for_each]. fold (link_calls x y ds).
    cbn [final_links]. destruct (linked y (links sx)) eqn:Hl; rewrite <- Hsym.
    + assert (Hstep : (if d then Link x y else Link y x) w = (Ok (), w)).
      { destruct d; [by apply (Link_again _ _ _ sx) |].
        apply (Link_again _ _ _ sy); [done | by rewrite <- Hsym]. }
      rewrite (bind_ok _ _ _ _ _ Hstep).
      rewrite (IH w sx sy Hne Ex Ey) by congruence.
      unfold final_links. rewrite <- Hsym, Hl. by destruct ds.
    + set (sx1 := set_links (links sx ++ [y]) sx).
      set (sy1 := set_links (links sy ++ [x]) sy).
      assert (Hstep : (if d then Link x y else Link y x) w =
                      (Ok (), with_pair w x y sx1 sy1)).
      { destruct d.
        - by rewrite (Link_first _ _ _ sx sy).
        - rewrite (Link_first _ _ _ sy sx) by (by rewrite <- ?Hsym).
          unfold with_pair. by rewrite list_insert_insert_ne. }
      rewrite (bind_ok _ _ _ _ _ Hstep).
      rewrite (IH (with_pair w x y sx1 sy1) sx1 sy1 Hne
                 (with_pair_lookup_x _ _ _ _ _ _ _ Hne Ex Ey)
                 (with_pair_lookup_y _ _ _ _ _ _ _ Hne Ex Ey))
        by (subst sx1 sy1; cbn [links set_links]; by rewrite !linked_last).
      rewrite with_pair_again by done.
      subst sx1 sy1. cbn [links set_links]. unfold final_links.
      rewrite !linked_last.
      replace (match ds with [] => links sx ++ [y] | _ :: _ => links sx ++ [y] end)
        with (links sx ++ [y]) by (by destruct ds).
      replace (match ds with [] => links sy ++ [x] | _ :: _ => links sy ++ [x] end)
        with (links sy ++ [x]) by (by destruct ds).
      by destruct sx, sy.
Qed.

Lemma final_links_count (q : ptr) (l : list ptr) (ds : list bool) :
  count q l ≤ 1 →
  count q (final_links q l ds) ≤ 1 ∧
  (ds ≠ [] → count q (final_links q l ds) = 1) ∧
  (∀ r, r ≠ q → count r (final_links q l ds) = count r l).
Proof.
  intros Hc. unfold final_links. destruct ds as [|d ds].
  - repeat split; done.
  - destruct (linked q l) eqn:Hl.
    + repeat split; try done. intros _.
      destruct (count q l) as [|[|n]] eqn:Hn; [|done|lia].
      apply linked_count in Hn. congruence.
    + apply linked_count in Hl.
      repeat split.
      * rewrite count_app, Hl. cbn. rewrite decide_True by done. lia.
      * intros _. rewrite count_app, Hl. cbn. by rewrite decide_True.
      * intros r Hr. rewrite count_app. cbn. rewrite decide_False by done. lia.
Qed.

Lemma register_links_one (w : World) (x y : ptr) (sx sy : Ship) :
  x ≠ y → ships w !! x = Some sx → ships w !! y = Some sy →
  locked sx = false → locked sy = false →
  register_links x [y] w =
    (Ok (),
     with_pair w x y
       (set_stopfs (stopfs sx ++ [mkStopT false (CbShutdown y)]) sx)
       (set_stopfs (stopfs sy ++ [mkStopT false (CbShutdown x)]) sy)).
Proof.
  intros Hne Ex Ey Hlx Hly. unfold register_links. cbn [for_each].
  rewrite bind_run, (bind_ok _ _ _ _ _ (RegisterOnShutdown_run _ _ _ _ Ex Hlx)).
  assert (Ey' : ships (mkWorld
                         (<[x := set_stopfs (stopfs sx ++ map (mkStopT false)
                                                          [CbShutdown y]) sx]>
                            (ships w)) (hst w)) !! y = Some sy)
    by (cbn [ships]; by rewrite list_lookup_insert_ne).
  rewrite (RegisterOnShutdown_run _ _ _ _ Ey' Hly). by rewrite ret_run.
Qed.

(** Starting the server of [x], whose only linked dispatcher is [y]. *)
Lemma startServer_linked (run : callback → W ()) (w : World) (x y : ptr)
    (sx sy : Ship) (srv : Server) (lg : Logger) :
  x ≠ y → ships w !! x = Some sx → ships w !! y = Some sy →
  links sx = [y] → is_Some (vhosts sx) → locked sx = false → locked sy = false →
  server sx = None → cfg_Logger (config sx) = Some lg →
  ∃ w',
    startServer run x srv w = (Ok true, w') ∧
    ships w' !! x =
      Some (set_server (Some (serving x srv))
              (set_stopfs (stopfs sx ++ [mkStopT false (CbShutdown y)]) sx)) ∧
    ships w' !! y =
      Some (set_stopfs (stopfs sy ++ [mkStopT false (CbShutdown x)]) sy) ∧
    hst w' =
      mkHState (ctxs (hst w))
        (trace (hst w) ++ [EvLogInfo lg (running_on (Name (config sx)) srv)]).
Proof.
  intros Hne Ex Ey Hlk Hv Hlx Hly Hsrv Hlg.
  pose proof (register_links_one w x y sx sy Hne Ex Ey Hlx Hly) as Hreg.
  rewrite <- Hlk in Hreg.
  set (sx1 := set_stopfs (stopfs sx ++ [mkStopT false (CbShutdown y)]) sx) in *.
  set (sy1 := set_stopfs (stopfs sy ++ [mkStopT false (CbShutdown x)]) sy) in *.
  pose proof (with_pair_lookup_x w x y sx1 sy1 _ _ Hne Ex Ey) as Ex1.
  rewrite (startServer_run run w _ x sx sx1 srv lg Ex Hv Hreg Ex1 Hlx Hsrv Hlg).
  eexists. split; [reflexivity|]. cbn [ships hst with_pair]. repeat split.
  - apply list_lookup_insert_eq. rewrite !length_insert. by eapply lookup_lt_Some.
  - rewrite list_lookup_insert_ne by done.
    apply list_lookup_insert_eq. rewrite length_insert. by eapply lookup_lt_Some.
Qed.

(** ** Shutdown of linked dispatchers *)

Lemma for_each_app {S A} (f : A → M S ()) (l1 l2 : list A) (s : S) :
  for_each f (l1 ++ l2) s = (for_each f l1;; for_each f l2) s.
Proof.
  revert s. induction l1 as [|a l1 IH]; intros s; [reflexivity|].
  cbn [app for_each]. rewrite !bind_run.
  destruct (f a s) as [[[]|e] s']; [|reflexivity].
  rewrite IH. by rewrite bind_run.
Qed.

Lemma runStop_ok (run : callback → W ()) (w w' : World) (p : ptr) (s s' : Ship) :
  ships w !! p = Some s → locked s = false →
  for_each (stopT_run run p) (seq 0 (length (stopfs s))) w = (Ok (), w') →
  ships w' !! p = Some s' → done_closed s' = false →
  runStop run p w =
    (Ok (), mkWorld (<[p := set_done_closed true s']> (ships w')) (hst w')).
Proof.
  intros E Hl Hloop E' Hd. unfold runStop.
  rewrite (bind_ok _ _ _ _ _ (RLock_run _ _ _ E Hl)). unfold deferred.
  rewrite (bind_ok _ _ _ _ _ (ship_at_ok _ _ _ E)), Hloop.
  unfold close_done. rewrite (bind_ok _ _ _ _ _ (ship_at_ok _ _ _ E')), Hd.
  by rewrite (update_ship_ok _ _ _ _ E').
Qed.

Lemma stop_ok (run : callback → W ()) (w w' : World) (p : ptr) (s s' : Ship) :
  ships w !! p = Some s → locked s = false → once2 s = false →
  for_each (stopT_run run p) (seq 0 (length (stopfs s)))
    (mkWorld (<[p := set_once2 true s]> (ships w)) (hst w)) = (Ok (), w') →
  ships w' !! p = Some s' → done_closed s' = false →
  stop run p w =
    (Ok (), mkWorld (<[p := set_done_closed true s']> (ships w')) (hst w')).
Proof.
  intros E Hl H2 Hloop E' Hd. unfold stop.
  rewrite (bind_ok _ _ _ _ _ (ship_at_ok _ _ _ E)), H2.
  rewrite (bind_ok _ _ _ _ _ (update_ship_ok _ _ _ _ E)).
  apply (runStop_ok run (mkWorld _ (hst w)) w' p (set_once2 true s) s');
    try done.
  by eapply lookup_insert_self.
Qed.

Lemma shutdown_ok (run : callback → W ()) (w w' : World) (p : ptr) (s : Ship)
    (srv : Server) :
  ships w !! p = Some s → locked s = false → once1 s = false →
  server s = Some srv → onShutdown srv = [CbStop p] →
  run (CbStop p) (mkWorld (<[p := set_once1 true s]> (ships w)) (hst w)) = (Ok (), w') →
  shutdown run p w = (Ok (), w').
Proof.
  intros E Hl H1 Hsrv Hon Hrun. unfold shutdown.
  rewrite (bind_ok _ _ _ _ _ (ship_at_ok _ _ _ E)), H1.
  rewrite (bind_ok _ _ _ _ _ (update_ship_ok _ _ _ _ E)).
  pose proof (lookup_insert_self _ _ _ (set_once1 true s) E) as E1.
  unfold Shutdown.
  rewrite bind_run, (bind_ok _ _ _ _ _ (RLock_run (mkWorld _ (hst w)) _ _ E1 Hl)).
  rewrite (bind_ok _ _ _ _ _ (ship_at_ok (mkWorld _ (hst w)) _ _ E1)).
  cbn [server set_once1]. rewrite Hsrv. unfold Server_Shutdown. rewrite Hon.
  cbn [for_each]. by rewrite bind_run, bind_run, Hrun, !ret_run.
Qed.

(** The loop of [runStop] over the two entries for a peer whose gate is
    used: the entries are marked and nothing else happens. *)
Lemma runStop_loop_peer_used (fuel : nat) (w : World) (p q : ptr) (s t : Ship)
    (pre : list stopT) :
  p ≠ q → ships w !! p = Some s → ships w !! q = Some t → once1 t = true →
  stopfs s = pre ++ peer_entries false q →
  for_each (stopT_run (run_callback (S fuel)) p) (seq (length pre) 2) w =
    (Ok (),
     mkWorld (<[p := set_stopfs (pre ++ peer_entries true q) s]> (ships w)) (hst w)).
Proof.
  intros Hne E Eq H1 Hs. cbn [seq for_each].
  assert (Hi : stopfs s !! length pre = Some (mkStopT false (CbShutdown q)))
    by (rewrite Hs; by apply list_lookup_middle).
  rewrite bind_run, (stopT_run_fresh _ _ _ _ _ _ E Hi), run_callback_shutdown.
  set (s1 := set_stopfs _ s).
  assert (Eq1 : ships (mkWorld (<[p := s1]> (ships w)) (hst w)) !! q = Some t)
    by (cbn [ships]; by rewrite list_lookup_insert_ne).
  rewrite (shutdown_used _ _ _ _ Eq1 H1).
  pose proof (lookup_insert_self _ _ _ s1 E) as E1.
  assert (Hi1 : stopfs s1 !! S (length pre) = Some (mkStopT false (CbShutdown q))).
  { subst s1. cbn [stopfs set_stopfs]. rewrite Hs.
    rewrite insert_app_r_alt by lia. rewrite Nat.sub_diag.
    rewrite lookup_app_r by lia. by replace (S (length pre) - length pre) with 1 by lia. }
  rewrite bind_run, (stopT_run_fresh _ (mkWorld _ (hst w)) _ _ _ _ E1 Hi1).
  rewrite run_callback_shutdown.
  cbn [ships hst]. rewrite ships_insert_insert.
  set (s2 := set_stopfs _ s1).
  assert (Eq2 : ships (mkWorld (<[p := s2]> (ships w)) (hst w)) !! q = Some t)
    by (cbn [ships]; by rewrite list_lookup_insert_ne).
  rewrite (shutdown_used _ _ _ _ Eq2 H1), ret_run.
  subst s2 s1. cbn [stopfs set_stopfs]. rewrite Hs.
  do 2 f_equal.
  replace (set_stopfs _ (set_stopfs _ s)) with
    (set_stopfs (<[S (length pre) := mkStopT true (CbShutdown q)]>
                   (<[length pre := mkStopT true (CbShutdown q)]>
                      (pre ++ peer_entries false q))) s) by (by destruct s).
  f_equal.
  rewrite insert_app_r_alt by lia. rewrite Nat.sub_diag.
  rewrite insert_app_r_alt by lia.
  by replace (S (length pre) - length pre) with 1 by lia.
Qed.

Lemma length_pending (fs : list nat) : length (pending fs) = length fs.
Proof. unfold pending. apply length_map. Qed.

Lemma length_ran (fs : list nat) : length (ran fs) = length fs.
Proof. unfold ran. apply length_map. Qed.

(** The loop of [runStop] on a dispatcher linked to a peer whose gate is
    used: the user functions run, the entries of the peer are marked. *)
Lemma runStop_loop_linked_used (fuel : nat) (w : World) (p q : ptr) (s t : Ship)
    (fs : list nat) :
  p ≠ q → ships w !! p = Some s → ships w !! q = Some t → once1 t = true →
  stopfs s = pending fs ++ peer_entries false q →
  for_each (stopT_run (run_callback (S fuel)) p) (seq 0 (length (stopfs s))) w =
    (Ok (),
     mkWorld (<[p := set_stopfs (ran fs ++ peer_entries true q) s]> (ships w))
       (mkHState (ctxs (hst w)) (trace (hst w) ++ map EvCall fs))).
Proof.
  intros Hne E Eq H1 Hs.
  rewrite Hs, length_app, length_pending. cbn [peer_entries length].
  rewrite seq_app, for_each_app. cbn [Nat.add].
  pose proof (runStop_loop_user fuel p fs (peer_entries false q) [] w s E Hs) as L1.
  cbn [length app] in L1. rewrite (bind_ok _ _ _ _ _ L1).
  set (s1 := set_stopfs _ s). set (w1 := mkWorld _ _).
  assert (E1 : ships w1 !! p = Some s1) by (by eapply lookup_insert_self).
  assert (Eq1 : ships w1 !! q = Some t)
    by (subst w1; cbn [ships]; by rewrite list_lookup_insert_ne).
  pose proof (runStop_loop_peer_used fuel w1 p q s1 t (ran fs) Hne E1 Eq1 H1
                eq_refl) as L2.
  rewrite length_ran in L2. rewrite L2.
  subst w1 s1. cbn [ships hst]. rewrite ships_insert_insert. by destruct s.
Qed.

(** The shutdown of a serving linked dispatcher [y] whose peer [x] has used
    its gate: only [y] changes, and its user functions run once each. *)
Lemma shutdown_peer (fuel : nat) (w : World) (x y : ptr) (sx sy : Ship)
    (fy : list nat) :
  x ≠ y → ships w !! x = Some sx → ships w !! y = Some sy → once1 sx = true →
  serving_linked y x fy sy →
  shutdown (run_callback (S (S fuel))) y w =
    (Ok (),
     mkWorld (<[y := shut_down_linked x fy sy]> (ships w))
       (mkHState (ctxs (hst w)) (trace (hst w) ++ map EvCall fy))).
Proof.
  intros Hne Ex Ey H1x (Hl & H1 & H2 & Hd & (srv & Hsrv & Hon) & Hs).
  set (sy0 := set_once1 true sy).
  set (w0 := mkWorld (<[y := sy0]> (ships w)) (hst w)).
  assert (E0 : ships w0 !! y = Some sy0) by (by eapply lookup_insert_self).
  set (sy1 := set_once2 true sy0).
  set (w1 := mkWorld (<[y := sy1]> (ships w0)) (hst w0)).
  assert (E1 : ships w1 !! y = Some sy1) by (by eapply lookup_insert_self).
  assert (E1x : ships w1 !! x = Some sx).
  { subst w1 w0. cbn [ships]. by rewrite !list_lookup_insert_ne. }
  pose proof (runStop_loop_linked_used fuel w1 y x sy1 sx fy
                (not_eq_sym Hne) E1 E1x H1x Hs) as Hloop.
  set (sy2 := set_stopfs _ sy1) in Hloop. set (w2 := mkWorld _ _) in Hloop.
  assert (E2 : ships w2 !! y = Some sy2) by (by eapply lookup_insert_self).
  pose proof (stop_ok (run_callback (S fuel)) w0 w2 y sy0 sy2 E0 Hl H2 Hloop E2 Hd)
    as Hstop.
  rewrite (shutdown_ok _ w _ y sy srv Ey Hl H1 Hsrv Hon
             ltac:(rewrite run_callback_stop; exact Hstop)).
  subst w2 w1 w0. cbn [ships hst]. rewrite !ships_insert_insert.
  subst sy2 sy1 sy0. reflexivity.
Qed.

(** The shutdown of a serving dispatcher [x] linked to a serving dispatcher
    [y]: the user functions of [x] run, then the trigger of [y] shuts [y]
    down, which runs the user functions of [y]; the second entry for [y]
    finds the gate of [y] used. *)
Lemma shutdown_linked (fuel : nat) (w : World) (x y : ptr) (sx sy : Ship)
    (fx fy : list nat) :
  x ≠ y → ships w !! x = Some sx → ships w !! y = Some sy →
  serving_linked x y fx sx → serving_linked y x fy sy →
  shutdown (run_callback (S (S (S (S fuel))))) x w =
    (Ok (),
     mkWorld (<[x := shut_down_linked y fx sx]>
                (<[y := shut_down_linked x fy sy]> (ships w)))
       (mkHState (ctxs (hst w))
          (trace (hst w) ++ map EvCall fx ++ map EvCall fy))).
Proof.
  intros Hne Ex Ey (Hl & H1 & H2 & Hd & (srv & Hsrv & Hon) & Hs) Hy.
  set (sx0 := set_once1 true sx).
  set (w0 := mkWorld (<[x := sx0]> (ships w)) (hst w)).
  assert (E0 : ships w0 !! x = Some sx0) by (by eapply lookup_insert_self).
  set (sx1 := set_once2 true sx0).
  set (w1 := mkWorld (<[x := sx1]> (ships w0)) (hst w0)).
  assert (E1 : ships w1 !! x = Some sx1) by (by eapply lookup_insert_self).
  (* the user functions of x *)
  pose proof (runStop_loop_user (S (S fuel)) x fx (peer_entries false y) [] w1 sx1
                E1 Hs) as L1.
  cbn [length app] in L1.
  set (sx2 := set_stopfs _ sx1) in L1. set (w2 := mkWorld _ _) in L1.
  assert (E2 : ships w2 !! x = Some sx2) by (by eapply lookup_insert_self).
  assert (E2y : ships w2 !! y = Some sy).
  { subst w2 w1 w0. cbn [ships]. by rewrite !list_lookup_insert_ne. }
  (* the first entry for y *)
  assert (Hi : stopfs sx2 !! length fx = Some (mkStopT false (CbShutdown y))).
  { subst sx2. cbn [stopfs set_stopfs]. rewrite lookup_app_r; rewrite length_map; [|lia].
    by rewrite Nat.sub_diag. }
  set (sx3 := set_stopfs (<[length fx := mkStopT true (CbShutdown y)]> (stopfs sx2)) sx2).
  set (w3 := mkWorld (<[x := sx3]> (ships w2)) (hst w2)).
  assert (E3 : ships w3 !! x = Some sx3) by (by eapply lookup_insert_self).
  assert (E3y : ships w3 !! y = Some sy).
  { subst w3. cbn [ships]. by rewrite list_lookup_insert_ne. }
  pose proof (shutdown_peer fuel w3 x y sx3 sy fy Hne E3 E3y eq_refl Hy) as P1.
  set (w4 := mkWorld _ _) in P1.
  assert (E4 : ships w4 !! x = Some sx3).
  { subst w4. cbn [ships]. by rewrite list_lookup_insert_ne. }
  assert (E4y : ships w4 !! y = Some (shut_down_linked x fy sy))
    by (by eapply lookup_insert_self).
  (* the second entry for y *)
  assert (Hi' : stopfs sx3 !! S (length fx) = Some (mkStopT false (CbShutdown y))).
  { subst sx3 sx2. cbn [stopfs set_stopfs].
    rewrite list_lookup_insert_ne by lia.
    rewrite lookup_app_r; rewrite length_map; [|lia].
    by replace (S (length fx) - length fx) with 1 by lia. }
  set (sx4 := set_stopfs (<[S (length fx) := mkStopT true (CbShutdown y)]> (stopfs sx3)) sx3).
  set (w5 := mkWorld (<[x := sx4]> (ships w4)) (hst w4)).
  assert (E5y : ships w5 !! y = Some (shut_down_linked x fy sy)).
  { subst w5. cbn [ships]. by rewrite list_lookup_insert_ne. }
  assert (Hloop : for_each (stopT_run (run_callback (S (S (S fuel)))) x)
                    (seq 0 (length (stopfs sx1))) w1 = (Ok (), w5)).
  { subst sx1 sx0. cbn [stopfs set_once1 set_once2].
    rewrite Hs, length_app, length_pending. cbn [peer_entries length].
    rewrite seq_app, for_each_app. cbn [Nat.add].
    rewrite (bind_ok _ _ _ _ _ L1). cbn [seq for_each].
    rewrite bind_run, (stopT_run_fresh _ _ _ _ _ _ E2 Hi), run_callback_shutdown.
    fold sx3. fold w3. rewrite P1.
    rewrite bind_run, (stopT_run_fresh _ _ _ _ _ _ E4 Hi'), run_callback_shutdown.
    fold sx4. fold w5.
    by rewrite (shutdown_used _ _ _ _ E5y eq_refl), ret_run. }
  assert (E5 : ships w5 !! x = Some sx4) by (by eapply lookup_insert_self).
  pose proof (stop_ok _ w0 w5 x sx0 sx4 E0 Hl H2 Hloop E5 Hd) as Hstop.
  rewrite (shutdown_ok _ w _ x sx srv Ex Hl H1 Hsrv Hon
             ltac:(rewrite run_callback_stop; exact Hstop)).
  f_equal. subst w5 w4 w3 w2 w1 w0. cbn [ships hst ctxs trace].
  f_equal.
  - rewrite !ships_insert_insert.
    rewrite (list_insert_insert_ne _ y x) by done.
    rewrite ships_insert_insert.
    f_equal. subst sx4 sx3 sx2 sx1 sx0.
    unfold shut_down_linked. cbn [stopfs set_stopfs set_once1 set_once2].
    replace (<[S (length fx):=mkStopT true (CbShutdown y)]>
               (<[length fx:=mkStopT true (CbShutdown y)]>
                  (map (λ id, mkStopT true (CbUser id)) fx ++ peer_entries false y)))
      with (ran fx ++ peer_entries true y).
    + by destruct sx.
    + unfold ran. rewrite <- (length_map (λ id, mkStopT true (CbUser id)) fx).
      rewrite insert_app_r_alt by lia. rewrite Nat.sub_diag.
      rewrite insert_app_r_alt by lia.
      by replace (S _ - _) with 1 by lia.
  - by rewrite <- app_assoc.
Qed.

(** C5, as it stands, fails when both dispatchers serve: the linked-peer
    lists hold each peer once, yet each of the two [startServer] calls
    registers both triggers, so each trigger is registered twice. *)
Lemma linked_pair_registered_twice :
  let w := exec linked_pair_demo empty_world in
  links <$> ships w !! 0 = Some [1] ∧
  links <$> ships w !! 1 = Some [0] ∧
  registered <$> ships w !! 0 = Some [CbShutdown 1; CbShutdown 1] ∧
  registered <$> ships w !! 1 = Some [CbShutdown 0; CbShutdown 0] ∧
  occurrences (CbShutdown 1) <$> (registered <$> ships w !! 0) ≠ Some 1.
Proof. vm_compute. repeat split. discriminate. Qed.

Lemma registered_pending (fs : list nat) (l : list callback) :
  map st_f (pending fs ++ map (mkStopT false) l) = map CbUser fs ++ l.
Proof.
  unfold pending. rewrite map_app, !map_map. cbn. by rewrite map_id.
Qed.

(** C5, amended.  Let [x] and [y] be two distinct dispatchers that are not
    linked, not serving and not shut down, with user functions [fx] and
    [fy] registered.  After any sequence [ds] of [Link] calls between them,
    in either direction, each holds the other at most once in its list of
    linked peers (exactly once when there was a call).  Each call of
    [startServer] by one of them then registers the trigger of each with
    the other exactly once, so that after both have started serving each
    trigger is registered twice.  The one-shot gate of the trigger absorbs
    the repetition: triggering the shutdown of [x] any number [n >= 1] of
    times shuts [y] down once, and the user functions of [x], then those
    of [y], run exactly once each. *)
Theorem linked_pair_spec (w : World) (x y : ptr) (sx sy : Ship) (fx fy : list nat) :
  x ≠ y → ships w !! x = Some sx → ships w !! y = Some sy →
  idle fx sx → idle fy sy →
  (∀ ds, ∃ w1 sx1 sy1,
     link_calls x y ds w = (Ok (), w1) ∧
     ships w1 !! x = Some sx1 ∧ ships w1 !! y = Some sy1 ∧
     count y (links sx1) ≤ 1 ∧ count x (links sy1) ≤ 1 ∧
     (ds ≠ [] → links sx1 = [y] ∧ links sy1 = [x])) ∧
  (∀ ds addrx addry fuel n,
     ds ≠ [] → 4 ≤ fuel → 1 ≤ n →
     ∃ w1 w2 w3 w4 sx2 sy2 sx3 sy3,
       link_calls x y ds w = (Ok (), w1) ∧
       startServer (run_callback fuel) x (mkServer addrx []) w1 = (Ok true, w2) ∧
       ships w2 !! x = Some sx2 ∧ ships w2 !! y = Some sy2 ∧
       registered sx2 = map CbUser fx ++ [CbShutdown y] ∧
       registered sy2 = map CbUser fy ++ [CbShutdown x] ∧
       startServer (run_callback fuel) y (mkServer addry []) w2 = (Ok true, w3) ∧
       ships w3 !! x = Some sx3 ∧ ships w3 !! y = Some sy3 ∧
       registered sx3 = map CbUser fx ++ [CbShutdown y; CbShutdown y] ∧
       registered sy3 = map CbUser fy ++ [CbShutdown x; CbShutdown x] ∧
       trigger fuel x n w3 = (Ok (), w4) ∧
       calls (trace (hst w4)) = calls (trace (hst w)) ++ fx ++ fy ∧
       once1 <$> ships w4 !! x = Some true ∧ once1 <$> ships w4 !! y = Some true).
Proof.
  intros Hne Ex Ey (Hlx & Hsx & Hkx & H1x & H2x & Hdx & Hvx & Hhx & [lgx Hgx])
    (Hly & Hsy & Hky & H1y & H2y & Hdy & Hvy & Hhy & [lgy Hgy]).
  assert (Hlink : ∀ ds,
            link_calls x y ds w =
              (Ok (), with_pair w x y (set_links (final_links y [] ds) sx)
                        (set_links (final_links x [] ds) sy))).
  { intros ds. rewrite (link_calls_run x y ds w sx sy Hne Ex Ey)
      by (by rewrite Hlx, Hly). by rewrite Hlx, Hly. }
  split.
  - intros ds. eexists _, _, _. split; [apply Hlink|].
    split; [by eapply with_pair_lookup_x|]. split; [by eapply with_pair_lookup_y|].
    cbn [links set_links].
    destruct (final_links_count y [] ds) as (? & _ & _); [cbn; lia|].
    destruct (final_links_count x [] ds) as (? & _ & _); [cbn; lia|].
    repeat split; try done; by destruct ds.
  - intros ds addrx addry fuel n Hds Hf Hn.
    destruct fuel as [|[|[|[|fuel]]]]; try lia. destruct n as [|n]; [lia|].
    destruct ds as [|d ds]; [done|]. clear Hds.
    set (F := S (S (S (S fuel)))).
    pose proof (Hlink (d :: ds)) as Hl1. cbn [final_links linked app] in Hl1.
    set (sx1 := set_links [y] sx) in *. set (sy1 := set_links [x] sy) in *.
    set (w1 := with_pair w x y sx1 sy1) in *.
    pose proof (with_pair_lookup_x w x y sx1 sy1 _ _ Hne Ex Ey) as Ex1.
    pose proof (with_pair_lookup_y w x y sx1 sy1 _ _ Hne Ex Ey) as Ey1.
    fold w1 in Ex1, Ey1.
    destruct (startServer_linked (run_callback F) w1 x y sx1 sy1
                (mkServer addrx []) lgx Hne Ex1 Ey1 eq_refl Hhx Hkx Hky Hvx Hgx)
      as (w2 & Hs2 & Ex2 & Ey2 & Hh2).
    set (sx2 := set_server _ _) in Ex2. set (sy2 := set_stopfs _ sy1) in Ey2.
    destruct (startServer_linked (run_callback F) w2 y x sy2 sx2
                (mkServer addry []) lgy (not_eq_sym Hne) Ey2 Ex2 eq_refl Hhy Hky Hkx
                Hvy Hgy)
      as (w3 & Hs3 & Ey3 & Ex3 & Hh3).
    set (sy3 := set_server _ _) in Ey3. set (sx3 := set_stopfs _ sx2) in Ex3.
    assert (Lx : serving_linked x y fx sx3).
    { subst sx3 sx2 sx1. cbn. repeat split; try done.
      - eexists. split; reflexivity.
      - by rewrite Hsx, <- app_assoc. }
    assert (Ly : serving_linked y x fy sy3).
    { subst sy3 sy2 sy1. cbn. repeat split; try done.
      - eexists. split; reflexivity.
      - by rewrite Hsy, <- app_assoc. }
    pose proof (shutdown_linked fuel w3 x y sx3 sy3 fx fy Hne Ex3 Ey3 Lx Ly) as Hsh.
    set (w4 := mkWorld _ _) in Hsh.
    assert (Ex4 : ships w4 !! x = Some (shut_down_linked y fx sx3))
      by (subst w4; cbn [ships]; apply list_lookup_insert_eq;
          rewrite length_insert; by eapply lookup_lt_Some).
    assert (Ey4 : ships w4 !! y = Some (shut_down_linked x fy sy3)).
    { subst w4. cbn [ships]. rewrite list_lookup_insert_ne by done.
      by eapply lookup_insert_self. }
    exists w1, w2, w3, w4, sx2, sy2, sx3, sy3.
    split; [exact Hl1|]. split; [exact Hs2|]. split; [exact Ex2|].
    split; [exact Ey2|].
    split; [subst sx2 sx1; unfold registered; cbn; rewrite Hsx;
            apply (registered_pending fx [CbShutdown y])|].
    split; [subst sy2 sy1; unfold registered; cbn; rewrite Hsy;
            apply (registered_pending fy [CbShutdown x])|].
    split; [exact Hs3|]. split; [exact Ex3|]. split; [exact Ey3|].
    split; [subst sx3 sx2 sx1; unfold registered; cbn; rewrite Hsx, <- app_assoc;
            apply (registered_pending fx [CbShutdown y; CbShutdown y])|].
    split; [subst sy3 sy2 sy1; unfold registered; cbn; rewrite Hsy, <- app_assoc;
            apply (registered_pending fy [CbShutdown x; CbShutdown x])|].
    split.
    { cbn [trigger]. rewrite (bind_ok _ _ _ _ _ Hsh).
      by apply (trigger_used _ w4 x _ n Ex4). }
    split.
    { subst w4. cbn [hst trace]. rewrite Hh3, Hh2. cbn [ctxs trace].
      rewrite !calls_app, !calls_map_EvCall. cbn [calls].
      subst w1. cbn [with_pair hst]. by rewrite !app_nil_r. }
    by rewrite Ex4, Ey4.
Qed.

(** ** Worked instances *)

Lemma NewPanicMiddleware_recovers_witness :
  NewPanicMiddleware HandlePanic_demo [Some panic_probe] (routes_demo 2) (Some 0)
    (hstate_of (blank_context false (Some 7))) =
    (Ok None, mkHState [blank_context false (Some 7)] [EvCall 9]).
Proof.
  destruct (NewPanicMiddleware_recovers HandlePanic_demo [Some panic_probe]
              (routes_demo 2) (Some 0) (VString "bang")
              (hstate_of (blank_context false (Some 7)))
              (hstate_of (blank_context false (Some 7))) eq_refl) as (Hcall & _ & _).
  destruct (Hcall ltac:(discriminate)) as [Hret _].
  by apply Hret.
Defined.

Lemma VHost_spec_witness :
  ∃ w' sv,
    VHost routes_demo 0 "a.example" world_demo = (Ok 1, w') ∧
    ships w' !! 1 = Some sv ∧ vhosts sv = None ∧
    ships w' !! 0 = Some vhost_parent ∧
    (∃ v, result (VHost routes_demo 0 "a.example") world_vhost = Abort (Panic v)) ∧
    (∃ v, result (VHost routes_demo 1 "b.example") world_vhost = Abort (Panic v)).
Proof.
  destruct (VHost_spec routes_demo world_demo 0 (new_ship routes_demo cfg_demo)
              "a.example" eq_refl) as [_ Hnew].
  destruct (Hnew ∅ eq_refl eq_refl)
    as (w' & sv & Hrun & _ & Hsv & Hnil & _ & _ & _ & _ & Hp & _).
  exists w', sv. split; [exact Hrun|]. split; [exact Hsv|]. split; [exact Hnil|].
  split; [exact Hp|]. split.
  - apply (VHost_spec routes_demo world_vhost 0 vhost_parent "a.example" eq_refl).
    right. exists {["a.example" := 1]}, 1. split; reflexivity.
  - apply (VHost_spec routes_demo world_vhost 1 vhost_child "b.example" eq_refl).
    by left.
Defined.

Lemma ServeHTTP_dispatch_witness :
  ServeHTTP 0 0 (mkRequest "a.example" "GET" "/ok") world_vhost =
    handleRequest 1 (router vhost_child) 0 (mkRequest "a.example" "GET" "/ok")
      world_vhost ∧
  ServeHTTP 0 0 (mkRequest "A.example" "GET" "/ok") world_vhost =
    handleRequest 0 (router vhost_parent) 0 (mkRequest "A.example" "GET" "/ok")
      world_vhost ∧
  ServeHTTP 1 0 (mkRequest "a.example" "GET" "/ok") world_vhost =
    handleRequest 1 (router vhost_child) 0 (mkRequest "a.example" "GET" "/ok")
      world_vhost.
Proof.
  split; [|split].
  - apply (ServeHTTP_dispatch world_vhost 0 vhost_parent 0
             (mkRequest "a.example" "GET" "/ok") eq_refl)
      with (m := {["a.example" := 1]}) (vhost := 1); reflexivity.
  - apply (ServeHTTP_dispatch world_vhost 0 vhost_parent 0
             (mkRequest "A.example" "GET" "/ok") eq_refl)
      with (m := {["a.example" := 1]}); reflexivity.
  - by apply (ServeHTTP_dispatch world_vhost 1 vhost_child 0
                (mkRequest "a.example" "GET" "/ok") eq_refl).
Defined.

Lemma Pre_composes_witness :
  ∃ w',
    for_each (Pre routes_demo 0) [[tracing "A"]; [tracing "B"]] world_demo
      = (Ok (), w') ∧
    handler <$> ships w' !! 0 =
      Some (onion [tracing "A"; tracing "B"]
              (handleRequestRoute routes_demo (Config_init cfg_demo))) ∧
    onion [tracing "A"; tracing "B"]
      (handleRequestRoute routes_demo (Config_init cfg_demo)) (Some 0) h_ok =
      (Ok None,
       mkHState (ctxs h_ok)
         [EvEnter "A"; EvEnter "B"; EvEnter "T"; EvExit "T"; EvExit "B"; EvExit "A"]).
Proof.
  destruct (Pre_composes routes_demo world_demo 0 (new_ship routes_demo cfg_demo)
              [tracing "A"] [[tracing "B"]] eq_refl) as [Hpre Honion].
  eexists. split; [exact Hpre|]. split; [reflexivity|].
  apply (Honion "A" "B" (handleRequestRoute routes_demo (Config_init cfg_demo))
           (Some 0) h_ok
           (mkHState (ctxs h_ok)
              [EvEnter "A"; EvEnter "B"; EvEnter "T"; EvExit "T"]) None).
  reflexivity.
Defined.

Lemma linked_pair_spec_witness :
  ∃ w3 w4,
    (link_calls 0 1 [true; false; true];;
     startServer (run_callback 5) 0 (mkServer ":8080" []);;
     startServer (run_callback 5) 1 (mkServer ":8081" [])) world_pair
      = (Ok true, w3) ∧
    registered <$> ships w3 !! 0 = Some [CbUser 1; CbUser 2; CbShutdown 1; CbShutdown 1] ∧
    trigger 5 0 2 w3 = (Ok (), w4) ∧
    calls (trace (hst w4)) = [1; 2; 3].
Proof.
  assert (Ix : idle [1; 2] ship_x)
    by (repeat split; try reflexivity; by eexists).
  assert (Iy : idle [3] ship_y)
    by (repeat split; try reflexivity; by eexists).
  destruct (linked_pair_spec world_pair 0 1 ship_x ship_y [1; 2] [3]
              ltac:(discriminate) eq_refl eq_refl Ix Iy) as [_ Hserve].
  destruct (Hserve [true; false; true] ":8080" ":8081" 5 2
              ltac:(discriminate) ltac:(lia) ltac:(lia))
    as (w1 & w2 & w3 & w4 & sx2 & sy2 & sx3 & sy3 & Hl & Hs2 & _ & _ & _ & _ &
        Hs3 & Ex3 & _ & Hr3 & _ & Ht & Hc & _).
  exists w3, w4. split.
  - by rewrite (bind_ok _ _ _ _ _ Hl), (bind_ok _ _ _ _ _ Hs2).
  - split; [by rewrite Ex3; cbn; rewrite Hr3|]. split; [exact Ht | exact Hc].
Defined.

(** * Further properties *)

(** ** Exit functions *)

Lemma non_nil_snoc (l : list (option nat)) (x : option nat) :
  non_nil (l ++ [x]) = non_nil l ++ match x with Some f => [f] | None => [] end.
Proof. unfold non_nil. rewrite omap_app. by destruct x. Qed.

Lemma CallOnExit_from_run (n : nat) :
  ∀ st, n ≤ length (funcs st) →
    CallOnExit_from n st =
      (Ok (), mkExitState (exited st) (funcs st)
                (exit_calls st ++ reverse (non_nil (take n (funcs st))))).
Proof.
  induction n as [|i IH]; intros st Hn.
  - cbn. rewrite app_nil_r. by destruct st.
  - simpl. rewrite bind_run. cbn [get].
    destruct (funcs st !! i) as [x|] eqn:Hi; [|apply lookup_ge_None in Hi; lia].
    rewrite (take_S_r _ _ _ Hi), non_nil_snoc, reverse_app.
    destruct x as [f|].
    + rewrite bind_run. cbn [call_exit modify].
      rewrite IH by (cbn; lia). cbn [exited funcs exit_calls].
      by rewrite reverse_singleton, <- app_assoc.
    + rewrite IH by lia. done.
Qed.

Lemma OnExit_all_run (fss : list (list (option nat))) (st : ExitState) :
  for_each OnExit fss st =
    (Ok (), mkExitState (exited st) (funcs st ++ concat fss) (exit_calls st)).
Proof.
  revert st. induction fss as [|fs fss IH]; intros st.
  - cbn. rewrite app_nil_r. by destruct st.
  - cbn [for_each concat]. rewrite bind_run. cbn [OnExit modify].
    rewrite IH. cbn. by rewrite <- app_assoc.
Qed.

Lemma CallOnExit_first (st : ExitState) :
  exited st = 0%Z →
  CallOnExit st =
    (Ok (), mkExitState 1 (funcs st) (exit_calls st ++ reverse (non_nil (funcs st)))).
Proof.
  intros H0. unfold CallOnExit, CompareAndSwap_exited.
  rewrite bind_run, bind_run. cbn [get]. rewrite decide_True by done.
  rewrite bind_run. cbn [put]. rewrite ret_run, bind_run. cbn [get].
  rewrite CallOnExit_from_run by done. cbn. by rewrite firstn_all.
Qed.

Lemma CallOnExit_again (st : ExitState) :
  exited st ≠ 0%Z → CallOnExit st = (Ok (), st).
Proof.
  intros H0. unfold CallOnExit, CompareAndSwap_exited.
  rewrite bind_run, bind_run. cbn [get]. by rewrite decide_False by done.
Qed.

(** X1. Whatever functions were registered by calls of [OnExit], the first
    [CallOnExit] runs those that are not nil, each once, in the reverse of
    the order in which they were registered, and sets [exited]. *)
Theorem CallOnExit_reverse_order (st : ExitState) (fss : list (list (option nat))) :
  exited st = 0%Z →
  (for_each OnExit fss;; CallOnExit) st =
    (Ok (),
     mkExitState 1 (funcs st ++ concat fss)
       (exit_calls st ++ reverse (non_nil (funcs st ++ concat fss)))).
Proof.
  intros H0. rewrite (bind_ok _ _ _ _ _ (OnExit_all_run fss st)).
  by rewrite CallOnExit_first.
Qed.

Lemma CallOnExit_reverse_order_witness :
  (for_each OnExit [[Some 1; None]; [Some 2; Some 3]];; CallOnExit)
    (mkExitState 0 [] []) =
  (Ok (), mkExitState 1 [Some 1; None; Some 2; Some 3] [3; 2; 1]).
Proof.
  exact (CallOnExit_reverse_order (mkExitState 0 [] [])
           [[Some 1; None]; [Some 2; Some 3]] eq_refl).
Defined.

(** X2. [CallOnExit] can be called many times: once it has run, further
    calls run nothing, and functions registered after the first call are
    kept in the list but never called. *)
Theorem CallOnExit_only_once (st : ExitState) (more : list (list (option nat))) :
  exited st = 0%Z →
  (CallOnExit;; for_each (λ fs, OnExit fs;; CallOnExit) more) st =
    (Ok (),
     mkExitState 1 (funcs st ++ concat more)
       (exit_calls st ++ reverse (non_nil (funcs st)))).
Proof.
  intros H0. rewrite (bind_ok _ _ _ _ _ (CallOnExit_first st H0)).
  generalize (exit_calls st ++ reverse (non_nil (funcs st))). intros cs.
  generalize (funcs st). clear. intros fs.
  revert fs. induction more as [|m more IH]; intros fs.
  - cbn. by rewrite app_nil_r.
  - cbn [for_each concat]. rewrite bind_run, bind_run. cbn [OnExit modify].
    rewrite CallOnExit_again by done. cbn [exited funcs exit_calls].
    rewrite IH. by rewrite <- app_assoc.
Qed.

Lemma CallOnExit_only_once_witness :
  (CallOnExit;; for_each (λ fs, OnExit fs;; CallOnExit) [[Some 7]; [Some 8]])
    (mkExitState 0 [Some 1; Some 2] []) =
  (Ok (), mkExitState 1 [Some 1; Some 2; Some 7; Some 8] [2; 1]).
Proof.
  exact (CallOnExit_only_once (mkExitState 0 [Some 1; Some 2] [])
           [[Some 7]; [Some 8]] eq_refl).
Defined.

(** ** The prefix and the sizes of the configuration *)

Lemma list_ascii_of_string_app (a b : string) :
  String.list_ascii_of_string (a +:+ b) =
    String.list_ascii_of_string a ++ String.list_ascii_of_string b.
Proof.
  induction a as [|c a IH]; [done|].
  change (String c a +:+ b) with (String c (a +:+ b)).
  cbn [String.list_ascii_of_string]. by rewrite IH.
Qed.

Lemma string_of_list_ascii_app (a b : list Ascii.ascii) :
  String.string_of_list_ascii (a ++ b) =
    String.string_of_list_ascii a +:+ String.string_of_list_ascii b.
Proof.
  induction a as [|c a IH]; [done|].
  cbn [app String.string_of_list_ascii]. rewrite IH. done.
Qed.

Lemma strip_prefix_app (pre l : list Ascii.ascii) :
  strip_prefix pre (pre ++ l) = Some l.
Proof.
  induction pre as [|a pre IH]; [done|]. cbn. by rewrite decide_True.
Qed.

Lemma strip_prefix_Some (pre l r : list Ascii.ascii) :
  strip_prefix pre l = Some r → l = pre ++ r.
Proof.
  revert l. induction pre as [|a pre IH]; intros l; [by intros [= ->]|].
  destruct l as [|b l]; [done|]. cbn.
  destruct (decide (a = b)) as [->|]; [|done].
  intros Hs. by rewrite (IH _ Hs).
Qed.

Lemma TrimSuffix_app (s suffix : string) : TrimSuffix (s +:+ suffix) suffix = s.
Proof.
  unfold TrimSuffix. rewrite list_ascii_of_string_app, reverse_app.
  rewrite strip_prefix_app, reverse_involutive.
  apply String.string_of_list_ascii_of_string.
Qed.

Lemma TrimSuffix_other (s suffix : string) :
  (∀ t, s ≠ t +:+ suffix) → TrimSuffix s suffix = s.
Proof.
  intros Hno. unfold TrimSuffix.
  destruct (strip_prefix _ _) as [r|] eqn:Hs; [|done].
  apply strip_prefix_Some in Hs. exfalso.
  apply (Hno (String.string_of_list_ascii (reverse r))).
  assert (Hl : String.list_ascii_of_string s =
               reverse r ++ String.list_ascii_of_string suffix).
  { rewrite <- (reverse_involutive (String.list_ascii_of_string s)), Hs.
    by rewrite reverse_app, reverse_involutive. }
  rewrite <- (String.string_of_list_ascii_of_string s), Hl.
  rewrite string_of_list_ascii_app.
  by rewrite String.string_of_list_ascii_of_string.
Qed.

(** X3. [init] makes the sizes of the configuration usable.  A buffer size
    that is not positive becomes 2048, a maximum number of middlewares that
    is not positive becomes 256, a negative store size becomes 0; values
    that are usable are kept.  So after [init] the first two are positive
    and the third is not negative, and a second [init] changes none of
    them. *)
Theorem Config_init_sizes (c : Config) :
  let c' := Config_init c in
  ((BufferSize c ≤ 0)%Z → BufferSize c' = 2048%Z) ∧
  ((MiddlewareMaxNum c ≤ 0)%Z → MiddlewareMaxNum c' = 256%Z) ∧
  ((ContextStoreSize c < 0)%Z → ContextStoreSize c' = 0%Z) ∧
  ((0 < BufferSize c)%Z → BufferSize c' = BufferSize c) ∧
  ((0 ≤ ContextStoreSize c)%Z → ContextStoreSize c' = ContextStoreSize c) ∧
  ((0 < MiddlewareMaxNum c)%Z → MiddlewareMaxNum c' = MiddlewareMaxNum c) ∧
  (0 < BufferSize c')%Z ∧ (0 ≤ ContextStoreSize c')%Z ∧ (0 < MiddlewareMaxNum c')%Z ∧
  BufferSize (Config_init c') = BufferSize c' ∧
  ContextStoreSize (Config_init c') = ContextStoreSize c' ∧
  MiddlewareMaxNum (Config_init c') = MiddlewareMaxNum c'.
Proof.
  cbn. repeat split; repeat case_decide; try lia; done.
Qed.

(** X4. [init] takes one trailing slash off the route prefix and no more:
    a prefix that is some text followed by a slash becomes that text, so a
    prefix ending in two slashes still ends in one; a prefix without a
    trailing slash is kept. *)
Theorem Config_init_prefix (c : Config) :
  (∀ t, Prefix c = t +:+ "/" → Prefix (Config_init c) = t) ∧
  ((∀ t, Prefix c ≠ t +:+ "/") → Prefix (Config_init c) = Prefix c).
Proof.
  split.
  - intros t Ht. cbn. rewrite Ht. apply TrimSuffix_app.
  - intros Hno. cbn. by apply TrimSuffix_other.
Qed.

Lemma Config_init_prefix_witness :
  Prefix (Config_init cfg_demo) = "/api/" ∧
  Prefix (Config_init cfg_sizes) = "".
Proof.
  split.
  - by apply (Config_init_prefix cfg_demo).
  - apply (Config_init_prefix cfg_sizes).
    intros t Ht. by destruct t.
Defined.

(** ** The middlewares *)

(** X5. The panic middleware is transparent as long as nothing panics: when
    the wrapped handler returns, the result and the state are those of the
    wrapped handler and the panic callback is not called.  When the
    callback is called (the wrapped handler has panicked with a value that
    is not nil) and panics itself, that panic leaves the middleware. *)
Theorem NewPanicMiddleware_transparent
    (HandlePanic : PanicHandler) (handle : list (option PanicHandler))
    (next : Handler) (ctx : Context) (h h' : HState) :
  (∀ r, next ctx h = (Ok r, h') →
     NewPanicMiddleware HandlePanic handle next ctx h = (Ok r, h')) ∧
  (∀ v v' h'', next ctx h = (Abort (Panic v), h') → v ≠ VNil →
     chosen_callback HandlePanic handle ctx v h' = (Abort (Panic v'), h'') →
     NewPanicMiddleware HandlePanic handle next ctx h = (Abort (Panic v'), h'')).
Proof.
  unfold NewPanicMiddleware, recover_with. split.
  - by intros r ->.
  - intros v v' h'' -> Hv ->. by destruct v.
Qed.

Lemma NewPanicMiddleware_transparent_witness :
  NewPanicMiddleware HandlePanic_demo [Some panic_probe] (routes_demo 1) (Some 0)
    (hstate_of (blank_context false (Some 7))) =
    (Ok (Some (EPlain "boom")), hstate_of (blank_context false (Some 7))) ∧
  NewPanicMiddleware HandlePanic_demo [Some (λ _ v, panic v)] (routes_demo 2)
    (Some 0) (hstate_of (blank_context false (Some 7))) =
    (Abort (Panic (VString "bang")), hstate_of (blank_context false (Some 7))).
Proof.
  split.
  - by apply (NewPanicMiddleware_transparent HandlePanic_demo [Some panic_probe]
                (routes_demo 1) (Some 0)).
  - by apply (NewPanicMiddleware_transparent HandlePanic_demo
                [Some (λ _ v, panic v)] (routes_demo 2) (Some 0)
                (hstate_of (blank_context false (Some 7)))
                (hstate_of (blank_context false (Some 7))))
      with (v := VString "bang").
Defined.

Lemma ctx_Logger_run (h : HState) (c : cptr) (cx : contextT) :
  ctxs h !! c = Some cx → ctx_Logger (Some c) h = (Ok (c_logger cx), h).
Proof.
  intros E. unfold ctx_Logger. by rewrite bind_run, (deref_ok _ _ _ E).
Qed.

Lemma ctx_Request_run (h : HState) (c : cptr) (cx : contextT) :
  ctxs h !! c = Some cx → ctx_Request (Some c) h = (Ok (c_req cx), h).
Proof.
  intros E. unfold ctx_Request. by rewrite bind_run, (deref_ok _ _ _ E).
Qed.

(** X6. The logger middleware is transparent: it returns what the wrapped
    handler returns.  It reads the clock once before and once after the
    wrapped handler and then, when the logger of the context is non-nil,
    adds exactly one info entry, built from the request, the two times and
    the returned error; with a nil logger it adds nothing.  When the wrapped
    handler panics, nothing is logged. *)
Theorem NewLoggerMiddleware_logs_once (Now : H Z)
    (line : Request → Z → Z → option error → string) (now : list (option (H Z)))
    (next : Handler) (c : cptr) (h h0 h1 h2 : HState) (t0 t1 : Z)
    (err : option error) (cx : contextT) (rq : Request) :
  chosen_clock Now now h = (Ok t0, h0) →
  (next (Some c) h0 = (Ok err, h1) →
   chosen_clock Now now h1 = (Ok t1, h2) →
   ctxs h2 !! c = Some cx → c_req cx = Some rq →
   NewLoggerMiddleware Now line now next (Some c) h =
     (Ok err,
      mkHState (ctxs h2)
        (trace h2 ++ match c_logger cx with
                     | Some lg => [EvLogInfo lg (line rq t0 t1 err)]
                     | None => []
                     end))) ∧
  (∀ a, next (Some c) h0 = (Abort a, h1) →
     NewLoggerMiddleware Now line now next (Some c) h = (Abort a, h1)).
Proof.
  intros Hn0. unfold NewLoggerMiddleware. split.
  - intros Hnext Hn1 Hc Hrq.
    rewrite (bind_ok _ _ _ _ _ Hn0), (bind_ok _ _ _ _ _ Hnext).
    rewrite (bind_ok _ _ _ _ _ Hn1), (bind_ok _ _ _ _ _ (ctx_Logger_run _ _ _ Hc)).
    destruct (c_logger cx) as [lg|].
    + rewrite bind_run, (bind_ok _ _ _ _ _ (ctx_Request_run _ _ _ Hc)), Hrq.
      by rewrite emit_run, ret_run.
    + rewrite bind_run, !ret_run, app_nil_r. by destruct h2.
  - intros a Hnext.
    by rewrite (bind_ok _ _ _ _ _ Hn0), (bind_abort _ _ _ _ _ Hnext).
Qed.

Lemma Config_init_sizes_witness :
  BufferSize (Config_init cfg_sizes) = 2048%Z ∧
  ContextStoreSize (Config_init cfg_sizes) = 0%Z ∧
  MiddlewareMaxNum (Config_init cfg_sizes) = 512%Z.
Proof.
  destruct (Config_init_sizes cfg_sizes)
    as (Hb & _ & Hs & _ & _ & Hm & _).
  split; [exact (Hb ltac:(cbn; lia))|].
  split; [exact (Hs ltac:(cbn; lia)) | exact (Hm ltac:(cbn; lia))].
Defined.

Lemma NewLoggerMiddleware_logs_once_witness :
  NewLoggerMiddleware clock_demo line_demo [] (routes_demo 0) (Some 0) h_ok =
    (Ok None,
     mkHState (ctxs h_ok) [EvEnter "T"; EvExit "T"; EvLogInfo 7 "GET /ok ok"]) ∧
  NewLoggerMiddleware clock_demo line_demo [None] (routes_demo 2) (Some 0) h_ok =
    (Abort (Panic (VString "bang")), h_ok).
Proof.
  split.
  - refine (proj1 (NewLoggerMiddleware_logs_once clock_demo line_demo []
                     (routes_demo 0) 0 h_ok h_ok
                     (mkHState (ctxs h_ok) [EvEnter "T"; EvExit "T"])
                     (mkHState (ctxs h_ok) [EvEnter "T"; EvExit "T"]) 0 2 None
                     (mkContext (Some (get_req "/ok")) (Some 0) (Some router_demo)
                        ∅ [] None false (Some 7))
                     (get_req "/ok") eq_refl) eq_refl eq_refl eq_refl eq_refl).
  - refine (proj2 (NewLoggerMiddleware_logs_once clock_demo line_demo [None]
                     (routes_demo 2) 0 h_ok h_ok h_ok h_ok 0 0 None
                     (mkContext (Some (get_req "/ok")) (Some 0) (Some router_demo)
                        ∅ [] None false (Some 7))
                     (get_req "/ok") eq_refl) _ eq_refl).
Defined.

(** ** Acquiring and releasing contexts *)

Lemma AcquireContext_fresh (w : World) (p : ptr) (s : Ship)
    (r : option Request) (rw : option ResponseWriter) :
  ships w !! p = Some s → ctxpool s = [] →
  AcquireContext p r rw w =
    (Ok (length (ctxs (hst w))),
     mkWorld (ships w)
       (mkHState
          (ctxs (hst w) ++
           [mkContext r rw None ∅ [] None (Debug (config s)) (cfg_Logger (config s))])
          (trace (hst w)))).
Proof.
  intros E Hp. unfold AcquireContext.
  rewrite (bind_ok _ _ _ _ _ (ship_at_ok _ _ _ E)), Hp.
  rewrite (bind_ok _ _ _ _ _ (NewContext_run _ _ _ _ _ E)).
  rewrite bind_run, liftH_run. cbn [hst ships].
  set (cx0 := mkContext None None None ∅ [] None _ _).
  assert (E0 : ctxs (mkHState (ctxs (hst w) ++ [cx0]) (trace (hst w)))
                 !! length (ctxs (hst w)) = Some cx0)
    by (cbn; by apply list_lookup_middle).
  unfold setReqResp. rewrite (update_ctx_ok _ _ _ _ E0). cbn [fst snd ctxs trace].
  rewrite ret_run. do 3 f_equal.
  rewrite insert_app_r_alt by lia. by rewrite Nat.sub_diag.
Qed.

Lemma ReleaseContext_run (w : World) (p : ptr) (s : Ship) (c : cptr) (cx : contextT) :
  ships w !! p = Some s → ctxs (hst w) !! c = Some cx →
  ReleaseContext p (Some c) w =
    (Ok (),
     mkWorld (<[p := set_ctxpool (c :: ctxpool s) s]> (ships w))
       (mkHState (<[c := cleared cx]> (ctxs (hst w))) (trace (hst w)))).
Proof.
  intros E Hc. unfold ReleaseContext, reset.
  rewrite bind_run, liftH_run, (update_ctx_ok _ _ _ _ Hc). cbn [fst snd].
  by rewrite (update_ship_ok (mkWorld _ _) _ _ _ E).
Qed.

(** X7. The bridge to [http.Handler] takes a context for the request, runs
    the handler on it and returns: whatever error the handler returns is
    dropped (the error handler of the dispatcher is not called), and the
    context is not put back into the pool, which is left without it.
    Without a handler the not-found handler of the dispatcher runs in its
    place.  Made for a nil dispatcher, the bridge panics. *)
Theorem bridge_keeps_context (notFound : ptr → Handler) (w w1 : World) (p : ptr)
    (s : Ship) (c : cptr) (rw : ResponseWriter) (r : Request) (h : option Handler) :
  ships w !! p = Some s →
  AcquireContext p (Some r) (Some rw) w = (Ok c, w1) →
  (∀ err h2,
     default (notFound p) h (Some c) (hst w1) = (Ok err, h2) →
     bridge_ServeHTTP notFound (mkBridge p h) rw r w = (Ok (), mkWorld (ships w1) h2) ∧
     ships w1 = <[p := set_ctxpool (tail (ctxpool s)) s]> (ships w)) ∧
  (∀ w0, ∃ v, result (ToHTTPHandler notFound None h) w0 = Abort (Panic v)).
Proof.
  intros E Ha. split.
  - intros err h2 Hh.
    destruct (AcquireContext_inv _ _ _ _ _ _ _ E Ha) as (Hs & _).
    split; [|exact Hs].
    unfold bridge_ServeHTTP. cbn [b_ship b_Handler].
    rewrite (bind_ok _ _ _ _ _ Ha).
    destruct h as [h|]; simpl in Hh;
      by rewrite bind_run, liftH_run, Hh.
  - intros w0. eexists. reflexivity.
Qed.

Lemma bridge_keeps_context_witness :
  bridge_ServeHTTP (λ _, notFoundHandler) (mkBridge 0 (Some (routes_demo 1))) 0
    (get_req "/fail") world_demo =
    (Ok (),
     mkWorld (ships world_demo)
       (mkHState [mkContext (Some (get_req "/fail")) (Some 0) None ∅ [] None
                    false (Some 7)] [])).
Proof.
  refine (proj1 (proj1 (bridge_keeps_context (λ _, notFoundHandler) world_demo
                         (exec (AcquireContext 0 (Some (get_req "/fail")) (Some 0))
                            world_demo)
                         0 (new_ship routes_demo cfg_demo) 0 0 (get_req "/fail")
                         (Some (routes_demo 1)) eq_refl eq_refl)
                  (Some (EPlain "boom")) _ eq_refl)).
Defined.

(** ** Requests from end to end *)

(** A dispatcher without pre-middlewares, with an empty pool, serving a
    request for a host that is not one of its virtual hosts. *)
Lemma ServeHTTP_fresh_run (routes : HandlerId → Handler) (w : World) (p : ptr)
    (s : Ship) (rw : ResponseWriter) (r : Request) :
  ships w !! p = Some s → ctxpool s = [] →
  (∀ m, vhosts s = Some m → m !! Host r = None) →
  let c := length (ctxs (hst w)) in
  let cx0 := request_context (config s) (router s) rw r in
  let h2 := mkHState (ctxs (hst w) ++ [cx0]) (trace (hst w)) in
  ServeHTTP p rw r w =
    match handler s (Some c) h2 with
    | (Ok err, h3) =>
        (err' ← match err with
                | None => cx ← liftH (deref (Some c)); mret (c_err cx)
                | Some _ => mret err
                end;
         match err' with
         | Some e => liftH (call_HandleError (config s) (Some c) e)
         | None => mret ()
         end;;
         ReleaseContext p (Some c)) (mkWorld (ships w) h3)
    | (Abort a, h3) => (Abort a, mkWorld (ships w) h3)
    end.
Proof.
  intros E Hp Hv c cx0 h2.
  assert (Hserve : ServeHTTP p rw r w = handleRequest p (router s) rw r w).
  { unfold ServeHTTP. rewrite (bind_ok _ _ _ _ _ (ship_at_ok _ _ _ E)).
    destruct (vhosts s) as [m|]; [|done]. by rewrite (Hv m eq_refl). }
  rewrite Hserve.
  pose proof (AcquireContext_fresh w p s (Some r) (Some rw) E Hp) as Ha.
  rewrite (handleRequest_run _ _ _ _ _ (router s) rw r E Ha).
  cbn [hst ships].
  assert (Hh2 : exec (set_router (length (ctxs (hst w))) (router s))
                  (mkHState
                     (ctxs (hst w) ++
                      [mkContext (Some r) (Some rw) None ∅ [] None
                         (Debug (config s)) (cfg_Logger (config s))])
                     (trace (hst w))) = h2).
  { unfold exec, set_router.
    erewrite update_ctx_ok by (cbn; by apply list_lookup_middle).
    cbn [snd ctxs trace]. rewrite insert_app_r_alt by lia.
    by rewrite Nat.sub_diag. }
  by rewrite Hh2.
Qed.

Lemma handleRequestRoute_run (routes : HandlerId → Handler) (cfg : Config)
    (h : HState) (c : cptr) (cx : contextT) (router : Router) (r : Request) :
  ctxs h !! c = Some cx → c_router cx = Some router → c_req cx = Some r →
  handleRequestRoute routes cfg (Some c) h =
    match router (Method r) (Path r) with
    | Some id => routes id (Some c) h
    | None => call_NotFoundHandler cfg (Some c) h
    end.
Proof.
  intros Hc Hr Hq. unfold handleRequestRoute.
  rewrite (bind_ok _ _ _ _ _ (deref_ok _ _ _ Hc)), Hr, Hq.
  by destruct (router (Method r) (Path r)).
Qed.


(** The end of [handleRequest] when the pipeline has returned the error
    [e] and the error handler is the default one. *)
Lemma finish_with_error (w : World) (p : ptr) (s : Ship) (c : cptr)
    (cx : contextT) (e : error) (h3 : HState) (t4 : list event) :
  ships w !! p = Some s → ctxs h3 !! c = Some cx →
  HandleError (config s) = Some handleError →
  handleError (Some c) e h3 = (Ok (), mkHState (ctxs h3) t4) →
  (err' ← mret (Some e);
   match err' with
   | Some e => liftH (call_HandleError (config s) (Some c) e)
   | None => mret ()
   end;;
   ReleaseContext p (Some c)) (mkWorld (ships w) h3) =
  (Ok (),
   mkWorld (<[p := set_ctxpool (c :: ctxpool s) s]> (ships w))
     (mkHState (<[c := cleared cx]> (ctxs h3)) t4)).
Proof.
  intros E Hc Hhe Herr.
  rewrite bind_run, ret_run, bind_run, liftH_run. cbn [hst ships].
  unfold call_HandleError. rewrite Hhe, Herr. cbn [fst snd].
  by rewrite (ReleaseContext_run (mkWorld (ships w) (mkHState (ctxs h3) t4))
                p s c cx E Hc).
Qed.

(** The end of [handleRequest] when the pipeline has returned nil and the
    error slot of the context is empty. *)
Lemma finish_without_error (w : World) (p : ptr) (s : Ship) (c : cptr)
    (cx : contextT) (h3 : HState) :
  ships w !! p = Some s → ctxs h3 !! c = Some cx → c_err cx = None →
  (err' ← (cx ← liftH (deref (Some c)); mret (c_err cx));
   match err' with
   | Some e => liftH (call_HandleError (config s) (Some c) e)
   | None => mret ()
   end;;
   ReleaseContext p (Some c)) (mkWorld (ships w) h3) =
  (Ok (),
   mkWorld (<[p := set_ctxpool (c :: ctxpool s) s]> (ships w))
     (mkHState (<[c := cleared cx]> (ctxs h3)) (trace h3))).
Proof.
  intros E Hc Herr.
  rewrite bind_run, bind_run, liftH_run. cbn [hst ships].
  rewrite (deref_ok _ _ _ Hc). cbn [fst snd]. rewrite ret_run, Herr.
  rewrite bind_run, ret_run.
  replace (mkWorld (ships w) h3) with (mkWorld (ships w) (mkHState (ctxs h3) (trace h3)))
    by (by destruct h3).
  by rewrite (ReleaseContext_run
                (mkWorld (ships w) (mkHState (ctxs h3) (trace h3))) p s c cx E Hc).
Qed.

(** The statements of this section follow one request [r] through
    [ServeHTTP] on a dispatcher [s] whose pool is empty and which has no
    virtual host registered for the host of [r]: [s] serves the request
    itself, with a new context [c]. *)
Section EndToEnd.
Variable routes : HandlerId → Handler.
Variables (w : World) (p : ptr) (s : Ship) (rw : ResponseWriter) (r : Request).
Hypothesis Hship : ships w !! p = Some s.
Hypothesis Hpool : ctxpool s = [].
Hypothesis Hhost : ∀ m, vhosts s = Some m → m !! Host r = None.

Let c := length (ctxs (hst w)).
Let cx0 := request_context (config s) (router s) rw r.
Let h2 := mkHState (ctxs (hst w) ++ [cx0]) (trace (hst w)).

Lemma request_context_lookup : ctxs h2 !! c = Some cx0.
Proof using Type. by apply list_lookup_middle. Qed.

Lemma request_context_cleared (t : list event) :
  mkHState (<[c := cleared cx0]> (ctxs h2)) t =
  mkHState (ctxs (hst w) ++ [cleared cx0]) t.
Proof using Type.
  f_equal. subst h2 c. cbn [ctxs]. rewrite insert_app_r_alt by lia.
  by rewrite Nat.sub_diag.
Qed.


(** X10. Take a request served by a dispatcher that has an empty pool, no
    virtual host registered for the host of the request and no
    pre-middlewares (its handler is the bare route handler), whose error
    handler is the default one and whose logger is set, and let the router
    find a handler for the request that returns an error and leaves the
    contexts as they are.
    Then the default error handler answers and the context is reset and
    put into the pool: for a plain error the answer is the bodyless status
    500 and one error entry in the log of the configured logger; for the
    skip sentinel nothing is added to what the handler wrote; for a
    structured error with a code in 400-499 the answer has that code and
    the text of the error. *)
Theorem ServeHTTP_handler_error (id : HandlerId) (e : error) (t3 : list event)
    (lg : Logger) :
  handler s = handleRequestRoute routes (config s) →
  HandleError (config s) = Some handleError →
  cfg_Logger (config s) = Some lg →
  router s (Method r) (Path r) = Some id →
  routes id (Some c) h2 = (Ok (Some e), mkHState (ctxs h2) t3) →
  let answered t :=
    ServeHTTP p rw r w =
      (Ok (),
       mkWorld (<[p := set_ctxpool [c] s]> (ships w))
         (mkHState (ctxs (hst w) ++ [cleared cx0]) t)) in
  (∀ text, e = EPlain text →
     answered (t3 ++ [EvNoContent 500; EvLogError lg text])) ∧
  (e = ErrSkip → answered t3) ∧
  (∀ he, e = EHTTP he → (400 ≤ Code he < 500)%Z →
     answered (t3 ++ [EvBlob (Code he) (ContentType he) (ErrorText he)])).
Proof using Hship Hpool Hhost.
  intros Hh Hhe Hlg Hr Hrun answered.
  assert (Hgen : ∀ t4,
            handleError (Some c) e (mkHState (ctxs h2) t3) =
              (Ok (), mkHState (ctxs h2) t4) →
            answered t4).
  { intros t4 Herr. unfold answered.
    rewrite (ServeHTTP_fresh_run routes w p s rw r Hship Hpool Hhost).
    fold c cx0 h2. rewrite Hh.
    rewrite (handleRequestRoute_run routes (config s) h2 c cx0 (router s) r
               request_context_lookup eq_refl eq_refl), Hr, Hrun.
    rewrite (finish_with_error w p s c cx0 e (mkHState (ctxs h2) t3) t4 Hship
               request_context_lookup Hhe Herr).
    cbn [ctxs]. by rewrite Hpool, request_context_cleared. }
  assert (Hc3 : ctxs (mkHState (ctxs h2) t3) !! c = Some cx0)
    by apply request_context_lookup.
  repeat split.
  - intros text ->. apply Hgen. unfold handleError.
    rewrite bind_run, (ctx_NoContent_run _ _ _ _ Hc3).
    rewrite log_error_run with (cx := cx0) by done.
    cbn [c_logger cx0 request_context ctxs trace]. rewrite Hlg.
    by rewrite <- app_assoc.
  - intros ->. by apply Hgen.
  - intros he -> Hcode. apply Hgen.
    rewrite (handleError_http_run _ _ _ _ Hc3).
    rewrite bool_decide_eq_true_2 by lia.
    by rewrite bool_decide_eq_false_2 by lia.
Qed.

(** X11. Take a request served by a dispatcher that has an empty pool and
    no virtual host registered for the host of the request, and whose
    handler is the panic middleware around the bare route handler, and let
    the router find a handler for the request that panics with a value
    that is not nil.
    When the panic callback returns and the error slot of the context is
    empty afterwards, the request is completed all the same: [ServeHTTP]
    returns, the dispatcher writes no error response and logs nothing (the
    trace is the one the callback left), and the context is reset and put
    into the pool. *)
Theorem ServeHTTP_panic_recovered (HandlePanic : PanicHandler)
    (handle : list (option PanicHandler)) (id : HandlerId) (v : value)
    (h3 h4 : HState) (cx4 : contextT) :
  handler s =
    NewPanicMiddleware HandlePanic handle (handleRequestRoute routes (config s)) →
  router s (Method r) (Path r) = Some id →
  routes id (Some c) h2 = (Abort (Panic v), h3) → v ≠ VNil →
  chosen_callback HandlePanic handle (Some c) v h3 = (Ok (), h4) →
  ctxs h4 !! c = Some cx4 → c_err cx4 = None →
  ServeHTTP p rw r w =
    (Ok (),
     mkWorld (<[p := set_ctxpool [c] s]> (ships w))
       (mkHState (<[c := cleared cx4]> (ctxs h4)) (trace h4))).
Proof using Hship Hpool Hhost.
  intros Hh Hr Hpanic Hv Hcb Hc4 Herr.
  rewrite (ServeHTTP_fresh_run routes w p s rw r Hship Hpool Hhost).
  fold c cx0 h2. rewrite Hh.
  unfold NewPanicMiddleware, recover_with.
  rewrite (handleRequestRoute_run routes (config s) h2 c cx0 (router s) r
             request_context_lookup eq_refl eq_refl), Hr, Hpanic.
  assert (is_nil v = false) as -> by (by destruct v).
  rewrite Hcb.
  rewrite (finish_without_error w p s c cx4 h4 Hship Hc4 Herr).
  by rewrite Hpool.
Qed.
End EndToEnd.

Lemma no_vhost_demo (s : Ship) (r : Request) :
  vhosts s = Some ∅ → ∀ m : gmap string ptr, vhosts s = Some m → m !! Host r = None.
Proof. intros -> m [= <-]. apply lookup_empty. Qed.


Lemma ServeHTTP_handler_error_witness :
  ServeHTTP 0 0 (get_req "/fail") world_demo =
    (Ok (),
     mkWorld [set_ctxpool [0] (new_ship routes_demo cfg_demo)]
       (mkHState
          [cleared (request_context (Config_init cfg_demo) router_demo 0
                      (get_req "/fail"))]
          [EvNoContent 500; EvLogError 7 "boom"])).
Proof.
  destruct (ServeHTTP_handler_error routes_demo world_demo 0
              (new_ship routes_demo cfg_demo) 0 (get_req "/fail") eq_refl eq_refl
              (no_vhost_demo (new_ship routes_demo cfg_demo) (get_req "/fail") eq_refl) 1 (EPlain "boom") [] 7
              eq_refl eq_refl eq_refl eq_refl eq_refl) as (Hplain & _ & _).
  exact (Hplain "boom" eq_refl).
Defined.

Lemma ServeHTTP_panic_recovered_witness :
  ServeHTTP 0 0 (get_req "/panic") world_recover =
    (Ok (),
     mkWorld [set_ctxpool [0] ship_recover]
       (mkHState
          [cleared (request_context (Config_init cfg_demo) router_demo 0
                      (get_req "/panic"))]
          [EvCall 9])).
Proof.
  exact (ServeHTTP_panic_recovered routes_demo world_recover 0 ship_recover 0
           (get_req "/panic") eq_refl eq_refl
           (no_vhost_demo ship_recover (get_req "/panic") eq_refl)
           HandlePanic_demo [Some panic_probe] 2 (VString "bang")
           (mkHState [request_context (Config_init cfg_demo) router_demo 0
                        (get_req "/panic")] [])
           (mkHState [request_context (Config_init cfg_demo) router_demo 0
                        (get_req "/panic")] [EvCall 9])
           (request_context (Config_init cfg_demo) router_demo 0 (get_req "/panic"))
           eq_refl eq_refl eq_refl ltac:(discriminate) eq_refl eq_refl eq_refl).
Defined.

(** ** Virtual hosts, again *)

Lemma VHost_run (routes : HandlerId → Handler) (w : World) (p : ptr) (s : Ship)
    (m : gmap string ptr) (host : string) :
  ships w !! p = Some s → vhosts s = Some m → m !! host = None →
  VHost routes p host w =
    (Ok (length (ships w)),
     mkWorld
       (<[p := set_vhosts (Some (<[host := length (ships w)]> m)) s]> (ships w) ++
        [set_vhosts None (new_ship routes (config s))])
       (hst w)).
Proof.
  intros E Hv Hh.
  assert (Hp : p < length (ships w)) by (by eapply lookup_lt_Some).
  unfold VHost. rewrite (bind_ok _ _ _ _ _ (ship_at_ok _ _ _ E)), Hv, Hh.
  rewrite (bind_ok _ _ _ _ _ (New_run routes (config s) w)).
  set (sn := new_ship routes (config s)). set (v := length (ships w)).
  assert (E1 : ships (mkWorld (ships w ++ [sn]) (hst w)) !! v = Some sn)
    by (cbn; by apply list_lookup_middle).
  rewrite (bind_ok _ _ _ _ _ (update_ship_ok _ _ _ _ E1)). cbn [ships hst].
  assert (E2 : <[v := set_vhosts None sn]> (ships w ++ [sn]) !! p = Some s).
  { rewrite list_lookup_insert_ne by lia. by rewrite lookup_app_l. }
  rewrite (bind_ok _ _ _ _ _ (update_ship_ok (mkWorld _ (hst w)) _ _ _ E2)).
  rewrite ret_run. cbn [ships hst]. do 2 f_equal.
  subst v. rewrite insert_app_r_alt by lia. rewrite Nat.sub_diag. cbn [insert].
  by rewrite insert_app_l by lia.
Qed.

(** A second [init] changes nothing but, possibly, the prefix. *)
Lemma Config_init_again (c : Config) :
  Prefix (Config_init (Config_init c)) = Prefix (Config_init c) →
  Config_init (Config_init c) = Config_init c.
Proof.
  intros Hp. cbn in Hp. unfold Config_init. cbn.
  f_equal; first [exact Hp | repeat case_decide; try lia; done].
Qed.

Lemma Config_init_sizes_again (c : Config) :
  BufferSize (Config_init (Config_init c)) = BufferSize (Config_init c) ∧
  ContextStoreSize (Config_init (Config_init c)) = ContextStoreSize (Config_init c) ∧
  MiddlewareMaxNum (Config_init (Config_init c)) = MiddlewareMaxNum (Config_init c).
Proof. cbn. repeat split; repeat case_decide; try lia; done. Qed.

(** X12. Registering a virtual host and serving a request compose as map
    insertion and lookup: after [v := s.VHost(host)], a request for that
    host is handled by [v] with the router of [v]; a request for a host
    that was not registered is still handled by [s] itself; and a request
    for a host registered before is still handled by the dispatcher that
    was registered for it. *)
Theorem VHost_then_ServeHTTP (routes : HandlerId → Handler) (w : World) (p : ptr)
    (s : Ship) (m : gmap string ptr) (host : string) :
  ships w !! p = Some s → vhosts s = Some m → m !! host = None →
  let v := length (ships w) in
  let w' := exec (VHost routes p host) w in
  (∀ rw r, Host r = host →
     ServeHTTP p rw r w' =
       handleRequest v (router (new_ship routes (config s))) rw r w') ∧
  (∀ rw r, Host r ≠ host → m !! Host r = None →
     ServeHTTP p rw r w' = handleRequest p (router s) rw r w') ∧
  (∀ rw r u su, m !! Host r = Some u → u ≠ p → ships w !! u = Some su →
     ServeHTTP p rw r w' = handleRequest u (router su) rw r w').
Proof.
  intros E Hv Hh v w'.
  assert (Hp : p < length (ships w)) by (by eapply lookup_lt_Some).
  assert (Hw' : w' = mkWorld
            (<[p := set_vhosts (Some (<[host := v]> m)) s]> (ships w) ++
             [set_vhosts None (new_ship routes (config s))]) (hst w)).
  { subst w'. unfold exec. by rewrite (VHost_run routes w p s m host E Hv Hh). }
  assert (Ep : ships w' !! p = Some (set_vhosts (Some (<[host := v]> m)) s)).
  { rewrite Hw'. cbn [ships]. rewrite lookup_app_l by (by rewrite length_insert).
    by eapply lookup_insert_self. }
  assert (Ev : ships w' !! v = Some (set_vhosts None (new_ship routes (config s)))).
  { rewrite Hw'. cbn [ships]. apply list_lookup_middle. by rewrite length_insert. }
  repeat split.
  - intros rw r Hr. unfold ServeHTTP.
    rewrite (bind_ok _ _ _ _ _ (ship_at_ok _ _ _ Ep)). cbn [vhosts set_vhosts].
    rewrite Hr, lookup_insert_eq.
    by rewrite (bind_ok _ _ _ _ _ (ship_at_ok _ _ _ Ev)).
  - intros rw r Hr Hm. unfold ServeHTTP.
    rewrite (bind_ok _ _ _ _ _ (ship_at_ok _ _ _ Ep)). cbn [vhosts set_vhosts].
    by rewrite lookup_insert_ne, Hm by done.
  - intros rw r u su Hm Hu Eu. unfold ServeHTTP.
    rewrite (bind_ok _ _ _ _ _ (ship_at_ok _ _ _ Ep)). cbn [vhosts set_vhosts].
    assert (Host r ≠ host) by congruence.
    rewrite lookup_insert_ne, Hm by done.
    assert (Eu' : ships w' !! u = Some su).
    { rewrite Hw'. cbn [ships].
      rewrite lookup_app_l
        by (rewrite length_insert; by eapply lookup_lt_Some).
      by rewrite list_lookup_insert_ne. }
    by rewrite (bind_ok _ _ _ _ _ (ship_at_ok _ _ _ Eu')).
Qed.

Lemma VHost_then_ServeHTTP_witness :
  let w' := exec (VHost routes_demo 0 "b.example") world_vhost in
  ServeHTTP 0 0 (mkRequest "b.example" "GET" "/ok") w' =
    handleRequest 2 (router (new_ship routes_demo (Config_init cfg_demo))) 0
      (mkRequest "b.example" "GET" "/ok") w' ∧
  ServeHTTP 0 0 (mkRequest "c.example" "GET" "/ok") w' =
    handleRequest 0 (router vhost_parent) 0 (mkRequest "c.example" "GET" "/ok") w' ∧
  ServeHTTP 0 0 (mkRequest "a.example" "GET" "/ok") w' =
    handleRequest 1 (router vhost_child) 0 (mkRequest "a.example" "GET" "/ok") w'.
Proof.
  destruct (VHost_then_ServeHTTP routes_demo world_vhost 0 vhost_parent
              {["a.example" := 1]} "b.example" eq_refl eq_refl eq_refl)
    as (Hnew & Hself & Hold).
  split; [|split].
  - by apply Hnew.
  - by apply Hself.
  - by apply (Hold 0 (mkRequest "a.example" "GET" "/ok") 1 vhost_child).
Defined.

(** X13. A virtual host gets the configuration of its parent put through
    [init] once more, and nothing of its state.  For a parent made by
    [New], the name, the debug flag, the three sizes, the signals, the
    logger, the router constructor, the error handler and the not-found
    handler of the child are those of the parent; the prefix of the child
    is that of the parent less one trailing slash, so when the prefix given
    to the parent ended in two slashes the two prefixes differ.  The child
    has no pre-middlewares (its handler is the bare route handler), no
    registered shutdown functions, no linked dispatchers, no server, an
    empty pool and a nil map of virtual hosts, whatever the parent has. *)
Theorem VHost_inherits_config_only (routes : HandlerId → Handler) (w : World)
    (p : ptr) (s : Ship) (m : gmap string ptr) (host : string) (c0 : Config) :
  ships w !! p = Some s → vhosts s = Some m → m !! host = None →
  config s = Config_init c0 →
  ∃ sv,
    ships (exec (VHost routes p host) w) !! length (ships w) = Some sv ∧
    Name (config sv) = Name (config s) ∧
    Debug (config sv) = Debug (config s) ∧
    BufferSize (config sv) = BufferSize (config s) ∧
    ContextStoreSize (config sv) = ContextStoreSize (config s) ∧
    MiddlewareMaxNum (config sv) = MiddlewareMaxNum (config s) ∧
    Signals (config sv) = Signals (config s) ∧
    cfg_Logger (config sv) = cfg_Logger (config s) ∧
    NewRouter (config sv) = NewRouter (config s) ∧
    HandleError (config sv) = HandleError (config s) ∧
    NotFoundHandler (config sv) = NotFoundHandler (config s) ∧
    Prefix (config sv) = TrimSuffix (Prefix (config s)) "/" ∧
    (∀ t, Prefix c0 = (t +:+ "/") +:+ "/" →
       Prefix (config s) = t +:+ "/" ∧ Prefix (config sv) = t) ∧
    ((∀ t, Prefix (config s) ≠ t +:+ "/") → config sv = config s) ∧
    premiddlewares sv = [] ∧
    handler sv = handleRequestRoute routes (config sv) ∧
    stopfs sv = [] ∧ links sv = [] ∧ server sv = None ∧ ctxpool sv = [] ∧
    vhosts sv = None.
Proof.
  intros E Hv Hh Hc. unfold exec.
  rewrite (VHost_run routes w p s m host E Hv Hh). cbn [snd ships].
  eexists. split.
  { apply list_lookup_middle. by rewrite length_insert. }
  assert (Hsizes := Config_init_sizes_again c0).
  cbn [config set_vhosts new_ship]. rewrite Hc.
  destruct Hsizes as (Hb & Hs & Hm).
  split; [done|]. split; [done|]. split; [exact Hb|]. split; [exact Hs|].
  split; [exact Hm|]. split; [done|]. split; [done|]. split; [done|].
  split; [done|]. split; [done|]. split; [reflexivity|]. split.
  { intros t Ht. cbn [Prefix Config_init]. rewrite Ht.
    by rewrite !TrimSuffix_app. }
  split; [|by repeat split].
  intros Hno. apply Config_init_again.
  by apply (TrimSuffix_other (Prefix (Config_init c0)) "/").
Qed.

Lemma VHost_inherits_config_only_witness :
  ∃ sv,
    ships (exec (VHost routes_demo 0 "a.example") world_recover) !! 1 = Some sv ∧
    Name (config sv) = "demo" ∧
    Prefix (config ship_recover) = "/api/" ∧ Prefix (config sv) = "/api" ∧
    premiddlewares sv = [].
Proof.
  destruct (VHost_inherits_config_only routes_demo world_recover 0 ship_recover ∅
              "a.example" cfg_demo eq_refl eq_refl eq_refl eq_refl)
    as (sv & Hsv & Hname & _ & _ & _ & _ & _ & _ & _ & _ & _ & _ & Hpre & _ & Hpm & _).
  destruct (Hpre "/api" eq_refl) as [Hparent Hchild].
  exists sv. split; [exact Hsv|]. split; [by rewrite Hname|].
  split; [exact Hparent|]. split; [exact Hchild | exact Hpm].
Defined.

(** ** Starting, stopping and waiting *)

Lemma set_once1_same (s : Ship) : once1 s = true → set_once1 true s = s.
Proof. destruct s; cbn; by intros ->. Qed.

Lemma shutdown_any (run : callback → W ()) (w : World) (p : ptr) (s : Ship) :
  ships w !! p = Some s → locked s = false → server s = None →
  shutdown run p w =
    (Ok (), mkWorld (<[p := set_once1 true s]> (ships w)) (hst w)).
Proof.
  intros E Hl Hs. destruct (once1 s) eqn:H1.
  - rewrite (shutdown_used _ _ _ _ E H1), (set_once1_same _ H1).
    rewrite list_insert_id by done. by destruct w.
  - by apply shutdown_not_started.
Qed.

Lemma Shutdown_blocked (run : callback → W ()) (w : World) (p : ptr) (s : Ship) :
  ships w !! p = Some s → locked s = true → Shutdown run p w = (Abort Deadlock, w).
Proof.
  intros E Hl. unfold Shutdown, RLock.
  rewrite bind_run, (bind_ok _ _ _ _ _ (ship_at_ok _ _ _ E)), Hl. reflexivity.
Qed.

Lemma Shutdown_not_started (run : callback → W ()) (w : World) (p : ptr) (s : Ship) :
  ships w !! p = Some s → locked s = false → server s = None →
  Shutdown run p w = (Ok (Some (EPlain "the server has not been started")), w).
Proof.
  intros E Hl Hs. unfold Shutdown.
  rewrite (bind_ok _ _ _ _ _ (RLock_run _ _ _ E Hl)).
  rewrite (bind_ok _ _ _ _ _ (ship_at_ok _ _ _ E)), Hs. reflexivity.
Qed.

Lemma Shutdown_serving (run : callback → W ()) (w w' : World) (p : ptr) (s : Ship)
    (srv : Server) :
  ships w !! p = Some s → locked s = false →
  server s = Some srv → onShutdown srv = [CbStop p] →
  run (CbStop p) w = (Ok (), w') →
  Shutdown run p w = (Ok None, w').
Proof.
  intros E Hl Hs Hon Hrun. unfold Shutdown.
  rewrite (bind_ok _ _ _ _ _ (RLock_run _ _ _ E Hl)).
  rewrite (bind_ok _ _ _ _ _ (ship_at_ok _ _ _ E)), Hs.
  unfold Server_Shutdown. rewrite Hon. cbn [for_each].
  by rewrite bind_run, bind_run, Hrun, !ret_run.
Qed.

Lemma Shutdown_times_stopped (fuel n : nat) (w : World) (p : ptr) (s : Ship)
    (srv : Server) :
  ships w !! p = Some s → locked s = false → once2 s = true →
  server s = Some srv → onShutdown srv = [CbStop p] →
  Shutdown_times (S fuel) p n w = (Ok (replicate n None), w).
Proof.
  intros E Hl H2 Hs Hon. induction n as [|n IH]; [reflexivity|].
  cbn [Shutdown_times].
  rewrite (bind_ok _ _ _ _ _
             (Shutdown_serving _ w w p s srv E Hl Hs Hon
                ltac:(rewrite run_callback_stop; by apply (stop_used _ w p s)))).
  by rewrite (bind_ok _ _ _ _ _ IH), ret_run.
Qed.

Lemma Wait_run (w : World) (p : ptr) (s : Ship) :
  ships w !! p = Some s →
  Wait p w = (if done_closed s then Ok () else Abort Deadlock, w).
Proof.
  intros E. unfold Wait. rewrite (bind_ok _ _ _ _ _ (ship_at_ok _ _ _ E)).
  by destruct (done_closed s).
Qed.

(** X14. A virtual-host child cannot be started as a server: [startServer]
    on a dispatcher whose map of virtual hosts is nil logs one error,
    records no server, registers nothing and never reaches the listener;
    the deferred trigger uses up the one-time gate of the child and, there
    being no server, does nothing else. *)
Theorem startServer_virtual_host (run : callback → W ()) (w : World) (p : ptr)
    (s : Ship) (srv : Server) (lg : Logger) :
  ships w !! p = Some s → vhosts s = None → locked s = false → server s = None →
  cfg_Logger (config s) = Some lg →
  startServer run p srv w =
    (Ok false,
     mkWorld (<[p := set_once1 true s]> (ships w))
       (mkHState (ctxs (hst w))
          (trace (hst w) ++
           [EvLogError lg "forbid the virtual host to be started as a server"]))).
Proof.
  intros E Hv Hl Hs Hlg. unfold startServer.
  rewrite (bind_ok _ _ _ _ _ (ship_at_ok _ _ _ E)), Hv.
  rewrite (bind_ok _ _ _ _ _ (Logger_Error_run _ _ _ _ _ E Hlg)).
  rewrite (bind_ok _ _ _ _ _ (shutdown_any run (mkWorld _ _) p s E Hl Hs)).
  by rewrite ret_run.
Qed.

Lemma startServer_virtual_host_witness :
  startServer (run_callback 4) 1 (mkServer ":8080" []) world_vhost =
    (Ok false,
     mkWorld [vhost_parent; set_once1 true vhost_child]
       (mkHState []
          [EvLogError 7 "forbid the virtual host to be started as a server"])).
Proof.
  exact (startServer_virtual_host (run_callback 4) world_vhost 1 vhost_child
           (mkServer ":8080" []) 7 eq_refl eq_refl eq_refl eq_refl eq_refl).
Defined.

(** X15. Starting a dispatcher that already has a server: the second
    [startServer] logs that it is running, takes the write lock, finds the
    server set, logs an error and returns without releasing the lock.  The
    deferred trigger then runs with the lock held: when the one-time gate
    is unused it calls [Shutdown], which waits for the read lock for ever,
    so the call never returns; when the gate is used the call returns.
    Either way the lock stays held, the server recorded first stays, no
    registered function runs, and every later [RegisterOnShutdown] or
    [Shutdown] on this dispatcher blocks. *)
Theorem startServer_again (run : callback → W ()) (w w1 : World) (p : ptr)
    (s s1 : Ship) (srv0 srv : Server) (lg : Logger) :
  ships w !! p = Some s → is_Some (vhosts s) →
  register_links p (links s) w = (Ok (), w1) →
  ships w1 !! p = Some s1 → locked s1 = false → server s1 = Some srv0 →
  cfg_Logger (config s1) = Some lg →
  ∃ w2 info err,
    startServer run p srv w =
      (if once1 s1 then Ok false else Abort Deadlock, w2) ∧
    ships w2 = <[p := set_once1 true (set_locked true s1)]> (ships w1) ∧
    ctxs (hst w2) = ctxs (hst w1) ∧
    trace (hst w2) = trace (hst w1) ++ [EvLogInfo lg info; EvLogError lg err] ∧
    (∀ fs, RegisterOnShutdown p fs w2 = (Abort Deadlock, w2)) ∧
    (∀ run', Shutdown run' p w2 = (Abort Deadlock, w2)).
Proof.
  intros E [m Hv] Hreg E1 Hl Hs Hlg.
  set (w2 :=
    mkWorld (<[p := set_once1 true (set_locked true s1)]> (ships w1))
      (mkHState (ctxs (hst w1))
         (trace (hst w1) ++
          [EvLogInfo lg (running_on (Name (config s1)) srv);
           EvLogError lg (shutdown_format (Name (config s1)) +:+
                          ": the server has been started")]))).
  exists w2, (running_on (Name (config s1)) srv),
    (shutdown_format (Name (config s1)) +:+ ": the server has been started").
  assert (E2 : ships w2 !! p = Some (set_once1 true (set_locked true s1)))
    by (by eapply lookup_insert_self).
  split; [|split; [done|split; [done|split; [done|split]]]].
  2: { intros fs. by apply (RegisterOnShutdown_blocked w2 p _ fs E2). }
  2: { intros run'. by apply (Shutdown_blocked run' w2 p _ E2). }
  unfold startServer.
  rewrite (bind_ok _ _ _ _ _ (ship_at_ok _ _ _ E)), Hv.
  rewrite (bind_ok _ _ _ _ _ Hreg).
  rewrite (bind_ok _ _ _ _ _ (ship_at_ok _ _ _ E1)).
  rewrite (bind_ok _ _ _ _ _ (Logger_Info_run _ _ _ _ _ E1 Hlg)).
  set (wa := mkWorld (ships w1) _).
  rewrite (bind_ok _ _ _ _ _ (Lock_run wa p s1 E1 Hl)).
  set (sb := set_locked true s1). set (wb := mkWorld _ _).
  assert (Eb : ships wb !! p = Some sb) by (by eapply lookup_insert_self).
  rewrite (bind_ok _ _ _ _ _ (ship_at_ok _ _ _ Eb)).
  cbn [server sb set_locked]. rewrite Hs.
  assert (Hlgb : cfg_Logger (config sb) = Some lg) by done.
  rewrite (bind_ok _ _ _ _ _ (Logger_Error_run _ _ _ _ _ Eb Hlgb)).
  set (wc := mkWorld (ships wb) _).
  assert (Ec : ships wc !! p = Some sb) by exact Eb.
  assert (Hw2 : w2 = mkWorld (<[p := set_once1 true sb]> (ships wc)) (hst wc)).
  { subst w2 wc wb wa sb. cbn [ships hst ctxs trace].
    rewrite ships_insert_insert. by rewrite <- app_assoc. }
  destruct (once1 s1) eqn:H1.
  - assert (H1b : once1 sb = true) by done.
    rewrite (bind_ok _ _ _ _ _ (shutdown_used run wc p sb Ec H1b)), ret_run.
    f_equal. rewrite Hw2, (set_once1_same _ H1b).
    rewrite list_insert_id by done. by destruct wc.
  - rewrite bind_run. unfold shutdown.
    rewrite (bind_ok _ _ _ _ _ (ship_at_ok _ _ _ Ec)).
    cbn [once1 sb set_locked]. rewrite H1.
    rewrite (bind_ok _ _ _ _ _ (update_ship_ok _ _ _ _ Ec)).
    assert (Ed : ships (mkWorld (<[p := set_once1 true sb]> (ships wc)) (hst wc)) !! p
                 = Some (set_once1 true sb)) by (by eapply lookup_insert_self).
    rewrite bind_run, (Shutdown_blocked run _ p _ Ed eq_refl).
    by rewrite Hw2.
Qed.

Lemma startServer_again_witness :
  ∃ w2,
    startServer (run_callback 4) 0 (mkServer ":9090" []) world_serving =
      (Abort Deadlock, w2) ∧
    ships w2 = [set_once1 true (set_locked true ship_serving)] ∧
    calls (trace (hst w2)) = [] ∧
    RegisterOnShutdown 0 [CbUser 3] w2 = (Abort Deadlock, w2).
Proof.
  destruct (startServer_again (run_callback 4) world_serving world_serving 0
              ship_serving ship_serving (serving 0 (mkServer ":8080" []))
              (mkServer ":9090" []) 7 eq_refl (mk_is_Some _ _ eq_refl) eq_refl eq_refl
              eq_refl eq_refl eq_refl)
    as (w2 & info & err & Hrun & Hships & _ & Htr & Hreg & _).
  exists w2. split; [exact Hrun|]. split; [exact Hships|].
  split; [by rewrite Htr|]. apply Hreg.
Defined.

(** X16. A trigger that fires before the start uses up the one-time gate.
    On a dispatcher that is not serving the trigger only marks the gate;
    the server can still be started afterwards, but from then on no number
    of triggers stops it: none of the registered functions runs, the
    completion signal is not released, and a waiter blocks. *)
Theorem trigger_before_start (fuel n k : nat) (w : World) (p : ptr) (s : Ship)
    (fs : list nat) (srv : Server) :
  ships w !! p = Some s → idle fs s →
  ∃ w' s',
    (trigger fuel p (S k);;
     startServer (run_callback fuel) p srv;;
     trigger fuel p n) w = (Ok (), w') ∧
    ships w' !! p = Some s' ∧
    server s' = Some (serving p srv) ∧
    stopfs s' = pending fs ∧ once2 s' = false ∧ done_closed s' = false ∧
    calls (trace (hst w')) = calls (trace (hst w)) ∧
    Wait p w' = (Abort Deadlock, w').
Proof.
  intros E (Hlk & Hst & Hl & H1 & H2 & Hd & Hsrv & Hv & [lg Hlg]).
  rewrite (bind_ok _ _ _ _ _ (trigger_not_started fuel k w p s E Hl H1 Hsrv)).
  set (s0 := set_once1 true s). set (w0 := mkWorld _ _).
  assert (E0 : ships w0 !! p = Some s0) by (by eapply lookup_insert_self).
  assert (Hreg : register_links p (links s0) w0 = (Ok (), w0))
    by (cbn [links s0 set_once1]; rewrite Hlk; apply register_links_nil).
  rewrite (bind_ok _ _ _ _ _
             (startServer_run _ w0 w0 p s0 s0 srv lg E0 Hv Hreg E0 Hl Hsrv Hlg)).
  set (s1 := set_server _ s0). set (w1 := mkWorld _ _).
  assert (E1 : ships w1 !! p = Some s1) by (by eapply lookup_insert_self).
  rewrite (trigger_used fuel w1 p s1 n E1 eq_refl).
  exists w1, s1. repeat split; try done.
  - subst w1 w0. cbn [hst trace]. rewrite calls_app. cbn. by rewrite app_nil_r.
  - rewrite (Wait_run _ _ _ E1). cbn. by rewrite Hd.
Qed.

Lemma idle_ship_x : idle [1; 2] ship_x.
Proof. repeat split; try reflexivity; by eexists. Qed.

Lemma trigger_before_start_witness :
  ∃ w' s',
    (trigger 4 0 1;;
     startServer (run_callback 4) 0 (mkServer ":8080" []);;
     trigger 4 0 3) world_pair = (Ok (), w') ∧
    ships w' !! 0 = Some s' ∧ stopfs s' = pending [1; 2] ∧
    calls (trace (hst w')) = [].
Proof.
  destruct (trigger_before_start 4 3 0 world_pair 0 ship_x [1; 2]
              (mkServer ":8080" []) eq_refl idle_ship_x)
    as (w' & s' & Hrun & Es & _ & Hst & _ & _ & Hc & _).
  exists w', s'. by repeat split.
Defined.

(** X17. The public [Shutdown] has no gate of its own, yet the registered
    functions run once: on a serving dispatcher any number [n >= 1] of
    calls return nil each, the first runs the registered user functions in
    the order of registration and releases the completion signal, the
    later ones run nothing.  On a dispatcher that is not serving every call
    returns the error that the server has not been started and changes
    nothing. *)
Theorem Shutdown_repeated (fuel n : nat) (w : World) (p : ptr) (s : Ship)
    (fs : list nat) :
  ships w !! p = Some s → locked s = false → once2 s = false →
  done_closed s = false → stopfs s = pending fs →
  (∀ srv, server s = Some srv → onShutdown srv = [CbStop p] →
     Shutdown_times (S (S fuel)) p (S n) w =
       (Ok (replicate (S n) None),
        mkWorld
          (<[p := set_done_closed true (set_stopfs (ran fs) (set_once2 true s))]>
             (ships w))
          (mkHState (ctxs (hst w)) (trace (hst w) ++ map EvCall fs)))) ∧
  (server s = None →
     Shutdown_times fuel p n w =
       (Ok (replicate n (Some (EPlain "the server has not been started"))), w)).
Proof.
  intros E Hl H2 Hd Hst. split.
  - intros srv Hs Hon. cbn [Shutdown_times].
    pose proof (stop_user fuel w p s fs E Hl H2 Hd Hst) as Hstop.
    rewrite (bind_ok _ _ _ _ _
               (Shutdown_serving _ w _ p s srv E Hl Hs Hon
                  ltac:(rewrite run_callback_stop; exact Hstop))).
    set (s' := set_done_closed _ _). set (w' := mkWorld _ _).
    assert (E' : ships w' !! p = Some s') by (by eapply lookup_insert_self).
    rewrite (bind_ok _ _ _ _ _
               (Shutdown_times_stopped (S fuel) n w' p s' srv E' Hl eq_refl Hs Hon)).
    by rewrite ret_run.
  - intros Hs. induction n as [|n IH]; [reflexivity|].
    cbn [Shutdown_times].
    rewrite (bind_ok _ _ _ _ _ (Shutdown_not_started _ w p s E Hl Hs)).
    by rewrite (bind_ok _ _ _ _ _ IH), ret_run.
Qed.

Lemma Shutdown_repeated_witness :
  result (Shutdown_times 4 0 3) world_serving = Ok [None; None; None] ∧
  ships (exec (Shutdown_times 4 0 3) world_serving) =
    [set_done_closed true (set_stopfs (ran [1; 2]) (set_once2 true ship_serving))] ∧
  calls (trace (hst (exec (Shutdown_times 4 0 3) world_serving))) = [1; 2].
Proof.
  unfold result, exec.
  rewrite (proj1 (Shutdown_repeated 2 2 world_serving 0 ship_serving [1; 2]
                    eq_refl eq_refl eq_refl eq_refl eq_refl)
             (serving 0 (mkServer ":8080" [])) eq_refl eq_refl).
  by repeat split.
Defined.

(** X18. [Wait] returns exactly when the registered functions have
    finished.  On a dispatcher that has not shut down a waiter blocks.  On
    a serving dispatcher, once the trigger has fired, [Wait] returns, and
    returns again when called again.  On a dispatcher that was never
    started the trigger does not release the waiter, however often it
    fires. *)
Theorem Wait_released (fuel n : nat) (w : World) (p : ptr) (s : Ship)
    (fs : list nat) :
  ships w !! p = Some s → locked s = false → once1 s = false → once2 s = false →
  done_closed s = false → stopfs s = pending fs →
  Wait p w = (Abort Deadlock, w) ∧
  (∀ srv, server s = Some srv → onShutdown srv = [CbStop p] →
     result (trigger (S (S fuel)) p (S n);; Wait p;; Wait p) w = Ok ()) ∧
  (server s = None → result (trigger fuel p n;; Wait p) w = Abort Deadlock).
Proof.
  intros E Hl H1 H2 Hd Hst. split; [|split].
  - rewrite (Wait_run _ _ _ E). by rewrite Hd.
  - intros srv Hs Hon. unfold result.
    rewrite (bind_ok _ _ _ _ _
               (trigger_user fuel n w p s srv fs E Hl H1 H2 Hd Hs Hon Hst)).
    set (w' := mkWorld _ _).
    assert (E' : ships w' !! p = Some (shut_down fs s))
      by (by eapply lookup_insert_self).
    rewrite (bind_ok _ _ _ _ _ (Wait_run _ _ _ E')).
    by rewrite (Wait_run _ _ _ E').
  - intros Hs. unfold result. destruct n as [|n].
    + cbn [trigger]. rewrite (bind_ok _ _ _ _ _ (ret_run _ _)).
      rewrite (Wait_run _ _ _ E). by rewrite Hd.
    + rewrite (bind_ok _ _ _ _ _ (trigger_not_started fuel n w p s E Hl H1 Hs)).
      set (w' := mkWorld _ _).
      assert (E' : ships w' !! p = Some (set_once1 true s))
        by (by eapply lookup_insert_self).
      rewrite (Wait_run _ _ _ E'). cbn. by rewrite Hd.
Qed.

Lemma Wait_released_witness :
  Wait 0 world_serving = (Abort Deadlock, world_serving) ∧
  result (trigger 4 0 2;; Wait 0;; Wait 0) world_serving = Ok ().
Proof.
  destruct (Wait_released 2 1 world_serving 0 ship_serving [1; 2]
              eq_refl eq_refl eq_refl eq_refl eq_refl eq_refl)
    as (Hblock & Hserve & _).
  split; [exact Hblock|].
  exact (Hserve (serving 0 (mkServer ":8080" [])) eq_refl eq_refl).
Defined.

Lemma runStop_panic (run : callback → W ()) (w w1 w2 : World) (p : ptr)
    (s s1 s2 : Ship) (k : nat) (f : callback) (v : value) :
  ships w !! p = Some s → locked s = false → k < length (stopfs s) →
  for_each (stopT_run run p) (seq 0 k) w = (Ok (), w1) →
  ships w1 !! p = Some s1 → stopfs s1 !! k = Some (mkStopT false f) →
  run f (mkWorld (<[p := set_stopfs (<[k := mkStopT true f]> (stopfs s1)) s1]>
                    (ships w1)) (hst w1)) = (Abort (Panic v), w2) →
  ships w2 !! p = Some s2 → done_closed s2 = false →
  runStop run p w =
    (Abort (Panic v), mkWorld (<[p := set_done_closed true s2]> (ships w2)) (hst w2)).
Proof.
  intros E Hl Hk Hpre E1 Hi Hrun E2 Hd. unfold runStop.
  rewrite (bind_ok _ _ _ _ _ (RLock_run _ _ _ E Hl)). unfold deferred.
  rewrite (bind_ok _ _ _ _ _ (ship_at_ok _ _ _ E)).
  replace (length (stopfs s)) with (k + S (length (stopfs s) - S k)) by lia.
  rewrite seq_app, for_each_app, (bind_ok _ _ _ _ _ Hpre).
  cbn [Nat.add seq for_each].
  rewrite bind_run, (stopT_run_fresh _ _ _ _ _ _ E1 Hi), Hrun.
  unfold close_done. rewrite (bind_ok _ _ _ _ _ (ship_at_ok _ _ _ E2)), Hd.
  by rewrite (update_ship_ok _ _ _ _ E2).
Qed.

(** X19. A registered function that panics.  When the functions before the
    [k]-th one have returned and the [k]-th panics, [stop] lets the panic
    through, but the deferred close still releases the completion signal:
    a waiter returns.  The functions registered after the [k]-th have not
    run and never will, because the gate of [stop] is used: every later
    [stop] returns at once. *)
Theorem stop_panic (run : callback → W ()) (w w1 w2 : World) (p : ptr)
    (s s1 s2 : Ship) (k : nat) (f : callback) (v : value) :
  ships w !! p = Some s → locked s = false → once2 s = false →
  k < length (stopfs s) →
  for_each (stopT_run run p) (seq 0 k)
    (mkWorld (<[p := set_once2 true s]> (ships w)) (hst w)) = (Ok (), w1) →
  ships w1 !! p = Some s1 → stopfs s1 !! k = Some (mkStopT false f) →
  run f (mkWorld (<[p := set_stopfs (<[k := mkStopT true f]> (stopfs s1)) s1]>
                    (ships w1)) (hst w1)) = (Abort (Panic v), w2) →
  ships w2 !! p = Some s2 → done_closed s2 = false → once2 s2 = true →
  let w3 := mkWorld (<[p := set_done_closed true s2]> (ships w2)) (hst w2) in
  stop run p w = (Abort (Panic v), w3) ∧
  (∀ run', stop run' p w3 = (Ok (), w3)) ∧
  Wait p w3 = (Ok (), w3).
Proof.
  intros E Hl H2 Hk Hpre E1 Hi Hrun E2 Hd H22 w3.
  assert (E3 : ships w3 !! p = Some (set_done_closed true s2))
    by (by eapply lookup_insert_self).
  split; [|split].
  - unfold stop. rewrite (bind_ok _ _ _ _ _ (ship_at_ok _ _ _ E)), H2.
    rewrite (bind_ok _ _ _ _ _ (update_ship_ok _ _ _ _ E)).
    apply (runStop_panic run (mkWorld _ (hst w)) w1 w2 p (set_once2 true s) s1 s2 k f v);
      try done.
    by eapply lookup_insert_self.
  - intros run'. by apply (stop_used run' w3 p _ E3).
  - by rewrite (Wait_run _ _ _ E3).
Qed.

Lemma stop_panic_witness :
  let w := exec faulty_demo empty_world in
  let s := set_stopfs (pending [1; 2; 3]) (new_ship routes_demo cfg_demo) in
  let w3 :=
    mkWorld
      [set_done_closed true
         (set_stopfs (ran [1; 2] ++ pending [3]) (set_once2 true s))]
      (mkHState [] [EvCall 1]) in
  stop (run_faulty 2 (VString "bang")) 0 w = (Abort (Panic (VString "bang")), w3) ∧
  (∀ run', stop run' 0 w3 = (Ok (), w3)) ∧
  Wait 0 w3 = (Ok (), w3).
Proof.
  intros w s.
  exact (stop_panic (run_faulty 2 (VString "bang")) w
           (mkWorld [set_stopfs (ran [1] ++ pending [2; 3]) (set_once2 true s)]
              (mkHState [] [EvCall 1]))
           (mkWorld [set_stopfs (ran [1; 2] ++ pending [3]) (set_once2 true s)]
              (mkHState [] [EvCall 1]))
           0 s (set_stopfs (ran [1] ++ pending [2; 3]) (set_once2 true s))
           (set_stopfs (ran [1; 2] ++ pending [3]) (set_once2 true s))
           1 (CbUser 2) (VString "bang")
           eq_refl eq_refl eq_refl ltac:(vm_compute; lia) eq_refl eq_refl eq_refl
           eq_refl eq_refl eq_refl eq_refl).
Defined.

(** ** Clones *)

Lemma Clone_run (routes : HandlerId → Handler) (w : World) (p : ptr) (s : Ship)
    (name : list string) :
  ships w !! p = Some s → locked s = false →
  Clone routes p name w =
    (Ok (length (ships w)),
     mkWorld
       (<[p := set_stopfs
                 (stopfs s ++ [mkStopT false (CbShutdown (length (ships w)))]) s]>
          (ships w) ++
        [new_ship routes (Clone_config (config s) name)])
       (hst w)).
Proof.
  intros E Hl. assert (Hp : p < length (ships w)) by (by eapply lookup_lt_Some).
  unfold Clone. rewrite (bind_ok _ _ _ _ _ (ship_at_ok _ _ _ E)).
  rewrite (bind_ok _ _ _ _ _ (New_run routes _ w)).
  set (sn := new_ship _ _).
  assert (E1 : ships (mkWorld (ships w ++ [sn]) (hst w)) !! p = Some s)
    by (cbn [ships]; by rewrite lookup_app_l).
  rewrite (bind_ok _ _ _ _ _ (RegisterOnShutdown_run _ _ _ _ E1 Hl)), ret_run.
  cbn [ships hst map]. by rewrite insert_app_l by lia.
Qed.

(** X20. [Clone] makes a new dispatcher from the configuration of the
    receiver and registers the trigger of the new one as the last shutdown
    function of the receiver; no other dispatcher changes.  The clone
    handles no signals (its list of signals is empty, not the default
    one), carries the given name when one is given and it is not empty and
    the name of the receiver otherwise, and shares the debug flag, the
    logger and the router constructor; it starts with no virtual hosts, no
    registered functions, no links, no pre-middlewares and no server,
    whatever the receiver has. *)
Theorem Clone_spec (routes : HandlerId → Handler) (w : World) (p : ptr) (s : Ship)
    (name : list string) :
  ships w !! p = Some s → locked s = false →
  ∃ w' sc,
    Clone routes p name w = (Ok (length (ships w)), w') ∧
    hst w' = hst w ∧
    ships w' !! p =
      Some (set_stopfs
              (stopfs s ++ [mkStopT false (CbShutdown (length (ships w)))]) s) ∧
    (∀ q, q ≠ p → q < length (ships w) → ships w' !! q = ships w !! q) ∧
    ships w' !! length (ships w) = Some sc ∧
    Signals (config sc) = Some [] ∧
    Name (config sc) =
      match name with
      | n :: _ => if decide (n = "") then Name (config s) else n
      | [] => Name (config s)
      end ∧
    Debug (config sc) = Debug (config s) ∧
    cfg_Logger (config sc) = Some (default StdoutLogger (cfg_Logger (config s))) ∧
    router sc = default echo_NewRouter (NewRouter (config s)) ∧
    vhosts sc = Some ∅ ∧ stopfs sc = [] ∧ links sc = [] ∧ premiddlewares sc = [] ∧
    server sc = None.
Proof.
  intros E Hl. assert (Hp : p < length (ships w)) by (by eapply lookup_lt_Some).
  eexists _, _. split; [by apply Clone_run|]. cbn [ships hst].
  split; [done|]. split.
  { rewrite lookup_app_l by (by rewrite length_insert). by eapply lookup_insert_self. }
  split.
  { intros q Hq Hlt. rewrite lookup_app_l by (by rewrite length_insert).
    by rewrite list_lookup_insert_ne. }
  split.
  { apply list_lookup_middle. by rewrite length_insert. }
  unfold Clone_config.
  destruct name as [|n name]; [by repeat split|].
  case_decide; by repeat split.
Qed.

Lemma Clone_spec_witness :
  ∃ w' sc,
    Clone routes_demo 0 ["copy"; "ignored"] world_pair = (Ok 2, w') ∧
    registered <$> ships w' !! 0 = Some [CbUser 1; CbUser 2; CbShutdown 2] ∧
    ships w' !! 1 = Some ship_y ∧
    ships w' !! 2 = Some sc ∧
    Signals (config sc) = Some [] ∧ Name (config sc) = "copy" ∧ stopfs sc = [].
Proof.
  destruct (Clone_spec routes_demo world_pair 0 ship_x ["copy"; "ignored"]
              eq_refl eq_refl)
    as (w' & sc & Hrun & _ & Ep & Hq & Ec & Hsig & Hname & _ & _ & _ & _ & Hst & _).
  exists w', sc. split; [exact Hrun|]. split; [by rewrite Ep|].
  split; [rewrite (Hq 1) by (vm_compute; lia); reflexivity|].
  by repeat split.
Defined.

Lemma shutdown_alone (fuel : nat) (w : World) (p : ptr) (s : Ship) (fs : list nat) :
  ships w !! p = Some s → serving_alone p fs s →
  shutdown (run_callback (S (S fuel))) p w =
    (Ok (),
     mkWorld (<[p := shut_down fs s]> (ships w))
       (mkHState (ctxs (hst w)) (trace (hst w) ++ map EvCall fs))).
Proof.
  intros E (Hl & H1 & H2 & Hd & (srv & Hsrv & Hon) & Hs).
  by eapply shutdown_user.
Qed.

(** The shutdown of a serving parent: its user functions run, then the
    trigger of the clone, whose effect [Hc] describes. *)
Lemma shutdown_parent (fuel : nat) (w : World) (p c : ptr) (sp sc sc' : Ship)
    (fs : list nat) (tc : list event) :
  p ≠ c → ships w !! p = Some sp → ships w !! c = Some sc →
  serving_parent p c fs sp →
  (∀ w0, ships w0 !! c = Some sc →
     shutdown (run_callback (S (S fuel))) c w0 =
       (Ok (),
        mkWorld (<[c := sc']> (ships w0))
          (mkHState (ctxs (hst w0)) (trace (hst w0) ++ tc)))) →
  shutdown (run_callback (S (S (S (S fuel))))) p w =
    (Ok (),
     mkWorld (<[p := shut_down_parent c fs sp]> (<[c := sc']> (ships w)))
       (mkHState (ctxs (hst w)) (trace (hst w) ++ map EvCall fs ++ tc))).
Proof.
  intros Hne Ep Ec (Hl & H1 & H2 & Hd & (srv & Hsrv & Hon) & Hs) Hc.
  set (s0 := set_once1 true sp).
  set (w0 := mkWorld (<[p := s0]> (ships w)) (hst w)).
  assert (E0 : ships w0 !! p = Some s0) by (by eapply lookup_insert_self).
  set (s1 := set_once2 true s0).
  set (w1 := mkWorld (<[p := s1]> (ships w0)) (hst w0)).
  assert (E1 : ships w1 !! p = Some s1) by (by eapply lookup_insert_self).
  pose proof (runStop_loop_user (S (S fuel)) p fs [mkStopT false (CbShutdown c)] []
                w1 s1 E1 Hs) as L1.
  cbn [length app] in L1.
  set (s2 := set_stopfs _ s1) in L1. set (w2 := mkWorld _ _) in L1.
  assert (E2 : ships w2 !! p = Some s2) by (by eapply lookup_insert_self).
  assert (Hi : stopfs s2 !! length fs = Some (mkStopT false (CbShutdown c))).
  { subst s2. cbn [stopfs set_stopfs].
    rewrite lookup_app_r; rewrite length_map; [|lia]. by rewrite Nat.sub_diag. }
  set (s3 := set_stopfs (<[length fs := mkStopT true (CbShutdown c)]> (stopfs s2)) s2).
  set (w3 := mkWorld (<[p := s3]> (ships w2)) (hst w2)).
  assert (E3c : ships w3 !! c = Some sc).
  { subst w3 w2 w1 w0. cbn [ships]. by rewrite !list_lookup_insert_ne. }
  pose proof (Hc w3 E3c) as P1. set (w4 := mkWorld _ _) in P1.
  assert (E4 : ships w4 !! p = Some s3).
  { subst w4. cbn [ships]. rewrite list_lookup_insert_ne by done.
    by eapply lookup_insert_self. }
  assert (Hloop : for_each (stopT_run (run_callback (S (S (S fuel)))) p)
                    (seq 0 (length (stopfs s1))) w1 = (Ok (), w4)).
  { subst s1 s0. cbn [stopfs set_once1 set_once2].
    rewrite Hs, length_app, length_pending. cbn [length].
    rewrite seq_app, for_each_app. cbn [Nat.add].
    rewrite (bind_ok _ _ _ _ _ L1). cbn [seq for_each].
    rewrite bind_run, (stopT_run_fresh _ _ _ _ _ _ E2 Hi), run_callback_shutdown.
    fold s3. fold w3. by rewrite P1, ret_run. }
  pose proof (stop_ok _ w0 w4 p s0 s3 E0 Hl H2 Hloop E4 Hd) as Hstop.
  rewrite (shutdown_ok _ w _ p sp srv Ep Hl H1 Hsrv Hon
             ltac:(rewrite run_callback_stop; exact Hstop)).
  f_equal. subst w4 w3 w2 w1 w0. cbn [ships hst ctxs trace].
  f_equal.
  - rewrite !ships_insert_insert.
    rewrite (list_insert_insert_ne _ c p) by done.
    rewrite ships_insert_insert.
    f_equal. subst s3 s2 s1 s0.
    unfold shut_down_parent. cbn [stopfs set_stopfs set_once1 set_once2].
    replace (<[length fs:=mkStopT true (CbShutdown c)]>
               (map (λ id, mkStopT true (CbUser id)) fs ++
                [mkStopT false (CbShutdown c)]))
      with (ran fs ++ [mkStopT true (CbShutdown c)]).
    + by destruct sp.
    + unfold ran. rewrite <- (length_map (λ id, mkStopT true (CbUser id)) fs).
      rewrite insert_app_r_alt by lia. by rewrite Nat.sub_diag.
  - by rewrite <- app_assoc.
Qed.

(** X21. The shutdown of a parent reaches its clone, not the other way
    round.  For a serving parent with user functions [fs] and the trigger
    of its clone registered after them: when the clone serves too, with
    user functions [gs], the trigger of the parent runs [fs], then shuts
    the clone down, which runs [gs]; the trigger of the clone runs [gs]
    only and leaves the parent as it is, serving.  When the clone was
    never started, the trigger of the parent runs [fs] and uses up the
    gate of the clone, none of whose functions run. *)
Theorem Clone_cascade (fuel : nat) (w : World) (p c : ptr) (sp sc : Ship)
    (fs gs : list nat) :
  p ≠ c → ships w !! p = Some sp → ships w !! c = Some sc →
  serving_parent p c fs sp →
  (serving_alone c gs sc →
     shutdown (run_callback (S (S (S (S fuel))))) p w =
       (Ok (),
        mkWorld (<[p := shut_down_parent c fs sp]> (<[c := shut_down gs sc]> (ships w)))
          (mkHState (ctxs (hst w))
             (trace (hst w) ++ map EvCall fs ++ map EvCall gs))) ∧
     shutdown (run_callback (S (S fuel))) c w =
       (Ok (),
        mkWorld (<[c := shut_down gs sc]> (ships w))
          (mkHState (ctxs (hst w)) (trace (hst w) ++ map EvCall gs)))) ∧
  (locked sc = false → once1 sc = false → server sc = None →
     shutdown (run_callback (S (S (S (S fuel))))) p w =
       (Ok (),
        mkWorld (<[p := shut_down_parent c fs sp]> (<[c := set_once1 true sc]> (ships w)))
          (mkHState (ctxs (hst w)) (trace (hst w) ++ map EvCall fs)))).
Proof.
  intros Hne Ep Ec Hp. split.
  - intros Hc. split.
    + apply (shutdown_parent fuel w p c sp sc (shut_down gs sc) fs (map EvCall gs));
        try done.
      intros w0 E0. by apply shutdown_alone.
    + by apply shutdown_alone.
  - intros Hl H1 Hs.
    rewrite (shutdown_parent fuel w p c sp sc (set_once1 true sc) fs []); try done.
    + by rewrite app_nil_r.
    + intros w0 E0. rewrite (shutdown_not_started _ _ _ _ E0 Hl H1 Hs).
      rewrite app_nil_r. by destruct w0 as [? []].
Qed.

Lemma serving_parent_demo : serving_parent 0 1 [1] clone_parent.
Proof. repeat split; by eexists. Qed.

Lemma serving_alone_demo : serving_alone 1 [2] clone_child.
Proof. repeat split; by eexists. Qed.

Lemma Clone_cascade_witness :
  calls (trace (hst (exec (shutdown (run_callback 4) 0) world_clone))) = [1; 2] ∧
  calls (trace (hst (exec (shutdown (run_callback 2) 1) world_clone))) = [2] ∧
  ships (exec (shutdown (run_callback 2) 1) world_clone) !! 0 = Some clone_parent.
Proof.
  destruct (Clone_cascade 0 world_clone 0 1 clone_parent clone_child [1] [2]
              ltac:(discriminate) eq_refl eq_refl serving_parent_demo)
    as [Hserving _].
  destruct (Hserving serving_alone_demo) as [Hp Hc].
  unfold exec. rewrite Hp, Hc. cbn [snd hst trace ships].
  split; [reflexivity|]. split; reflexivity.
Defined.

(** ** Links among several dispatchers *)

Lemma count_snoc (q r : ptr) (l : list ptr) :
  count q (l ++ [r]) = count q l + (if decide (q = r) then 1 else 0).
Proof. rewrite count_app. cbn. lia. Qed.

Lemma links_grow_refl (w : World) : links_grow w w.
Proof. intros r sr0 E. by exists sr0. Qed.

Lemma links_grow_trans (w1 w2 w3 : World) :
  links_grow w1 w2 → links_grow w2 w3 → links_grow w1 w3.
Proof.
  intros H12 H23 r sr0 E. destruct (H12 r sr0 E) as (sr1 & E1 & Hc1).
  destruct (H23 r sr1 E1) as (sr2 & E2 & Hc2). exists sr2. split; [done|].
  intros x. specialize (Hc1 x). specialize (Hc2 x). lia.
Qed.

Lemma Link_symmetric (w : World) (a b : ptr) :
  a ≠ b → a < length (ships w) → b < length (ships w) →
  links_symmetric w →
  ∃ w', Link a b w = (Ok (), w') ∧ links_symmetric w' ∧
        length (ships w') = length (ships w) ∧ hst w' = hst w ∧
        links_grow w w' ∧ linked_once w' a b.
Proof.
  intros Hne Ha Hb Hsym.
  destruct (lookup_lt_is_Some_2 _ _ Ha) as [sa Ea].
  destruct (lookup_lt_is_Some_2 _ _ Hb) as [sb Eb].
  destruct (Hsym a b sa sb Hne Ea Eb) as [Hab Hle].
  destruct (linked b (links sa)) eqn:Hlk.
  - exists w. rewrite (Link_again _ _ _ _ Ea Hlk).
    split; [done|]. split; [done|]. split; [done|]. split; [done|].
    split; [apply links_grow_refl|].
    exists sa, sb. split; [done|]. split; [done|].
    destruct (decide (count b (links sa) = 0)) as [H0|H0]; [|lia].
    apply linked_count in H0. congruence.
  - rewrite (Link_first _ _ _ _ _ Ea Eb Hne Hlk).
    apply linked_count in Hlk.
    eexists. split; [reflexivity|]. cbn [ships hst].
    set (l' := <[b := set_links (links sb ++ [a]) sb]>
                 (<[a := set_links (links sa ++ [b]) sa]> (ships w))).
    assert (Ea' : l' !! a = Some (set_links (links sa ++ [b]) sa)).
    { subst l'. rewrite list_lookup_insert_ne by done. by eapply lookup_insert_self. }
    assert (Eb' : l' !! b = Some (set_links (links sb ++ [a]) sb)).
    { subst l'. apply list_lookup_insert_eq. by rewrite length_insert. }
    assert (Hother : ∀ q, q ≠ a → q ≠ b → l' !! q = ships w !! q).
    { intros q Hqa Hqb. subst l'. by rewrite !list_lookup_insert_ne. }
    assert (Hlinks : ∀ r sr, l' !! r = Some sr →
              ∃ sr0, ships w !! r = Some sr0 ∧
                     ∀ x, count x (links sr) =
                          count x (links sr0) +
                          (if decide (r = a) then if decide (x = b) then 1 else 0
                           else if decide (r = b) then if decide (x = a) then 1 else 0
                           else 0)).
    { intros r sr Er. destruct (decide (r = a)) as [->|Hra].
      - rewrite Ea' in Er. injection Er as <-. exists sa. split; [done|].
        intros x. cbn [links set_links]. by rewrite count_snoc.
      - destruct (decide (r = b)) as [->|Hrb].
        + rewrite Eb' in Er. injection Er as <-. exists sb. split; [done|].
          intros x. cbn [links set_links]. by rewrite count_snoc.
        + rewrite Hother in Er by done. exists sr. split; [done|].
          intros x. lia. }
    split; [|split; [by subst l'; rewrite !length_insert|split; [done|split]]].
    + intros p q sp sq Hpq Ep Eq. cbn [ships] in Ep, Eq.
      destruct (Hlinks p sp Ep) as (sp0 & Ep0 & Hcp).
      destruct (Hlinks q sq Eq) as (sq0 & Eq0 & Hcq).
      destruct (Hsym p q sp0 sq0 Hpq Ep0 Eq0) as [Hpq0 Hle0].
      rewrite Hcp, Hcq.
      repeat case_decide; subst; try lia; try congruence.
      all: try (assert (sp0 = sa) as -> by congruence);
           try (assert (sq0 = sb) as -> by congruence);
           try (assert (sp0 = sb) as -> by congruence);
           try (assert (sq0 = sa) as -> by congruence); lia.
    + intros r sr0 E0. cbn [ships].
      assert (Hr : r < length l').
      { subst l'. rewrite !length_insert. by eapply lookup_lt_Some. }
      destruct (lookup_lt_is_Some_2 _ _ Hr) as [sr Er].
      exists sr. split; [done|].
      destruct (Hlinks r sr Er) as (sr0' & E0' & Hc).
      assert (sr0' = sr0) as -> by congruence.
      intros x. rewrite Hc. lia.
    + exists (set_links (links sa ++ [b]) sa), (set_links (links sb ++ [a]) sb).
      cbn [ships links set_links]. split; [done|]. split; [done|].
      rewrite !count_snoc, !decide_True by done. lia.
Qed.

Lemma linked_once_grow (w w' : World) (a b : ptr) :
  a ≠ b → linked_once w a b → links_grow w w' → links_symmetric w' →
  linked_once w' a b.
Proof.
  intros Hne (sa & sb & Ea & Eb & Hab & Hba) Hg Hsym.
  destruct (Hg a sa Ea) as (sa' & Ea' & Hca).
  destruct (Hg b sb Eb) as (sb' & Eb' & Hcb).
  exists sa', sb'. split; [done|]. split; [done|].
  destruct (Hsym a b sa' sb' Hne Ea' Eb') as [Heq Hle].
  specialize (Hca b). specialize (Hcb a). lia.
Qed.

Lemma links_symmetric_fresh (w : World) :
  (∀ p s, ships w !! p = Some s → links s = []) → links_symmetric w.
Proof.
  intros Hnil p q sp sq _ Ep Eq.
  rewrite (Hnil p sp Ep), (Hnil q sq Eq). cbn. lia.
Qed.

(** X22. Among any number of dispatchers, [Link] keeps the lists of linked
    dispatchers symmetric and free of repetitions.  Starting from a state
    in which every dispatcher holds every other one at most once, and as
    often as that one holds it, any sequence of [Link] calls between
    distinct existing dispatchers returns and leaves such a state; no
    entry is ever removed, and the two dispatchers of every call of the
    sequence end up holding each other exactly once. *)
Theorem links_calls_symmetric (ls : list (ptr * ptr)) (w : World) :
  links_symmetric w →
  Forall (λ ab, ab.1 ≠ ab.2 ∧ ab.1 < length (ships w) ∧ ab.2 < length (ships w)) ls →
  ∃ w', links_calls ls w = (Ok (), w') ∧ links_symmetric w' ∧
        length (ships w') = length (ships w) ∧ hst w' = hst w ∧
        links_grow w w' ∧
        (∀ a b, (a, b) ∈ ls → linked_once w' a b).
Proof.
  revert w. induction ls as [|[a b] ls IH]; intros w Hsym Hall.
  - exists w. split; [done|]. split; [done|]. split; [done|]. split; [done|].
    split; [apply links_grow_refl|]. intros a b Hin. by apply elem_of_nil in Hin.
  - apply Forall_cons in Hall as [(Hne & Ha & Hb) Hall]. cbn [fst snd] in *.
    destruct (Link_symmetric w a b Hne Ha Hb Hsym)
      as (w1 & Hrun & Hsym1 & Hlen1 & Hh1 & Hg1 & H1).
    destruct (IH w1 Hsym1) as (w2 & Hrun2 & Hsym2 & Hlen2 & Hh2 & Hg2 & H2).
    { rewrite Hlen1. exact Hall. }
    exists w2. split.
    { unfold links_calls in *. cbn [for_each fst snd].
      by rewrite (bind_ok _ _ _ _ _ Hrun). }
    split; [done|]. split; [congruence|]. split; [congruence|].
    split; [by eapply links_grow_trans|].
    intros a' b' Hin. apply elem_of_cons in Hin as [[= -> ->]|Hin].
    + by apply (linked_once_grow w1 w2).
    + by apply H2.
Qed.

Lemma world_three_fresh :
  ∀ p s, ships world_three !! p = Some s → links s = [].
Proof.
  intros [|[|[|p]]] s; cbn; intros [= <-]; reflexivity.
Qed.

Lemma links_calls_symmetric_witness :
  ∃ w', links_calls [(0, 1); (1, 0); (2, 0); (0, 1); (1, 2)] world_three = (Ok (), w') ∧
        links_symmetric w' ∧ linked_once w' 2 0.
Proof.
  destruct (links_calls_symmetric [(0, 1); (1, 0); (2, 0); (0, 1); (1, 2)] world_three
              (links_symmetric_fresh _ world_three_fresh)
              ltac:(repeat constructor; cbn; (discriminate || lia)))
    as (w' & Hrun & Hsym & _ & _ & _ & Honce).
  exists w'. split; [exact Hrun|]. split; [exact Hsym|].
  apply Honce. set_solver.
Defined.

(** X23. Linking a dispatcher with itself: [Link] appends the other side
    to both lists without looking at the second, so a dispatcher that does
    not hold itself ends up holding itself twice; a further [Link] with
    itself changes nothing. *)
Theorem Link_self (w : World) (p : ptr) (s : Ship) :
  ships w !! p = Some s → linked p (links s) = false →
  let w' := mkWorld (<[p := set_links (links s ++ [p; p]) s]> (ships w)) (hst w) in
  Link p p w = (Ok (), w') ∧
  Link p p w' = (Ok (), w') ∧
  count p (links s ++ [p; p]) = 2.
Proof.
  intros E Hlk w'. split; [|split].
  - unfold Link. rewrite (bind_ok _ _ _ _ _ (ship_at_ok _ _ _ E)), Hlk.
    rewrite (bind_ok _ _ _ _ _ (update_ship_ok _ _ _ _ E)).
    assert (E1 : ships (mkWorld (<[p := set_links (links s ++ [p]) s]> (ships w))
                          (hst w)) !! p = Some (set_links (links s ++ [p]) s))
      by (by eapply lookup_insert_self).
    rewrite (update_ship_ok _ _ _ _ E1). cbn [ships hst links set_links].
    rewrite ships_insert_insert, <- app_assoc. subst w'. by destruct s.
  - apply (Link_again w' p p (set_links (links s ++ [p; p]) s)).
    + by eapply lookup_insert_self.
    + cbn [links set_links].
      replace (links s ++ [p; p]) with ((links s ++ [p]) ++ [p])
        by (by rewrite <- app_assoc).
      apply linked_last.
  - apply linked_count in Hlk. rewrite count_app, Hlk. cbn.
    by rewrite !decide_True by done.
Qed.

Lemma Link_self_witness :
  Link 0 0 world_demo =
    (Ok (), mkWorld [set_links [0; 0] (new_ship routes_demo cfg_demo)] (mkHState [] [])).
Proof.
  exact (proj1 (Link_self world_demo 0 (new_ship routes_demo cfg_demo)
                  eq_refl eq_refl)).
Defined.
